(** * Via Labs V4 client SDK: message hashing, address derivation,
      transaction building and setup flow.

    Shallow embedding of the TypeScript sources
    (packages/via-labs-sdk/src/{signatures,types,pdas,sdk}.ts,
    client/pdas.ts, scripts/process_message.ts, tools/setup.ts and the
    createMessageHash of the signature plan document).

    Buffers are lists of bytes held in [Z]; a bn.js number is the integer it
    denotes; a thrown exception is the [Throw] branch of [result]. *)

From Stdlib Require Import ZArith Lia List String Ascii.
From stdpp Require Import base option list gmap strings.
Import ListNotations.
Local Open Scope Z_scope.

(** ** Exceptions and results *)

(** Error kinds reported by the on-chain program. *)
Inductive ErrorKind :=
| AlreadyExists
| RecordNotFound
| DigestMismatch.

(** A thrown JavaScript value.  [Error msg] is [new Error(msg)] (also the
    failed assertions and range errors of the libraries); [ProgramError] is a
    failure reported by the program through [.rpc()]; [Thrown] is any other
    thrown object, whose [message] property may be undefined. *)
Inductive exn :=
| Error (message : string)
| ProgramError (kind : ErrorKind) (message : string)
| Thrown (message : option string).

Definition exn_message (e : exn) : option string :=
  match e with
  | Error m => Some m
  | ProgramError _ m => Some m
  | Thrown m => m
  end.

Inductive result (A : Type) :=
| Ok (a : A)
| Throw (e : exn).
Arguments Ok {A} a.
Arguments Throw {A} e.

#[global] Instance result_ret : MRet result := fun _ a => Ok a.
#[global] Instance result_bind : MBind result := fun _ _ f m =>
  match m with
  | Ok a => f a
  | Throw e => Throw e
  end.

Definition is_ok {A} (r : result A) : bool :=
  match r with Ok _ => true | Throw _ => false end.

(** ** Bytes and buffers *)

Definition Buffer := list Z.

Definition is_byte (b : Z) : Prop := 0 <= b < 256.

(** Little-endian bytes of a non-negative integer, [n] of them. *)
Fixpoint le_bytes (n : nat) (x : Z) : Buffer :=
  match n with
  | O => []
  | S n' => x mod 256 :: le_bytes n' (x / 256)
  end.

(** Big-endian bytes, [n] of them. *)
Definition be_bytes (n : nat) (x : Z) : Buffer := rev (le_bytes n x).

(** The integer a little-endian byte string denotes. *)
Fixpoint le_value (bs : Buffer) : Z :=
  match bs with
  | [] => 0
  | b :: bs' => b + 256 * le_value bs'
  end.

Definition be_value (bs : Buffer) : Z := le_value (rev bs).

(** [Buffer.alloc(n)]: a zero-filled buffer. *)
Definition Buffer_alloc (n : nat) : Buffer := repeat 0 n.

(** [Buffer.concat(list)]. *)
Definition Buffer_concat (parts : list Buffer) : Buffer := concat parts.

(** [Buffer.from(array)]: every entry is truncated to a byte. *)
Definition Buffer_from_array (xs : list Z) : Buffer := map (fun x => x mod 256) xs.

(** [Buffer.from(str)] with the default utf8 encoding, on ASCII text. *)
Definition Buffer_from_string (s : string) : Buffer :=
  map (fun c => Z.of_nat (nat_of_ascii c)) (list_ascii_of_string s).

(** [buf.writeUInt32LE(value, offset)]: range-checked, writes four bytes. *)
Definition writeUInt32LE (buf : Buffer) (value : Z) (offset : nat) : result Buffer :=
  if negb ((0 <=? value) && (value <=? 4294967295)) then
    Throw (Error "ERR_OUT_OF_RANGE: value")
  else if negb (offset + 4 <=? length buf)%nat then
    Throw (Error "ERR_OUT_OF_RANGE: offset")
  else
    Ok (<[(offset + 3)%nat := (value / 16777216) mod 256]>
        (<[(offset + 2)%nat := (value / 65536) mod 256]>
         (<[(offset + 1)%nat := (value / 256) mod 256]>
          (<[offset := value mod 256]> buf)))).

(** [buf.writeUInt16LE(value, offset)]. *)
Definition writeUInt16LE (buf : Buffer) (value : Z) (offset : nat) : result Buffer :=
  if negb ((0 <=? value) && (value <=? 65535)) then
    Throw (Error "ERR_OUT_OF_RANGE: value")
  else if negb (offset + 2 <=? length buf)%nat then
    Throw (Error "ERR_OUT_OF_RANGE: offset")
  else
    Ok (<[(offset + 1)%nat := (value / 256) mod 256]>
        (<[offset := value mod 256]> buf)).

(** ** bn.js numbers *)

(** A [BN] is a sign and a magnitude; it is held as the integer it denotes. *)
Definition BN := Z.

Definition isNeg (x : BN) : bool := x <? 0.

(** [x.toArrayLike(Buffer, 'le', len)]: the magnitude of [x] in [len]
    little-endian bytes; the library asserts that the magnitude fits. *)
Definition toArrayLike_le (x : BN) (len : nat) : result Buffer :=
  if Z.abs x <? 256 ^ Z.of_nat len then Ok (le_bytes len (Z.abs x))
  else Throw (Error "byte array longer than desired length").

(** [x.toString()] in base ten. *)
Definition digit_char (d : Z) : ascii := ascii_of_nat (48 + Z.to_nat d).

Fixpoint decimal_digits (fuel : nat) (x : Z) (acc : string) : string :=
  match fuel with
  | O => acc
  | S fuel' =>
      let acc' := String (digit_char (x mod 10)) acc in
      if x / 10 =? 0 then acc' else decimal_digits fuel' (x / 10) acc'
  end.

Definition BN_toString (x : BN) : string :=
  let digits := decimal_digits (S (Z.to_nat (Z.log2 (Z.abs x)))) (Z.abs x) EmptyString in
  if isNeg x then String "-"%char digits else digits.

(** ** Keccak-256 (js-sha3 [keccak_256])

    The sponge over Keccak-f[1600] with rate 136 bytes and the original
    Keccak padding (first padding byte 1, last padding byte or-ed with 128).
    The state is 25 lanes of 64 bits, lane (x, y) at index x + 5 y. *)

Module Keccak.

Definition w64 : Z := 2 ^ 64.

Definition rol64 (a : Z) (n : Z) : Z :=
  Z.lor (Z.shiftl a (n mod 64) mod w64) (Z.shiftr a (64 - n mod 64)).

Definition lane (s : list Z) (x y : nat) : Z := nth (x + 5 * y)%nat s 0.

Definition lanes_of (f : nat -> nat -> Z) : list Z :=
  map (fun i => f (i mod 5)%nat (i / 5)%nat) (seq 0 25).

Definition theta (s : list Z) : list Z :=
  let C x := Z.lxor (lane s x 0) (Z.lxor (lane s x 1) (Z.lxor (lane s x 2)
               (Z.lxor (lane s x 3) (lane s x 4)))) in
  let D x := Z.lxor (C ((x + 4) mod 5)%nat) (rol64 (C ((x + 1) mod 5)%nat) 1) in
  lanes_of (fun x y => Z.lxor (lane s x y) (D x)).

(** One step of the rho/pi walk: position, lane being carried, state. *)
Definition rho_pi_step (acc : nat * nat * Z * list Z) (t : nat)
  : nat * nat * Z * list Z :=
  let '(x, y, current, s) := acc in
  let x' := y in
  let y' := ((2 * x + 3 * y) mod 5)%nat in
  let r := (Z.of_nat ((t + 1) * (t + 2) / 2)) in
  (x', y', lane s x' y', <[(x' + 5 * y')%nat := rol64 current r]> s).

Definition rho_pi (s : list Z) : list Z :=
  snd (fold_left rho_pi_step (seq 0 24) (1%nat, 0%nat, lane s 1 0, s)).

Definition chi (s : list Z) : list Z :=
  lanes_of (fun x y =>
    Z.lxor (lane s x y)
      (Z.land (Z.lxor (lane s ((x + 1) mod 5)%nat y) (w64 - 1))
              (lane s ((x + 2) mod 5)%nat y))).

(** The round constant comes from an 8-bit shift register carried from
    round to round. *)
Definition lfsr (R : Z) : Z := Z.lxor (Z.shiftl R 1) (Z.shiftr R 7 * 113) mod 256.

Definition iota_step (acc : Z * Z) (j : nat) : Z * Z :=
  let '(R, a) := acc in
  let R' := lfsr R in
  (R', if Z.testbit R' 1 then Z.lxor a (Z.shiftl 1 (2 ^ Z.of_nat j - 1)) else a).

Definition round (acc : Z * list Z) : Z * list Z :=
  let '(R, s) := acc in
  let s1 := chi (rho_pi (theta s)) in
  let '(R', a) := fold_left iota_step (seq 0 7) (R, lane s1 0 0) in
  (R', <[0%nat := a]> s1).

Definition keccak_f (s : list Z) : list Z :=
  snd (Nat.iter 24 round (1, s)).

Definition rate : nat := 136.

Definition pad (msg : Buffer) : Buffer :=
  let q := (rate - length msg mod rate)%nat in
  if (q =? 1)%nat then msg ++ [129]
  else msg ++ [1] ++ repeat 0 (q - 2) ++ [128].

Definition xor_block (s : list Z) (block : Buffer) : list Z :=
  imap (fun i a =>
          if (i <? 17)%nat then Z.lxor a (le_value (take 8 (drop (8 * i) block)))
          else a) s.

Fixpoint absorb (fuel : nat) (s : list Z) (bs : Buffer) : list Z :=
  match fuel, bs with
  | S fuel', _ :: _ => absorb fuel' (keccak_f (xor_block s (take rate bs))) (drop rate bs)
  | _, _ => s
  end.

Definition digest (msg : Buffer) : Buffer :=
  let p := pad msg in
  let s := absorb (length p) (repeat 0 25) p in
  le_bytes 8 (lane s 0 0) ++ le_bytes 8 (lane s 1 0) ++
  le_bytes 8 (lane s 2 0) ++ le_bytes 8 (lane s 3 0).

End Keccak.

(** Lower-case hexadecimal text, two characters per byte. *)
Definition hex_char (d : Z) : ascii :=
  if d <? 10 then ascii_of_nat (48 + Z.to_nat d) else ascii_of_nat (87 + Z.to_nat d).

Definition hex_digit (c : ascii) : option Z :=
  let n := Z.of_nat (nat_of_ascii c) in
  if (48 <=? n) && (n <=? 57) then Some (n - 48)
  else if (97 <=? n) && (n <=? 102) then Some (n - 87)
  else if (65 <=? n) && (n <=? 70) then Some (n - 55)
  else None.

Fixpoint hex_of_bytes (bs : Buffer) : string :=
  match bs with
  | [] => EmptyString
  | b :: bs' => String (hex_char (b / 16)) (String (hex_char (b mod 16)) (hex_of_bytes bs'))
  end.

(** [Buffer.from(text, 'hex')]: decodes pairs of hex digits and stops at the
    first pair that is not valid. *)
Fixpoint Buffer_from_hex (s : string) : Buffer :=
  match s with
  | String c1 (String c2 rest) =>
      match hex_digit c1, hex_digit c2 with
      | Some h, Some l => (16 * h + l) :: Buffer_from_hex rest
      | _, _ => []
      end
  | _ => []
  end.

(** [sha3.keccak_256(data)]: the digest as hexadecimal text. *)
Definition keccak_256 (data : Buffer) : string := hex_of_bytes (Keccak.digest data).

(** ** SHA-256 (Node's [createHash('sha256')]) *)

Module Sha256.

Definition w32 : Z := 2 ^ 32.

Definition add32 (x y : Z) : Z := (x + y) mod w32.

Definition rotr (n x : Z) : Z :=
  Z.lor (Z.shiftr x n) (Z.shiftl x (32 - n) mod w32).

Definition Ch (x y z : Z) : Z :=
  Z.lxor (Z.land x y) (Z.land (Z.lxor x (w32 - 1)) z).
Definition Maj (x y z : Z) : Z :=
  Z.lxor (Z.land x y) (Z.lxor (Z.land x z) (Z.land y z)).
Definition bigsigma0 (x : Z) : Z := Z.lxor (rotr 2 x) (Z.lxor (rotr 13 x) (rotr 22 x)).
Definition bigsigma1 (x : Z) : Z := Z.lxor (rotr 6 x) (Z.lxor (rotr 11 x) (rotr 25 x)).
Definition smallsigma0 (x : Z) : Z := Z.lxor (rotr 7 x) (Z.lxor (rotr 18 x) (Z.shiftr x 3)).
Definition smallsigma1 (x : Z) : Z := Z.lxor (rotr 17 x) (Z.lxor (rotr 19 x) (Z.shiftr x 10)).

(** The constants are the leading 32 fractional bits of the square roots
    (initial state) and cube roots (round constants) of the first primes. *)
Definition is_prime (p : nat) : bool :=
  forallb (fun d => negb (p mod d =? 0)%nat) (seq 2 (p - 2)).

Definition primes : list Z :=
  map Z.of_nat (filter (fun p => is_prime p) (seq 2 310)).

Fixpoint cube_root_bits (bit : nat) (n r : Z) : Z :=
  let r' := r + 2 ^ Z.of_nat bit in
  let r1 := if r' * r' * r' <=? n then r' else r in
  match bit with
  | O => r1
  | S bit' => cube_root_bits bit' n r1
  end.

Definition initial_state : list Z :=
  Eval vm_compute in map (fun p => Z.sqrt (p * 2 ^ 64) mod w32) (take 8 primes).

Definition round_constants : list Z :=
  Eval vm_compute in map (fun p => cube_root_bits 36 (p * 2 ^ 96) 0 mod w32) primes.

Definition pad (msg : Buffer) : Buffer :=
  let l := length msg in
  let zeros := ((119 - l mod 64) mod 64)%nat in
  msg ++ [128] ++ repeat 0 zeros ++ be_bytes 8 (8 * Z.of_nat l).

Definition schedule_step (W : list Z) (t : nat) : list Z :=
  W ++ [add32 (add32 (smallsigma1 (nth (t - 2) W 0)) (nth (t - 7) W 0))
              (add32 (smallsigma0 (nth (t - 15) W 0)) (nth (t - 16) W 0))].

Definition schedule (block : Buffer) : list Z :=
  let W16 := map (fun i => be_value (take 4 (drop (4 * i) block))) (seq 0 16) in
  fold_left schedule_step (seq 16 48) W16.

Record regs := Regs { ra : Z; rb : Z; rc : Z; rd : Z; re : Z; rf : Z; rg : Z; rh : Z }.

Definition compress_step (W : list Z) (v : regs) (t : nat) : regs :=
  let T1 := add32 (add32 (add32 (rh v) (bigsigma1 (re v)))
                         (add32 (Ch (re v) (rf v) (rg v)) (nth t round_constants 0)))
                  (nth t W 0) in
  let T2 := add32 (bigsigma0 (ra v)) (Maj (ra v) (rb v) (rc v)) in
  Regs (add32 T1 T2) (ra v) (rb v) (rc v) (add32 (rd v) T1) (re v) (rf v) (rg v).

Definition process_block (h : regs) (block : Buffer) : regs :=
  let v := fold_left (compress_step (schedule block)) (seq 0 64) h in
  Regs (add32 (ra h) (ra v)) (add32 (rb h) (rb v)) (add32 (rc h) (rc v))
       (add32 (rd h) (rd v)) (add32 (re h) (re v)) (add32 (rf h) (rf v))
       (add32 (rg h) (rg v)) (add32 (rh h) (rh v)).

Fixpoint blocks (fuel : nat) (h : regs) (bs : Buffer) : regs :=
  match fuel, bs with
  | S fuel', _ :: _ => blocks fuel' (process_block h (take 64 bs)) (drop 64 bs)
  | _, _ => h
  end.

Definition digest (msg : Buffer) : Buffer :=
  let p := pad msg in
  let i k := nth k initial_state 0 in
  let h := blocks (length p)
             (Regs (i 0%nat) (i 1%nat) (i 2%nat) (i 3%nat) (i 4%nat) (i 5%nat) (i 6%nat) (i 7%nat)) p in
  be_bytes 4 (ra h) ++ be_bytes 4 (rb h) ++ be_bytes 4 (rc h) ++ be_bytes 4 (rd h) ++
  be_bytes 4 (re h) ++ be_bytes 4 (rf h) ++ be_bytes 4 (rg h) ++ be_bytes 4 (rh h).

End Sha256.

(** ** signatures.ts *)

(** [encodeLengthPrefixed]: a u32 little-endian length, then the data. *)
Definition encodeLengthPrefixed (data : Buffer) : result Buffer :=
  let lengthBuffer := Buffer_alloc 4 in
  lengthBuffer ← writeUInt32LE lengthBuffer (Z.of_nat (length data)) 0;
  mret (Buffer_concat [lengthBuffer; data]).

(** The [allData] buffer of [createMessageHash]: the parts pushed on
    [encoded], concatenated. *)
Definition createMessageHash_allData
    (txId sourceChainId destChainId : BN)
    (sender recipient onChainData offChainData : Buffer) : result Buffer :=
  let encoded : list Buffer := [] in
  b ← toArrayLike_le txId 16;
  let encoded := encoded ++ [b] in
  b ← toArrayLike_le sourceChainId 8;
  let encoded := encoded ++ [b] in
  b ← toArrayLike_le destChainId 8;
  let encoded := encoded ++ [b] in
  b ← encodeLengthPrefixed sender;
  let encoded := encoded ++ [b] in
  b ← encodeLengthPrefixed recipient;
  let encoded := encoded ++ [b] in
  b ← encodeLengthPrefixed onChainData;
  let encoded := encoded ++ [b] in
  b ← encodeLengthPrefixed offChainData;
  let encoded := encoded ++ [b] in
  mret (Buffer_concat encoded).

Definition createMessageHash
    (txId sourceChainId destChainId : BN)
    (sender recipient onChainData offChainData : Buffer) : result Buffer :=
  allData ← createMessageHash_allData txId sourceChainId destChainId
              sender recipient onChainData offChainData;
  let hash := keccak_256 allData in
  mret (Buffer_from_hex hash).

(** ** The createMessageHash of the signature plan document

    SHA-256 over the same three integers, then one-byte lengths for sender
    and recipient and two-byte lengths for the two data fields.  The hasher
    is the bytes fed to it so far. *)
Module Plan.

Definition Hasher := Buffer.
Definition createHash_sha256 : Hasher := [].
Definition update (h : Hasher) (data : Buffer) : Hasher := h ++ data.
Definition digest (h : Hasher) : Buffer := Sha256.digest h.

Definition createMessageHash_hasher
    (txId sourceChainId destChainId : BN)
    (sender recipient onChainData offChainData : Buffer) : result Hasher :=
  let hasher := createHash_sha256 in
  b ← toArrayLike_le txId 16;
  let hasher := update hasher b in
  b ← toArrayLike_le sourceChainId 8;
  let hasher := update hasher b in
  b ← toArrayLike_le destChainId 8;
  let hasher := update hasher b in
  let hasher := update hasher (Buffer_from_array [Z.of_nat (length sender)]) in
  let hasher := update hasher sender in
  let hasher := update hasher (Buffer_from_array [Z.of_nat (length recipient)]) in
  let hasher := update hasher recipient in
  let onChainLen := Buffer_alloc 2 in
  onChainLen ← writeUInt16LE onChainLen (Z.of_nat (length onChainData)) 0;
  let hasher := update hasher onChainLen in
  let hasher := update hasher onChainData in
  let offChainLen := Buffer_alloc 2 in
  offChainLen ← writeUInt16LE offChainLen (Z.of_nat (length offChainData)) 0;
  let hasher := update hasher offChainLen in
  let hasher := update hasher offChainData in
  mret hasher.

Definition createMessageHash
    (txId sourceChainId destChainId : BN)
    (sender recipient onChainData offChainData : Buffer) : result Buffer :=
  hasher ← createMessageHash_hasher txId sourceChainId destChainId
             sender recipient onChainData offChainData;
  mret (digest hasher).

End Plan.

(** ** The message of the data model and its canonical encoding *)

Record Message := mkMessage {
  txId : BN;
  sourceChainId : BN;
  destChainId : BN;
  sender : Buffer;
  recipient : Buffer;
  onChainData : Buffer;
  offChainData : Buffer
}.

(** The encoding rule in the words of the specification: three fixed-width
    little-endian integers, then four fields each behind a four-byte
    little-endian length. *)
Definition length_prefixed (data : Buffer) : Buffer :=
  le_bytes 4 (Z.of_nat (length data)) ++ data.

Definition canonical_encoding (m : Message) : Buffer :=
  le_bytes 16 (txId m) ++ le_bytes 8 (sourceChainId m) ++ le_bytes 8 (destChainId m) ++
  length_prefixed (sender m) ++ length_prefixed (recipient m) ++
  length_prefixed (onChainData m) ++ length_prefixed (offChainData m).

Definition hash_message (m : Message) : result Buffer :=
  createMessageHash (txId m) (sourceChainId m) (destChainId m)
    (sender m) (recipient m) (onChainData m) (offChainData m).

(** Field bounds of the data model. *)
Definition ids_in_range (m : Message) : Prop :=
  0 <= txId m < 2 ^ 128 /\ 0 <= sourceChainId m < 2 ^ 64 /\ 0 <= destChainId m < 2 ^ 64.

Definition lengths_fit_u32 (m : Message) : Prop :=
  Z.of_nat (length (sender m)) < 2 ^ 32 /\ Z.of_nat (length (recipient m)) < 2 ^ 32 /\
  Z.of_nat (length (onChainData m)) < 2 ^ 32 /\ Z.of_nat (length (offChainData m)) < 2 ^ 32.

Definition within_field_bounds (m : Message) : Prop :=
  ids_in_range m /\
  (length (sender m) <= 64)%nat /\ (length (recipient m) <= 64)%nat /\
  (length (onChainData m) <= 1024)%nat /\ (length (offChainData m) <= 4096)%nat.

(** ** types.ts *)

Inductive RegistryType := via | chain | project.

(** [validateChainId]: [!chainId || chainId.isNeg()] throws; [None] is a
    null or undefined argument. *)
Definition validateChainId (chainId : option BN) : result unit :=
  match chainId with
  | None => Throw (Error ("Invalid chain ID: " +:+ "null"))
  | Some c =>
      if isNeg c then Throw (Error ("Invalid chain ID: " +:+ BN_toString c))
      else Ok tt
  end.

Definition validateTxId (txId : option BN) : result unit :=
  match txId with
  | None => Throw (Error ("Invalid TX ID: " +:+ "null"))
  | Some t =>
      if isNeg t then Throw (Error ("Invalid TX ID: " +:+ BN_toString t))
      else Ok tt
  end.

(** An identifier the validators refuse: null, or negative. *)
Definition refused (x : option BN) : Prop :=
  match x with
  | None => True
  | Some v => v < 0
  end.

(** [x?.toString() ?? 'null'] *)
Definition shown (x : option BN) : string :=
  match x with
  | None => "null"
  | Some v => BN_toString v
  end.

(** ** constants.ts *)

Definition SOLANA_CHAIN_ID : BN := 9999999999999999999.
Definition AVALANCHE_CHAIN_ID : BN := 43113.
Definition CHAIN_ID_BYTES : nat := 8.
Definition TX_ID_BYTES : nat := 16.

(** Reading a property of a null or undefined value. *)
Definition deref {A} (x : option A) : result A :=
  match x with
  | Some a => Ok a
  | None => Throw (Thrown (Some "Cannot read properties of null"))
  end.

(** ** Address derivation

    [PublicKey.findProgramAddressSync] of web3.js is taken as given: it maps
    the seeds and the program id to an address and a bump. *)
Section Derivation.

Context {PublicKey : Type}.
Variable findProgramAddressSync : list Buffer -> PublicKey -> PublicKey * Z.
Variable programId : PublicKey.

(** *** packages/via-labs-sdk/src/pdas.ts *)

(** The default branch of the switch is out of reach of [RegistryType]. *)
Definition registryTypeToDiscriminant (registryType : RegistryType) : Z :=
  match registryType with
  | via => 0
  | chain => 1
  | project => 2
  end.

Definition getGatewayPda (chainId : option BN) : result PublicKey :=
  _ ← validateChainId chainId;
  c ← deref chainId;
  seed ← toArrayLike_le c CHAIN_ID_BYTES;
  let '(gatewayPda, _) :=
    findProgramAddressSync [Buffer_from_string "gateway"; seed] programId in
  mret gatewayPda.

Definition getSignerRegistryPda (registryType : RegistryType) (chainId : option BN)
  : result PublicKey :=
  _ ← validateChainId chainId;
  let discriminantBuffer := Buffer_from_array [registryTypeToDiscriminant registryType] in
  c ← deref chainId;
  seed ← toArrayLike_le c CHAIN_ID_BYTES;
  let '(signerRegistryPda, _) :=
    findProgramAddressSync
      [Buffer_from_string "signer_registry"; discriminantBuffer; seed] programId in
  mret signerRegistryPda.

Definition getCounterPda (sourceChainId : option BN) : result PublicKey :=
  _ ← validateChainId sourceChainId;
  c ← deref sourceChainId;
  seed ← toArrayLike_le c CHAIN_ID_BYTES;
  let '(counterPda, _) :=
    findProgramAddressSync [Buffer_from_string "counter"; seed] programId in
  mret counterPda.

Definition getTxIdPda (sourceChainId txId : option BN) : result PublicKey :=
  _ ← validateChainId sourceChainId;
  _ ← validateTxId txId;
  c ← deref sourceChainId;
  seed1 ← toArrayLike_le c CHAIN_ID_BYTES;
  t ← deref txId;
  seed2 ← toArrayLike_le t TX_ID_BYTES;
  let '(txIdPda, _) :=
    findProgramAddressSync [Buffer_from_string "tx"; seed1; seed2] programId in
  mret txIdPda.

(** The address the derivation gives for a list of seeds. *)
Definition derive (seeds : list Buffer) : PublicKey :=
  fst (findProgramAddressSync seeds programId).

End Derivation.

(** ** client/pdas.ts *)
Module Client.
Section Derivation.

Context {PublicKey : Type}.
Variable findProgramAddressSync : list Buffer -> PublicKey -> PublicKey * Z.
Variable programId : PublicKey.

(** Modelled from the spec: the program's interface description (the IDL
    under target/) is not part of the sources; its [signerRegistryType]
    enumeration lists the layers in discriminant order Via=0, Chain=1,
    Project=2. *)
Definition idl_signerRegistryType : list RegistryType := [via; chain; project].

Definition RegistryType_eqb (a b : RegistryType) : bool :=
  match a, b with
  | via, via | chain, chain | project, project => true
  | _, _ => false
  end.

Fixpoint variant_index (variants : list RegistryType) (v : RegistryType) (i : Z) : option Z :=
  match variants with
  | [] => None
  | v' :: rest => if RegistryType_eqb v' v then Some i else variant_index rest v (i + 1)
  end.

(** [program.coder.types.encode("signerRegistryType", { [registryType]: {} })]:
    a field-less enum variant is encoded as one byte, its index in the
    enumeration. *)
Definition coder_types_encode_signerRegistryType (registryType : RegistryType)
  : result Buffer :=
  match variant_index idl_signerRegistryType registryType 0 with
  | Some i => Ok (Buffer_from_array [i])
  | None => Throw (Error "Invalid enum variant")
  end.

Definition getGatewayPda : result PublicKey :=
  seed ← toArrayLike_le SOLANA_CHAIN_ID 8;
  let '(gatewayPda, _) :=
    findProgramAddressSync [Buffer_from_string "gateway"; seed] programId in
  mret gatewayPda.

Definition getSignerRegistryPdaForChain (registryType : RegistryType) (chainId : BN)
  : result PublicKey :=
  discriminantBuffer ← coder_types_encode_signerRegistryType registryType;
  seed ← toArrayLike_le chainId 8;
  let '(signerRegistryPda, _) :=
    findProgramAddressSync
      [Buffer_from_string "signer_registry"; discriminantBuffer; seed] programId in
  mret signerRegistryPda.

Definition getSignerRegistryPda (registryType : RegistryType) : result PublicKey :=
  getSignerRegistryPdaForChain registryType SOLANA_CHAIN_ID.

Definition getCounterPda (sourceChainId : BN) : result PublicKey :=
  seed ← toArrayLike_le sourceChainId 8;
  let '(counterPda, _) :=
    findProgramAddressSync [Buffer_from_string "counter"; seed] programId in
  mret counterPda.

Definition getTxIdPda (sourceChainId txId : BN) : result PublicKey :=
  seed1 ← toArrayLike_le sourceChainId 8;
  seed2 ← toArrayLike_le txId 16;
  let '(txIdPda, _) :=
    findProgramAddressSync [Buffer_from_string "tx"; seed1; seed2] programId in
  mret txIdPda.

End Derivation.
End Client.


(** ** Effects: calls to the cluster

    An SDK method runs against the state of the outside world (the cluster
    and its accounts); it returns or throws, and leaves a new state. *)
Definition M (World A : Type) : Type := World -> result A * World.

#[global] Instance M_ret {World} : MRet (M World) := fun _ a w => (Ok a, w).
#[global] Instance M_bind {World} : MBind (M World) := fun _ _ f m w =>
  match m w with
  | (Ok a, w') => f a w'
  | (Throw e, w') => (Throw e, w')
  end.

Definition lift {World A} (r : result A) : M World A := fun w => (r, w).
Definition throw {World A} (e : exn) : M World A := fun w => (Throw e, w).

(** [try { body } catch (e) { handler }]. *)
Definition try_catch {World A} (body : M World A) (handler : exn -> M World A)
  : M World A := fun w =>
  match body w with
  | (Ok a, w') => (Ok a, w')
  | (Throw e, w') => handler e w'
  end.

(** [for (const x of xs) { body }]. *)
Fixpoint for_of {World A} (xs : list A) (body : A -> M World unit) : M World unit :=
  match xs with
  | [] => mret tt
  | x :: rest => _ ← body x; for_of rest body
  end.

(** [text.includes(part)]. *)
Definition includes (text part : string) : bool :=
  match String.index 0 part text with
  | Some _ => true
  | None => false
  end.

(** [e.message?.includes(part)], as a condition. *)
Definition message_includes (e : exn) (part : string) : bool :=
  match exn_message e with
  | Some m => includes m part
  | None => false
  end.

(** [error instanceof Error]. *)
Definition instanceof_Error (e : exn) : bool :=
  match e with
  | Thrown _ => false
  | _ => true
  end.

(** ** Instructions and transactions *)

Record MessageSignature (PublicKey : Type) := mkMessageSignature {
  signature : Buffer;
  signer : PublicKey
}.
Arguments mkMessageSignature {PublicKey}.
Arguments signature {PublicKey}.
Arguments signer {PublicKey}.

(** The signature record in the form the Anchor coder takes. *)
Record AnchorSignature (PublicKey : Type) := mkAnchorSignature {
  anchor_signature : list Z;
  anchor_signer : PublicKey
}.
Arguments mkAnchorSignature {PublicKey}.
Arguments anchor_signature {PublicKey}.
Arguments anchor_signer {PublicKey}.

Definition formatSignaturesForAnchor {PublicKey} (signatures : list (MessageSignature PublicKey))
  : list (AnchorSignature PublicKey) :=
  map (fun sig => mkAnchorSignature (signature sig) (signer sig)) signatures.

(** A call of a program method with its arguments. *)
Inductive Instruction (PublicKey : Type) :=
| IxInitializeGateway (chainId : BN)
| IxInitializeCounter (sourceChainId : BN)
| IxInitializeSignerRegistry (registryType : RegistryType) (chainId : BN)
    (signers : list PublicKey) (threshold : Z)
| IxCreateTxPda (m : Message) (signatures : list (AnchorSignature PublicKey))
| IxProcessMessage (m : Message) (signatures : list (AnchorSignature PublicKey)).
Arguments IxInitializeGateway {PublicKey}.
Arguments IxInitializeCounter {PublicKey}.
Arguments IxInitializeSignerRegistry {PublicKey}.
Arguments IxCreateTxPda {PublicKey}.
Arguments IxProcessMessage {PublicKey}.

(** A method call with the accounts given to [accountsPartial]. *)
Record Request (PublicKey : Type) := mkRequest {
  instruction : Instruction PublicKey;
  accounts : list (string * PublicKey)
}.
Arguments mkRequest {PublicKey}.
Arguments instruction {PublicKey}.
Arguments accounts {PublicKey}.

Fixpoint assoc {A} (name : string) (l : list (string * A)) : option A :=
  match l with
  | [] => None
  | (k, v) :: rest => if String.eqb k name then Some v else assoc name rest
  end.

Definition account {PublicKey} (name : string) (req : Request PublicKey) : option PublicKey :=
  assoc name (accounts req).

(** An instruction of a transaction: a check by the system's Ed25519
    program of one signature by one key over one message, or a call of the
    gateway program. *)
Inductive TransactionInstruction (PublicKey : Type) :=
| Ed25519Verify (publicKey : PublicKey) (message : Buffer) (sig : Buffer)
| ProgramCall (req : Request PublicKey).
Arguments Ed25519Verify {PublicKey}.
Arguments ProgramCall {PublicKey}.

Definition Transaction (PublicKey : Type) : Type := list (TransactionInstruction PublicKey).

(** [createEd25519Instruction]: web3.js refuses a signature that is not 64
    bytes long. *)
Definition createEd25519Instruction {PublicKey}
    (sig : Buffer) (publicKey : PublicKey) (message : Buffer)
  : result (TransactionInstruction PublicKey) :=
  if (length sig =? 64)%nat then Ok (Ed25519Verify publicKey message sig)
  else Throw (Error "Signature must be 64 bytes").

(** The loop [for (const sig of signatures) tx.add(createEd25519Instruction(...))]. *)
Fixpoint add_ed25519_instructions {PublicKey}
    (tx : Transaction PublicKey) (signatures : list (MessageSignature PublicKey))
    (messageHash : Buffer) : result (Transaction PublicKey) :=
  match signatures with
  | [] => Ok tx
  | sig :: rest =>
      ix ← createEd25519Instruction (signature sig) (signer sig) messageHash;
      add_ed25519_instructions (tx ++ [ix]) rest messageHash
  end.

(** ** packages/via-labs-sdk/src/sdk.ts

    The SDK object holds the program (its id, the wallet, and the two ways
    of submitting: [.rpc()] for one method call and [sendAndConfirm] for a
    built transaction).  Both submissions are calls to the cluster.
    Building a method call ([.instruction()]) yields the call with the
    arguments and accounts it was given. *)
Section Sdk.

Context {PublicKey World : Type}.
Variable findProgramAddressSync : list Buffer -> PublicKey -> PublicKey * Z.
Variable programId : PublicKey.
Variable wallet : PublicKey.
Variable SYSVAR_INSTRUCTIONS_PUBKEY : PublicKey.
Variable rpc : Request PublicKey -> M World string.
Variable sendAndConfirm : Transaction PublicKey -> M World string.

Local Abbreviation pda_gateway := (getGatewayPda findProgramAddressSync programId).
Local Abbreviation pda_registry := (getSignerRegistryPda findProgramAddressSync programId).
Local Abbreviation pda_counter := (getCounterPda findProgramAddressSync programId).
Local Abbreviation pda_tx := (getTxIdPda findProgramAddressSync programId).

(** Gateway and counter *)

Definition initializeGateway (chainId : BN) : M World string :=
  rpc (mkRequest (IxInitializeGateway chainId) []).

Definition initializeCounter_request (sourceChainId : BN) : result (Request PublicKey) :=
  gateway ← pda_gateway (Some sourceChainId);
  mret (mkRequest (IxInitializeCounter sourceChainId)
          [("gateway"%string, gateway); ("authority"%string, wallet)]).

Definition initializeCounter (sourceChainId : BN) : M World string :=
  req ← lift (initializeCounter_request sourceChainId);
  rpc req.

(** Registries *)

Definition getRegistryEnum (type : RegistryType) : RegistryType :=
  match type with
  | via => via
  | chain => chain
  | project => project
  end.

Definition initializeRegistry_request (type : RegistryType) (chainId : BN)
    (signers : list PublicKey) (threshold : Z) : result (Request PublicKey) :=
  let ix := IxInitializeSignerRegistry (getRegistryEnum type) chainId signers threshold in
  gateway ← pda_gateway (Some chainId);
  signerRegistry ← pda_registry type (Some chainId);
  mret (mkRequest ix
          [("gateway"%string, gateway); ("signerRegistry"%string, signerRegistry);
           ("authority"%string, wallet)]).

Definition initializeRegistry (type : RegistryType) (chainId : BN)
    (signers : list PublicKey) (threshold : Z) : M World string :=
  req ← lift (initializeRegistry_request type chainId signers threshold);
  rpc req.

(** Messages *)

Definition createTxPda_request
    (txId sourceChainId destChainId : BN)
    (sender recipient onChainData offChainData : Buffer)
    (signatures : list (AnchorSignature PublicKey)) : result (Request PublicKey) :=
  let ix := IxCreateTxPda
              (mkMessage txId sourceChainId destChainId sender recipient onChainData offChainData)
              signatures in
  txIdPda ← pda_tx (Some sourceChainId) (Some txId);
  counterPda ← pda_counter (Some sourceChainId);
  mret (mkRequest ix
          [("txIdPda"%string, txIdPda); ("counterPda"%string, counterPda);
           ("relayer"%string, wallet)]).

Definition createTxPda
    (txId sourceChainId destChainId : BN)
    (sender recipient onChainData offChainData : Buffer)
    (signatures : list (AnchorSignature PublicKey)) : M World string :=
  req ← lift (createTxPda_request txId sourceChainId destChainId
                sender recipient onChainData offChainData signatures);
  rpc req.

Definition processMessage_request
    (txId sourceChainId destChainId : BN)
    (sender recipient onChainData offChainData : Buffer)
    (signatures : list (AnchorSignature PublicKey)) : result (Request PublicKey) :=
  let ix := IxProcessMessage
              (mkMessage txId sourceChainId destChainId sender recipient onChainData offChainData)
              signatures in
  gateway ← pda_gateway (Some destChainId);
  txIdPda ← pda_tx (Some sourceChainId) (Some txId);
  viaRegistry ← pda_registry via (Some destChainId);
  chainRegistry ← pda_registry chain (Some sourceChainId);
  projectRegistry ← pda_registry project (Some destChainId);
  mret (mkRequest ix
          [("gateway"%string, gateway); ("txIdPda"%string, txIdPda);
           ("viaRegistry"%string, viaRegistry); ("chainRegistry"%string, chainRegistry);
           ("projectRegistry"%string, projectRegistry); ("relayer"%string, wallet)]).

Definition processMessage
    (txId sourceChainId destChainId : BN)
    (sender recipient onChainData offChainData : Buffer)
    (signatures : list (AnchorSignature PublicKey)) : M World string :=
  req ← lift (processMessage_request txId sourceChainId destChainId
                sender recipient onChainData offChainData signatures);
  rpc req.

(** Signature-enabled methods: the transaction that is built, then its
    submission. *)

Definition createTxPdaWithSignatures_tx
    (txId sourceChainId destChainId : BN)
    (sender recipient onChainData offChainData : Buffer)
    (signatures : list (MessageSignature PublicKey)) : result (Transaction PublicKey) :=
  let tx : Transaction PublicKey := [] in
  messageHash ← createMessageHash txId sourceChainId destChainId
                  sender recipient onChainData offChainData;
  tx ← add_ed25519_instructions tx signatures messageHash;
  let ix := IxCreateTxPda
              (mkMessage txId sourceChainId destChainId sender recipient onChainData offChainData)
              (formatSignaturesForAnchor signatures) in
  txIdPda ← pda_tx (Some sourceChainId) (Some txId);
  counterPda ← pda_counter (Some sourceChainId);
  let instruction :=
    mkRequest ix
      [("txIdPda"%string, txIdPda); ("counterPda"%string, counterPda);
       ("relayer"%string, wallet); ("instructions"%string, SYSVAR_INSTRUCTIONS_PUBKEY)] in
  mret (tx ++ [ProgramCall instruction]).

Definition createTxPdaWithSignatures
    (txId sourceChainId destChainId : BN)
    (sender recipient onChainData offChainData : Buffer)
    (signatures : list (MessageSignature PublicKey)) : M World string :=
  tx ← lift (createTxPdaWithSignatures_tx txId sourceChainId destChainId
               sender recipient onChainData offChainData signatures);
  sendAndConfirm tx.

Definition processMessageWithSignatures_tx
    (txId sourceChainId destChainId : BN)
    (sender recipient onChainData offChainData : Buffer)
    (signatures : list (MessageSignature PublicKey)) : result (Transaction PublicKey) :=
  let tx : Transaction PublicKey := [] in
  messageHash ← createMessageHash txId sourceChainId destChainId
                  sender recipient onChainData offChainData;
  tx ← add_ed25519_instructions tx signatures messageHash;
  let ix := IxProcessMessage
              (mkMessage txId sourceChainId destChainId sender recipient onChainData offChainData)
              (formatSignaturesForAnchor signatures) in
  gateway ← pda_gateway (Some destChainId);
  txIdPda ← pda_tx (Some sourceChainId) (Some txId);
  viaRegistry ← pda_registry via (Some destChainId);
  chainRegistry ← pda_registry chain (Some sourceChainId);
  projectRegistry ← pda_registry project (Some destChainId);
  let instruction :=
    mkRequest ix
      [("gateway"%string, gateway); ("txIdPda"%string, txIdPda);
       ("viaRegistry"%string, viaRegistry); ("chainRegistry"%string, chainRegistry);
       ("projectRegistry"%string, projectRegistry); ("relayer"%string, wallet);
       ("instructions"%string, SYSVAR_INSTRUCTIONS_PUBKEY)] in
  mret (tx ++ [ProgramCall instruction]).

Definition processMessageWithSignatures
    (txId sourceChainId destChainId : BN)
    (sender recipient onChainData offChainData : Buffer)
    (signatures : list (MessageSignature PublicKey)) : M World string :=
  tx ← lift (processMessageWithSignatures_tx txId sourceChainId destChainId
               sender recipient onChainData offChainData signatures);
  sendAndConfirm tx.

(** ** scripts/process_message.ts: [ProcessMessageExecutor.execute]

    The script works with the client's address module. *)

Definition execute_request
    (txId sourceChainId destChainId : BN)
    (sender recipient onChainData offChainData : Buffer)
    (signatures : list (AnchorSignature PublicKey)) : result (Request PublicKey) :=
  let ix := IxProcessMessage
              (mkMessage txId sourceChainId destChainId sender recipient onChainData offChainData)
              signatures in
  gateway ← Client.getGatewayPda findProgramAddressSync programId;
  txIdPda ← Client.getTxIdPda findProgramAddressSync programId sourceChainId txId;
  viaRegistry ← Client.getSignerRegistryPdaForChain findProgramAddressSync programId via destChainId;
  chainRegistry ← Client.getSignerRegistryPdaForChain findProgramAddressSync programId chain sourceChainId;
  projectRegistry ← Client.getSignerRegistryPdaForChain findProgramAddressSync programId project destChainId;
  mret (mkRequest ix
          [("gateway"%string, gateway); ("txIdPda"%string, txIdPda);
           ("viaRegistry"%string, viaRegistry); ("chainRegistry"%string, chainRegistry);
           ("projectRegistry"%string, projectRegistry); ("relayer"%string, wallet)]).

Definition execute
    (txId sourceChainId destChainId : BN)
    (sender recipient onChainData offChainData : Buffer)
    (signatures : list (AnchorSignature PublicKey)) : M World unit :=
  (* the address is printed before the try block *)
  _ ← lift (Client.getTxIdPda findProgramAddressSync programId sourceChainId txId);
  try_catch
    (req ← lift (execute_request txId sourceChainId destChainId
                   sender recipient onChainData offChainData signatures);
     _ ← rpc req;
     mret tt)
    (fun error =>
       if instanceof_Error error && message_includes error "Account does not exist"
       then mret tt
       else throw error).

(** ** tools/setup.ts: [setupChain] *)

Definition setupChain (chainId : BN) : M World unit :=
  _ ← try_catch
        (_ ← initializeGateway chainId; mret tt)
        (fun e => if message_includes e "already in use" then mret tt else throw e);
  _ ← try_catch
        (_ ← initializeCounter chainId; mret tt)
        (fun e => if message_includes e "already in use" then mret tt else throw e);
  let registryTypes := [via; chain; project] in
  for_of registryTypes (fun type =>
    try_catch
      (_ ← initializeRegistry type chainId [wallet] 1; mret tt)
      (fun e => if message_includes e "already in use" then mret tt else throw e)).

End Sdk.

(** ** The on-chain creation of the replay marker *)

(** Modelled from the spec: the gateway program (programs/message_gateway_v4)
    is not part of the sources.  Its createRecord step creates the marker at
    the address passed as [txIdPda], storing the digest of the message, and
    fails with [AlreadyExists] if a marker is already there; creation is one
    indivisible step on the ledger. *)
Section Ledger.

Context `{Countable PublicKey}.

Definition program_createTxPda (req : Request PublicKey) : M (gmap PublicKey Buffer) string :=
  fun ledger =>
    match instruction req, account "txIdPda" req with
    | IxCreateTxPda m _, Some address =>
        match ledger !! address with
        | Some _ => (Throw (ProgramError AlreadyExists "AlreadyExists"), ledger)
        | None =>
            match hash_message m with
            | Ok digest => (Ok (hex_of_bytes digest), <[address := digest]> ledger)
            | Throw e => (Throw e, ledger)
            end
        end
    | _, _ => (Throw (Error "not a createTxPda call"), ledger)
    end.

Definition is_createTxPda (req : Request PublicKey) : Prop :=
  match instruction req with
  | IxCreateTxPda _ _ => True
  | _ => False
  end.

End Ledger.

(** ** The setup flow in the words of the specification

    Steps run in order; a step that fails with an error whose message
    contains 'already in use' counts as done and the flow goes on; any other
    error ends the flow with that error. *)
Fixpoint setup_flow {World} (steps : list (M World string)) : M World unit :=
  fun w =>
    match steps with
    | [] => (Ok tt, w)
    | step :: rest =>
        match step w with
        | (Ok _, w') => setup_flow rest w'
        | (Throw e, w') =>
            if message_includes e "already in use" then setup_flow rest w'
            else (Throw e, w')
        end
    end.

(** The bytes the plan document's function hashes: the same three integers,
    then one-byte and two-byte little-endian lengths before the fields. *)
Definition plan_encoding (m : Message) : Buffer :=
  le_bytes 16 (txId m) ++ le_bytes 8 (sourceChainId m) ++ le_bytes 8 (destChainId m) ++
  (le_bytes 1 (Z.of_nat (length (sender m))) ++ sender m) ++
  (le_bytes 1 (Z.of_nat (length (recipient m))) ++ recipient m) ++
  (le_bytes 2 (Z.of_nat (length (onChainData m))) ++ onChainData m) ++
  (le_bytes 2 (Z.of_nat (length (offChainData m))) ++ offChainData m).

(** ** Sample values *)

Definition scenario_A : Message :=
  mkMessage 1 43113 9999999999999999999 (Buffer_from_string "avax")
    (repeat 7 32) (Buffer_from_string "hello") [].


(** Scenario A with the boundary between sender and data moved by one byte. *)
Definition scenario_A_shifted : Message :=
  mkMessage 1 43113 9999999999999999999 (Buffer_from_string "avaxh")
    (repeat 7 32) (Buffer_from_string "ello") [].

(** A stand-in derivation for examples: the address is the SHA-256 digest of
    the seeds followed by the program id. *)
Definition sample_find (seeds : list Buffer) (programId : Buffer) : Buffer * Z :=
  (Sha256.digest (concat seeds ++ programId), 255).

Definition sample_program : Buffer := repeat 9 32.
Definition sample_wallet : Buffer := repeat 3 32.
Definition sample_sysvar : Buffer := repeat 5 32.

Definition sample_signatures : list (MessageSignature Buffer) :=
  [mkMessageSignature (repeat 1 64) (repeat 11 32);
   mkMessageSignature (repeat 2 64) (repeat 12 32)].

(** The seeds of a layer's registry for a chain. *)
Definition registry_seeds (layer : RegistryType) (chainId : BN) : list Buffer :=
  [Buffer_from_string "signer_registry";
   [match layer with via => 0 | chain => 1 | project => 2 end];
   le_bytes 8 chainId].

(** The registries a processing request names: Via and Project under
    [dest], Chain under [source]. *)
Definition registries_resolved {PublicKey : Type}
    (derive : list Buffer -> PublicKey) (source dest : BN) (req : Request PublicKey) : Prop :=
  account "viaRegistry" req = Some (derive (registry_seeds via dest)) /\
  account "chainRegistry" req = Some (derive (registry_seeds chain source)) /\
  account "projectRegistry" req = Some (derive (registry_seeds project dest)).

(** A stand-in cluster for examples: the world is the log of the calls
    made; the gateway exists already, the counter and the Via registry are
    created, the Chain registry is refused for another reason. *)
Definition sample_rpc (req : Request Buffer) : M (list string) string :=
  fun log =>
    match instruction req with
    | IxInitializeGateway _ =>
        (Throw (Error "Allocate: account Address already in use"),
         log ++ ["initializeGateway"%string])
    | IxInitializeCounter _ => (Ok "sig2"%string, log ++ ["initializeCounter"%string])
    | IxInitializeSignerRegistry chain _ _ _ =>
        (Throw (Error "custom program error: 0x1770"), log ++ ["initializeRegistry"%string])
    | IxInitializeSignerRegistry _ _ _ _ =>
        (Ok "sig3"%string, log ++ ["initializeRegistry"%string])
    | _ => (Ok "sig"%string, log ++ ["other"%string])
    end.

(** ** Further parts of the sources *)

(** *** signatures.ts: signing

    [nacl.sign.detached] of tweetnacl is taken as given. *)

Record Keypair (PublicKey SecretKey : Type) := mkKeypair {
  publicKey : PublicKey;
  secretKey : SecretKey
}.
Arguments mkKeypair {PublicKey SecretKey}.
Arguments publicKey {PublicKey SecretKey}.
Arguments secretKey {PublicKey SecretKey}.

Section Signing.

Context {PublicKey SecretKey : Type}.
Variable nacl_sign_detached : Buffer -> SecretKey -> Buffer.

Definition signMessage (message : Buffer) (keypair : Keypair PublicKey SecretKey) : Buffer :=
  let messageBytes := message in
  let signature := nacl_sign_detached messageBytes (secretKey keypair) in
  signature.

Definition createMessageSignature
    (txId sourceChainId destChainId : BN)
    (sender recipient onChainData offChainData : Buffer)
    (keypair : Keypair PublicKey SecretKey) : result (MessageSignature PublicKey) :=
  messageHash ← createMessageHash txId sourceChainId destChainId
                  sender recipient onChainData offChainData;
  let signature := signMessage messageHash keypair in
  mret (mkMessageSignature signature (publicKey keypair)).

End Signing.

(** What the system's Ed25519 program decides for an instruction of a
    transaction, given its check of one signature. *)
Definition ed25519_accepts {PublicKey : Type}
    (verify : PublicKey -> Buffer -> Buffer -> bool)
    (ix : TransactionInstruction PublicKey) : bool :=
  match ix with
  | Ed25519Verify pk message sig => verify pk message sig
  | ProgramCall _ => true
  end.

(** *** The createEd25519Instruction of the signature plan document

    The instruction data: a 16-byte header (count and padding, signature
    offset, public-key offset, message offset, message length), then the
    signature, the key and the message. *)
Definition Plan_createEd25519Instruction_data
    (signature publicKey_bytes message : Buffer) : Buffer :=
  Buffer_concat
    [Buffer_from_array [1; 0];
     Buffer_from_array [16; 0; 0; 0];
     Buffer_from_array [80; 0; 0; 0];
     Buffer_from_array [112; 0];
     Buffer_from_array [Z.of_nat (length message); 0; 0; 0];
     signature;
     publicKey_bytes;
     message].

(** *** Registry maintenance methods of sdk.ts *)

Inductive RegistryUpdate (PublicKey : Type) :=
| UpAddSigner (signer : PublicKey)
| UpRemoveSigner (signer : PublicKey)
| UpUpdateSigners (signers : list PublicKey) (threshold : Z)
| UpUpdateThreshold (threshold : Z)
| UpSetRegistryEnabled (enabled : bool).
Arguments UpAddSigner {PublicKey}.
Arguments UpRemoveSigner {PublicKey}.
Arguments UpUpdateSigners {PublicKey}.
Arguments UpUpdateThreshold {PublicKey}.
Arguments UpSetRegistryEnabled {PublicKey}.

(** A call of one of the five maintenance methods: the registry enum and
    chain id come first in every one of them. *)
Record RegistryCall (PublicKey : Type) := mkRegistryCall {
  call_type : RegistryType;
  call_chainId : BN;
  call_update : RegistryUpdate PublicKey;
  call_accounts : list (string * PublicKey)
}.
Arguments mkRegistryCall {PublicKey}.
Arguments call_type {PublicKey}.
Arguments call_chainId {PublicKey}.
Arguments call_update {PublicKey}.
Arguments call_accounts {PublicKey}.

Section SdkRegistry.

Context {PublicKey World : Type}.
Variable findProgramAddressSync : list Buffer -> PublicKey -> PublicKey * Z.
Variable programId : PublicKey.
Variable wallet : PublicKey.
Variable rpc_registry : RegistryCall PublicKey -> M World string.

Definition registry_call (type : RegistryType) (chainId : BN)
    (update : RegistryUpdate PublicKey) : result (RegistryCall PublicKey) :=
  let enum := getRegistryEnum type in
  gateway ← getGatewayPda findProgramAddressSync programId (Some chainId);
  signerRegistry ← getSignerRegistryPda findProgramAddressSync programId type (Some chainId);
  mret (mkRegistryCall enum chainId update
          [("gateway"%string, gateway); ("signerRegistry"%string, signerRegistry);
           ("authority"%string, wallet)]).

Definition addSigner (type : RegistryType) (chainId : BN) (signer : PublicKey)
  : M World string :=
  call ← lift (registry_call type chainId (UpAddSigner signer));
  rpc_registry call.

Definition removeSigner (type : RegistryType) (chainId : BN) (signer : PublicKey)
  : M World string :=
  call ← lift (registry_call type chainId (UpRemoveSigner signer));
  rpc_registry call.

Definition updateSigners (type : RegistryType) (chainId : BN)
    (signers : list PublicKey) (threshold : Z) : M World string :=
  call ← lift (registry_call type chainId (UpUpdateSigners signers threshold));
  rpc_registry call.

Definition updateThreshold (type : RegistryType) (chainId : BN) (threshold : Z)
  : M World string :=
  call ← lift (registry_call type chainId (UpUpdateThreshold threshold));
  rpc_registry call.

Definition setRegistryEnabled (type : RegistryType) (chainId : BN) (enabled : bool)
  : M World string :=
  call ← lift (registry_call type chainId (UpSetRegistryEnabled enabled));
  rpc_registry call.

End SdkRegistry.

(** *** The two-transaction flow ([sendAndProcessMessage]) *)

Record MessageFlowParams (PublicKey : Type) := mkMessageFlowParams {
  flow_txId : BN;
  flow_sourceChainId : BN;
  flow_destChainId : BN;
  flow_sender : Buffer;
  flow_recipient : Buffer;
  flow_onChainData : Buffer;
  flow_offChainData : Buffer;
  flow_signatures : option (list (AnchorSignature PublicKey))
}.
Arguments mkMessageFlowParams {PublicKey}.
Arguments flow_txId {PublicKey}.
Arguments flow_sourceChainId {PublicKey}.
Arguments flow_destChainId {PublicKey}.
Arguments flow_sender {PublicKey}.
Arguments flow_recipient {PublicKey}.
Arguments flow_onChainData {PublicKey}.
Arguments flow_offChainData {PublicKey}.
Arguments flow_signatures {PublicKey}.

(** [x || []] on an optional array. *)
Definition or_empty {A} (x : option (list A)) : list A :=
  match x with
  | Some l => l
  | None => []
  end.

Section Flow.

Context {PublicKey World : Type}.
Variable findProgramAddressSync : list Buffer -> PublicKey -> PublicKey * Z.
Variable programId : PublicKey.
Variable wallet : PublicKey.
Variable rpc : Request PublicKey -> M World string.

Definition sendAndProcessMessage (params : MessageFlowParams PublicKey)
  : M World (string * string) :=
  createTx ← createTxPda findProgramAddressSync programId wallet rpc
                (flow_txId params) (flow_sourceChainId params) (flow_destChainId params)
                (flow_sender params) (flow_recipient params)
                (flow_onChainData params) (flow_offChainData params)
                (or_empty (flow_signatures params));
  processTx ← processMessage findProgramAddressSync programId wallet rpc
                (flow_txId params) (flow_sourceChainId params) (flow_destChainId params)
                (flow_sender params) (flow_recipient params)
                (flow_onChainData params) (flow_offChainData params)
                (or_empty (flow_signatures params));
  mret (createTx, processTx).

End Flow.

(** *** The scripts' executors

    They work with the client's address module and share one test for an
    error to pass over. *)
Definition script_absorbs (error : exn) : bool :=
  instanceof_Error error &&
  (message_includes error "already in use" || message_includes error "0x0").

Module CreateTxPdaExecutor.
Section Executor.

Context {PublicKey World : Type}.
Variable findProgramAddressSync : list Buffer -> PublicKey -> PublicKey * Z.
Variable programId : PublicKey.
Variable wallet : PublicKey.
Variable rpc : Request PublicKey -> M World string.

Definition execute_request
    (txId sourceChainId destChainId : BN)
    (sender recipient onChainData offChainData : Buffer)
    (signatures : list (AnchorSignature PublicKey)) : result (Request PublicKey) :=
  let ix := IxCreateTxPda
              (mkMessage txId sourceChainId destChainId sender recipient onChainData offChainData)
              signatures in
  txIdPda ← Client.getTxIdPda findProgramAddressSync programId sourceChainId txId;
  counterPda ← Client.getCounterPda findProgramAddressSync programId sourceChainId;
  mret (mkRequest ix
          [("txIdPda"%string, txIdPda); ("counterPda"%string, counterPda);
           ("relayer"%string, wallet)]).

Definition execute
    (txId sourceChainId destChainId : BN)
    (sender recipient onChainData offChainData : Buffer)
    (signatures : list (AnchorSignature PublicKey)) : M World unit :=
  try_catch
    (req ← lift (execute_request txId sourceChainId destChainId
                   sender recipient onChainData offChainData signatures);
     _ ← rpc req;
     (* the address is printed after the call *)
     _ ← lift (Client.getTxIdPda findProgramAddressSync programId sourceChainId txId);
     mret tt)
    (fun error => if script_absorbs error then mret tt else throw error).

End Executor.
End CreateTxPdaExecutor.

Module InitializeGatewayExecutor.
Section Executor.

Context {PublicKey World : Type}.
Variable rpc : Request PublicKey -> M World string.

Definition execute (chainId : BN) : M World unit :=
  try_catch
    (_ ← rpc (mkRequest (IxInitializeGateway chainId) []);
     mret tt)
    (fun error => if script_absorbs error then mret tt else throw error).

End Executor.
End InitializeGatewayExecutor.

Module InitializeSignerRegistryExecutor.
Section Executor.

Context {PublicKey World : Type}.
Variable findProgramAddressSync : list Buffer -> PublicKey -> PublicKey * Z.
Variable programId : PublicKey.
Variable wallet : PublicKey.
Variable rpc : Request PublicKey -> M World string.

Definition execute_request (registryType : RegistryType) (chainId : BN)
    (initialSigners : list PublicKey) (requiredSignatures : Z)
  : result (Request PublicKey) :=
  let enumObject :=
    match registryType with
    | via => via
    | chain => chain
    | project => project
    end in
  let ix := IxInitializeSignerRegistry enumObject chainId initialSigners requiredSignatures in
  gateway ← Client.getGatewayPda findProgramAddressSync programId;
  signerRegistry ← Client.getSignerRegistryPdaForChain findProgramAddressSync programId
                     registryType chainId;
  mret (mkRequest ix
          [("gateway"%string, gateway); ("signerRegistry"%string, signerRegistry);
           ("authority"%string, wallet)]).

Definition execute (registryType : RegistryType) (chainId : BN)
    (initialSigners : list PublicKey) (requiredSignatures : Z) : M World unit :=
  try_catch
    (req ← lift (execute_request registryType chainId initialSigners requiredSignatures);
     _ ← rpc req;
     (* the registry address is printed after the call *)
     _ ← lift (Client.getSignerRegistryPdaForChain findProgramAddressSync programId
                 registryType chainId);
     mret tt)
    (fun error => if script_absorbs error then mret tt else throw error).

End Executor.
End InitializeSignerRegistryExecutor.

(** How a script's [run] ends: it returns, or the process exits. *)
Inductive RunOutcome :=
| Completed
| Exited (code : Z).

Module SetupExecutor.
Section Executor.

Context {PublicKey World : Type}.
Variable findProgramAddressSync : list Buffer -> PublicKey -> PublicKey * Z.
Variable programId : PublicKey.
Variable wallet : PublicKey.
Variable rpc : Request PublicKey -> M World string.

Definition initializeGateway : M World unit :=
  InitializeGatewayExecutor.execute rpc SOLANA_CHAIN_ID.

Definition initializeCounter_request : result (Request PublicKey) :=
  gateway ← Client.getGatewayPda findProgramAddressSync programId;
  mret (mkRequest (IxInitializeCounter AVALANCHE_CHAIN_ID)
          [("gateway"%string, gateway); ("authority"%string, wallet)]).

Definition initializeCounter : M World unit :=
  try_catch
    (req ← lift initializeCounter_request;
     _ ← rpc req;
     mret tt)
    (fun error => if script_absorbs error then mret tt else throw error).

Definition initializeRegistry_request (registryType : RegistryType)
  : result (Request PublicKey) :=
  gateway ← Client.getGatewayPda findProgramAddressSync programId;
  signerRegistry ← Client.getSignerRegistryPda findProgramAddressSync programId registryType;
  mret (mkRequest (IxInitializeSignerRegistry registryType SOLANA_CHAIN_ID [wallet] 0)
          [("gateway"%string, gateway); ("signerRegistry"%string, signerRegistry);
           ("authority"%string, wallet)]).

Definition initializeViaRegistry : M World unit :=
  try_catch
    (req ← lift (initializeRegistry_request via);
     _ ← rpc req;
     mret tt)
    (fun error => if script_absorbs error then mret tt else throw error).

Definition initializeChainRegistry : M World unit :=
  try_catch
    (req ← lift (initializeRegistry_request chain);
     _ ← rpc req;
     mret tt)
    (fun error => if script_absorbs error then mret tt else throw error).

Definition initializeProjectRegistry : M World unit :=
  try_catch
    (req ← lift (initializeRegistry_request project);
     _ ← rpc req;
     mret tt)
    (fun error => if script_absorbs error then mret tt else throw error).

(** [run]: the five steps inside one try block whose handler ends the
    process with code 1. *)
Definition run : M World RunOutcome := fun w =>
  match (_ ← initializeGateway;
         _ ← initializeCounter;
         _ ← initializeViaRegistry;
         _ ← initializeChainRegistry;
         _ ← initializeProjectRegistry;
         mret tt) w with
  | (Ok _, w') => (Ok Completed, w')
  | (Throw _, w') => (Ok (Exited 1), w')
  end.

End Executor.
End SetupExecutor.

(** The scripts' flow in terms of the calls made: a failed call is passed
    over when [script_absorbs] holds of its error, and ends the flow
    otherwise. *)
Fixpoint script_flow {World} (steps : list (M World string)) : M World unit :=
  fun w =>
    match steps with
    | [] => (Ok tt, w)
    | step :: rest =>
        match step w with
        | (Ok _, w') => script_flow rest w'
        | (Throw e, w') =>
            if script_absorbs e then script_flow rest w' else (Throw e, w')
        end
    end.

(** Seeds of the gateway, counter and marker addresses. *)
Definition gateway_seeds (chainId : BN) : list Buffer :=
  [Buffer_from_string "gateway"; le_bytes 8 chainId].

Definition counter_seeds (sourceChainId : BN) : list Buffer :=
  [Buffer_from_string "counter"; le_bytes 8 sourceChainId].

Definition tx_seeds (sourceChainId txId : BN) : list Buffer :=
  [Buffer_from_string "tx"; le_bytes 8 sourceChainId; le_bytes 16 txId].

(** The five calls of setupChain for a chain, with the accounts the SDK
    names. *)
Definition setup_requests {PublicKey : Type} (derive : list Buffer -> PublicKey)
    (wallet : PublicKey) (chainId : BN) : list (Request PublicKey) :=
  let registry type :=
    mkRequest (IxInitializeSignerRegistry type chainId [wallet] 1)
      [("gateway"%string, derive (gateway_seeds chainId));
       ("signerRegistry"%string, derive (registry_seeds type chainId));
       ("authority"%string, wallet)] in
  [mkRequest (IxInitializeGateway chainId) [];
   mkRequest (IxInitializeCounter chainId)
     [("gateway"%string, derive (gateway_seeds chainId)); ("authority"%string, wallet)];
   registry via; registry chain; registry project].

(** The five calls of the setup script: everything under the gateway of
    the Solana chain id, the counter for the Avalanche chain id, the
    registries for the Solana chain id with threshold 0. *)
Definition script_setup_requests {PublicKey : Type} (derive : list Buffer -> PublicKey)
    (wallet : PublicKey) : list (Request PublicKey) :=
  let gateway := derive (gateway_seeds SOLANA_CHAIN_ID) in
  let registry type :=
    mkRequest (IxInitializeSignerRegistry type SOLANA_CHAIN_ID [wallet] 0)
      [("gateway"%string, gateway);
       ("signerRegistry"%string, derive (registry_seeds type SOLANA_CHAIN_ID));
       ("authority"%string, wallet)] in
  [mkRequest (IxInitializeGateway SOLANA_CHAIN_ID) [];
   mkRequest (IxInitializeCounter AVALANCHE_CHAIN_ID)
     [("gateway"%string, gateway); ("authority"%string, wallet)];
   registry via; registry chain; registry project].

(** The message and the signatures a call of the program carries. *)
Definition instruction_message {PublicKey : Type} (ix : Instruction PublicKey)
  : option Message :=
  match ix with
  | IxCreateTxPda m _ | IxProcessMessage m _ => Some m
  | _ => None
  end.

Definition instruction_signatures {PublicKey : Type} (ix : Instruction PublicKey)
  : list (AnchorSignature PublicKey) :=
  match ix with
  | IxCreateTxPda _ sigs | IxProcessMessage _ sigs => sigs
  | _ => []
  end.

(** A cluster that records the calls it receives and answers each with a
    given outcome. *)
Definition recording {PublicKey : Type} (outcome : Request PublicKey -> result string)
  : Request PublicKey -> M (list (Request PublicKey)) string :=
  fun req log => (outcome req, log ++ [req]).

(** A call went well or failed in the way setupChain passes over. *)
Definition done_or_in_use (r : result string) : bool :=
  match r with
  | Ok _ => true
  | Throw e => message_includes e "already in use"
  end.

(** A stand-in signature scheme for examples: the signature is the key
    followed by the digest, 64 bytes for a 32-byte key and digest. *)
Definition sample_sign (message : Buffer) (secret : Buffer) : Buffer := secret ++ message.

Definition sample_verify (pk message sig : Buffer) : bool :=
  bool_decide (sig = pk ++ message).

Definition sample_keypairs : list (Keypair Buffer Buffer) :=
  [mkKeypair (repeat 11 32) (repeat 11 32); mkKeypair (repeat 12 32) (repeat 12 32)].

Definition sample_made_signatures : list (MessageSignature Buffer) :=
  Eval vm_compute in
    map (fun kp : Keypair Buffer Buffer =>
           mkMessageSignature
             (sample_sign (Keccak.digest (canonical_encoding scenario_A)) (secretKey kp))
             (publicKey kp))
      sample_keypairs.

(** * Properties *)

(** ** Known answers of the two hash functions *)

Example keccak_256_empty :
  keccak_256 [] = "c5d2460186f7233c927e7db2dcc703c0e500b653ca82273b7bfad8045d85a470"%string.
Proof. vm_compute. reflexivity. Qed.

Example keccak_256_abc :
  keccak_256 (Buffer_from_string "abc")
  = "4e03657aea45a94fc7d47ba826c8d667c0d1e6e33a64a036ec44f58fa12d6c45"%string.
Proof. vm_compute. reflexivity. Qed.

Example sha256_empty :
  hex_of_bytes (Sha256.digest [])
  = "e3b0c44298fc1c149afbf4c8996fb92427ae41e4649b934ca495991b7852b855"%string.
Proof. vm_compute. reflexivity. Qed.

Example sha256_abc :
  hex_of_bytes (Sha256.digest (Buffer_from_string "abc"))
  = "ba7816bf8f01cfea414140de5dae2223b00361a396177a9cb410ff61f20015ad"%string.
Proof. vm_compute. reflexivity. Qed.

(** Unfolding of the bind and return of [result] and of [M]. *)
Ltac unfold_monad :=
  cbv [mbind mret result_bind result_ret M_bind M_ret lift throw try_catch] in *.

(** Case analysis on the first call of a sequence that returned. *)
Ltac first_call_returned H :=
  match type of H with
  | mbind _ ?m = Ok _ =>
      let E := fresh "E" in
      destruct m eqn:E; cbn [mbind result_bind] in H; [| discriminate H]
  end.

(** ** Bytes *)

Lemma length_le_bytes n x : length (le_bytes n x) = n.
Proof. revert x. induction n as [|n IH]; intros x; simpl; [reflexivity | now rewrite IH]. Qed.

Lemma length_be_bytes n x : length (be_bytes n x) = n.
Proof. unfold be_bytes. rewrite length_rev. apply length_le_bytes. Qed.

Lemma le_bytes_is_byte n x : Forall is_byte (le_bytes n x).
Proof.
  revert x. induction n as [|n IH]; intros x; simpl; constructor.
  - unfold is_byte. apply Z.mod_pos_bound. lia.
  - apply IH.
Qed.

Lemma le_value_le_bytes n x :
  0 <= x -> le_value (le_bytes n x) = x mod 256 ^ Z.of_nat n.
Proof.
  revert x. induction n as [|n IH]; intros x Hx.
  - simpl. now rewrite Z.mod_1_r.
  - cbn [le_bytes le_value]. rewrite IH by (apply Z.div_pos; lia).
    rewrite Nat2Z.inj_succ, Z.pow_succ_r by lia.
    rewrite (Z.rem_mul_r x 256 (256 ^ Z.of_nat n)) by lia. reflexivity.
Qed.

Lemma le_bytes_inj n x y :
  0 <= x < 256 ^ Z.of_nat n -> 0 <= y < 256 ^ Z.of_nat n ->
  le_bytes n x = le_bytes n y -> x = y.
Proof.
  intros Hx Hy E. apply (f_equal le_value) in E.
  rewrite !le_value_le_bytes in E by lia.
  now rewrite !Z.mod_small in E by lia.
Qed.

Lemma writeUInt32LE_alloc v :
  0 <= v < 2 ^ 32 -> writeUInt32LE (Buffer_alloc 4) v 0 = Ok (le_bytes 4 v).
Proof.
  intros Hv. unfold writeUInt32LE.
  replace ((0 <=? v) && (v <=? 4294967295)) with true
    by (symmetry; apply andb_true_iff; split; apply Z.leb_le; lia).
  cbn. rewrite !Z.div_div by lia. reflexivity.
Qed.

Lemma writeUInt16LE_alloc v :
  0 <= v < 2 ^ 16 -> writeUInt16LE (Buffer_alloc 2) v 0 = Ok (le_bytes 2 v).
Proof.
  intros Hv. unfold writeUInt16LE.
  replace ((0 <=? v) && (v <=? 65535)) with true
    by (symmetry; apply andb_true_iff; split; apply Z.leb_le; lia).
  reflexivity.
Qed.

Lemma toArrayLike_le_ok x n :
  0 <= x < 256 ^ Z.of_nat n -> toArrayLike_le x n = Ok (le_bytes n x).
Proof.
  intros Hx. unfold toArrayLike_le. rewrite Z.abs_eq by lia.
  destruct (Z.ltb_spec x (256 ^ Z.of_nat n)); [reflexivity | lia].
Qed.

Lemma encodeLengthPrefixed_ok data :
  Z.of_nat (length data) < 2 ^ 32 ->
  encodeLengthPrefixed data = Ok (length_prefixed data).
Proof.
  intros Hl. unfold encodeLengthPrefixed.
  rewrite writeUInt32LE_alloc by lia. cbn [mbind result_bind mret result_ret].
  unfold Buffer_concat, length_prefixed. cbn [concat]. now rewrite app_nil_r.
Qed.

(** ** Hexadecimal text *)

Lemma hex_digit_hex_char d : 0 <= d < 16 -> hex_digit (hex_char d) = Some d.
Proof.
  intros Hd.
  assert (E : d = 0 \/ d = 1 \/ d = 2 \/ d = 3 \/ d = 4 \/ d = 5 \/ d = 6 \/ d = 7 \/
              d = 8 \/ d = 9 \/ d = 10 \/ d = 11 \/ d = 12 \/ d = 13 \/ d = 14 \/ d = 15)
    by lia.
  repeat (destruct E as [-> | E]; [reflexivity |]). now subst.
Qed.

Lemma Buffer_from_hex_of_bytes bs :
  Forall is_byte bs -> Buffer_from_hex (hex_of_bytes bs) = bs.
Proof.
  induction 1 as [|b bs Hb _ IH]; [reflexivity |].
  unfold is_byte in Hb. cbn [hex_of_bytes Buffer_from_hex].
  rewrite !hex_digit_hex_char.
  - rewrite IH. f_equal. pose proof (Z.div_mod b 16). lia.
  - apply Z.mod_pos_bound. lia.
  - split; [apply Z.div_pos; lia | apply Z.div_lt_upper_bound; lia].
Qed.

Lemma Keccak_digest_length msg : length (Keccak.digest msg) = 32%nat.
Proof. unfold Keccak.digest. now rewrite !length_app, !length_le_bytes. Qed.

Lemma Keccak_digest_bytes msg : Forall is_byte (Keccak.digest msg).
Proof. unfold Keccak.digest. rewrite !Forall_app. repeat split; apply le_bytes_is_byte. Qed.

Lemma Sha256_digest_length msg : length (Sha256.digest msg) = 32%nat.
Proof. unfold Sha256.digest. now rewrite !length_app, !length_be_bytes. Qed.

Lemma keccak_256_decoded data : Buffer_from_hex (keccak_256 data) = Keccak.digest data.
Proof. apply Buffer_from_hex_of_bytes, Keccak_digest_bytes. Qed.

(** ** createMessageHash *)

Lemma createMessageHash_allData_ok m :
  ids_in_range m -> lengths_fit_u32 m ->
  createMessageHash_allData (txId m) (sourceChainId m) (destChainId m)
    (sender m) (recipient m) (onChainData m) (offChainData m)
  = Ok (canonical_encoding m).
Proof.
  intros (Ht & Hs & Hd) (H1 & H2 & H3 & H4).
  unfold createMessageHash_allData.
  rewrite (toArrayLike_le_ok (txId m) 16) by (change (256 ^ Z.of_nat 16) with (2 ^ 128); lia).
  rewrite (toArrayLike_le_ok (sourceChainId m) 8) by (change (256 ^ Z.of_nat 8) with (2 ^ 64); lia).
  rewrite (toArrayLike_le_ok (destChainId m) 8) by (change (256 ^ Z.of_nat 8) with (2 ^ 64); lia).
  rewrite !encodeLengthPrefixed_ok by assumption.
  cbn [mbind result_bind mret result_ret app].
  unfold Buffer_concat, canonical_encoding. cbn [concat]. now rewrite app_nil_r.
Qed.

Lemma createMessageHash_digest_length t s d se re on off digest :
  createMessageHash t s d se re on off = Ok digest -> length digest = 32%nat.
Proof.
  unfold createMessageHash.
  destruct (createMessageHash_allData t s d se re on off) as [allData|e];
    cbn [mbind result_bind mret result_ret]; [|discriminate].
  cbv [mret result_ret]. intros Hd.
  assert (E : digest = Buffer_from_hex (keccak_256 allData)) by congruence.
  rewrite E, keccak_256_decoded. apply Keccak_digest_length.
Qed.

Lemma createMessageHash_returns m :
  ids_in_range m -> lengths_fit_u32 m ->
  createMessageHash (txId m) (sourceChainId m) (destChainId m)
    (sender m) (recipient m) (onChainData m) (offChainData m)
  = Ok (Buffer_from_hex (keccak_256 (canonical_encoding m))).
Proof.
  intros Hi Hl. unfold createMessageHash. now rewrite createMessageHash_allData_ok.
Qed.

(** C2: for a message whose ids fit their widths (and whose fields have
    lengths a u32 can hold, as every message of the data model has),
    createMessageHash returns the Keccak-256 digest of exactly
    txId (16 bytes LE) ++ sourceChainId (8 LE) ++ destChainId (8 LE) ++
    the four length-prefixed fields in order, and the digest has 32 bytes. *)
Theorem createMessageHash_canonical (m : Message) :
  ids_in_range m -> lengths_fit_u32 m ->
  createMessageHash (txId m) (sourceChainId m) (destChainId m)
    (sender m) (recipient m) (onChainData m) (offChainData m)
  = Ok (Buffer_from_hex (keccak_256
      (le_bytes 16 (txId m) ++ le_bytes 8 (sourceChainId m) ++ le_bytes 8 (destChainId m) ++
       (le_bytes 4 (Z.of_nat (length (sender m))) ++ sender m) ++
       (le_bytes 4 (Z.of_nat (length (recipient m))) ++ recipient m) ++
       (le_bytes 4 (Z.of_nat (length (onChainData m))) ++ onChainData m) ++
       (le_bytes 4 (Z.of_nat (length (offChainData m))) ++ offChainData m))))
  /\ (forall digest,
        createMessageHash (txId m) (sourceChainId m) (destChainId m)
          (sender m) (recipient m) (onChainData m) (offChainData m) = Ok digest ->
        length digest = 32%nat /\ digest = Keccak.digest (canonical_encoding m)).
Proof.
  intros Hi Hl.
  assert (E : createMessageHash (txId m) (sourceChainId m) (destChainId m)
                (sender m) (recipient m) (onChainData m) (offChainData m)
              = Ok (Buffer_from_hex (keccak_256 (canonical_encoding m)))).
  { now apply createMessageHash_returns. }
  split; [exact E |].
  intros digest Hd. split; [eapply createMessageHash_digest_length; eassumption |].
  rewrite <- keccak_256_decoded. congruence.
Qed.

Lemma createMessageHash_canonical_witness :
  createMessageHash 1 43113 9999999999999999999 (Buffer_from_string "avax")
    (repeat 7 32) (Buffer_from_string "hello") []
  = Ok (Buffer_from_hex
          "506ebab3340d402a6660184db5a05d12a5f1ce530d5142043aa04f91aa534221").
Proof.
  pose proof (createMessageHash_canonical scenario_A) as W.
  destruct W as [W _].
  - unfold ids_in_range, scenario_A; cbn; lia.
  - unfold lengths_fit_u32, scenario_A; cbn; lia.
  - etransitivity; [exact W |]. vm_compute. reflexivity.
Defined.

(** The length buffer is overwritten whole: its former content is of no
    consequence. *)
Lemma writeUInt32LE_overwrites (buf : Buffer) v :
  length buf = 4%nat -> 0 <= v < 2 ^ 32 -> writeUInt32LE buf v 0 = Ok (le_bytes 4 v).
Proof.
  intros Hl Hv. unfold writeUInt32LE. rewrite Hl.
  replace ((0 <=? v) && (v <=? 4294967295)) with true
    by (symmetry; apply andb_true_iff; split; apply Z.leb_le; lia).
  destruct buf as [|b0 [|b1 [|b2 [|b3 [|b4 rest]]]]]; try discriminate Hl.
  cbn. rewrite !Z.div_div by lia. reflexivity.
Qed.

(** bn.js writes the magnitude: a negative id is hashed as its absolute
    value. *)
Example negative_id_hashed_as_magnitude :
  createMessageHash_allData (-1) 43113 43113 [] [] [] []
  = createMessageHash_allData 1 43113 43113 [] [] [] [].
Proof. reflexivity. Qed.

(** ** The canonical encoding can be parsed back *)

Lemma within_field_bounds_fit m : within_field_bounds m -> ids_in_range m /\ lengths_fit_u32 m.
Proof.
  intros (Hi & H1 & H2 & H3 & H4). split; [exact Hi |].
  unfold lengths_fit_u32. change (2 ^ 32) with 4294967296. lia.
Qed.

Lemma length_prefixed_app_inj (d1 d2 r1 r2 : Buffer) :
  Z.of_nat (length d1) < 2 ^ 32 -> Z.of_nat (length d2) < 2 ^ 32 ->
  length_prefixed d1 ++ r1 = length_prefixed d2 ++ r2 ->
  d1 = d2 /\ r1 = r2.
Proof.
  intros H1 H2 E. unfold length_prefixed in E. rewrite <- !app_assoc in E.
  apply app_inj_1 in E as [El E]; [| now rewrite !length_le_bytes].
  apply le_bytes_inj in El;
    [| change (256 ^ Z.of_nat 4) with (2 ^ 32); lia
     | change (256 ^ Z.of_nat 4) with (2 ^ 32); lia].
  apply app_inj_1 in E; [exact E | lia].
Qed.

Lemma canonical_encoding_inj m1 m2 :
  ids_in_range m1 -> lengths_fit_u32 m1 ->
  ids_in_range m2 -> lengths_fit_u32 m2 ->
  canonical_encoding m1 = canonical_encoding m2 -> m1 = m2.
Proof.
  intros (Ht1 & Hs1 & Hd1) (A1 & B1 & C1 & D1) (Ht2 & Hs2 & Hd2) (A2 & B2 & C2 & D2) E.
  unfold canonical_encoding in E.
  apply app_inj_1 in E as [Et E]; [| now rewrite !length_le_bytes].
  apply app_inj_1 in E as [Es E]; [| now rewrite !length_le_bytes].
  apply app_inj_1 in E as [Ed E]; [| now rewrite !length_le_bytes].
  apply le_bytes_inj in Et; [| change (256 ^ Z.of_nat 16) with (2 ^ 128); lia ..].
  apply le_bytes_inj in Es; [| change (256 ^ Z.of_nat 8) with (2 ^ 64); lia ..].
  apply le_bytes_inj in Ed; [| change (256 ^ Z.of_nat 8) with (2 ^ 64); lia ..].
  apply length_prefixed_app_inj in E as [Ese E]; [| assumption ..].
  apply length_prefixed_app_inj in E as [Ere E]; [| assumption ..].
  apply length_prefixed_app_inj in E as [Eon E]; [| assumption ..].
  rewrite <- (app_nil_r (length_prefixed (offChainData m1))) in E.
  rewrite <- (app_nil_r (length_prefixed (offChainData m2))) in E.
  apply length_prefixed_app_inj in E as [Eoff _]; [| assumption ..].
  destruct m1, m2; cbn in *; congruence.
Qed.

(** C8: within the field bounds, createMessageHash feeds the hash a byte
    string from which the message can be read back: two messages with the
    same byte string are the same message, so two distinct messages with the
    same digest give two distinct inputs on which Keccak-256 collides. *)
Theorem createMessageHash_encoding_injective (m1 m2 : Message) :
  within_field_bounds m1 -> within_field_bounds m2 ->
  exists e1 e2,
    createMessageHash_allData (txId m1) (sourceChainId m1) (destChainId m1)
      (sender m1) (recipient m1) (onChainData m1) (offChainData m1) = Ok e1 /\
    createMessageHash_allData (txId m2) (sourceChainId m2) (destChainId m2)
      (sender m2) (recipient m2) (onChainData m2) (offChainData m2) = Ok e2 /\
    (m1 <> m2 -> e1 <> e2) /\
    (m1 <> m2 -> hash_message m1 = hash_message m2 ->
     e1 <> e2 /\ keccak_256 e1 = keccak_256 e2).
Proof.
  intros B1 B2.
  destruct (within_field_bounds_fit m1 B1) as [I1 L1].
  destruct (within_field_bounds_fit m2 B2) as [I2 L2].
  exists (canonical_encoding m1), (canonical_encoding m2).
  assert (Hinj : m1 <> m2 -> canonical_encoding m1 <> canonical_encoding m2).
  { intros Hne E. apply Hne. now apply canonical_encoding_inj. }
  split; [now apply createMessageHash_allData_ok |].
  split; [now apply createMessageHash_allData_ok |].
  split; [exact Hinj |].
  intros Hne Hh. split; [now apply Hinj |].
  unfold hash_message, createMessageHash in Hh.
  rewrite !createMessageHash_allData_ok in Hh by assumption.
  unfold_monad. rewrite !keccak_256_decoded in Hh.
  unfold keccak_256. congruence.
Qed.

Lemma createMessageHash_encoding_injective_witness :
  exists e1 e2,
    createMessageHash_allData 1 43113 9999999999999999999 (Buffer_from_string "avax")
      (repeat 7 32) (Buffer_from_string "hello") [] = Ok e1 /\
    createMessageHash_allData 1 43113 9999999999999999999 (Buffer_from_string "avaxh")
      (repeat 7 32) (Buffer_from_string "ello") [] = Ok e2 /\
    e1 <> e2.
Proof.
  destruct (createMessageHash_encoding_injective scenario_A scenario_A_shifted)
    as (e1 & e2 & H1 & H2 & Hne & _).
  - unfold within_field_bounds, ids_in_range, scenario_A; cbn; lia.
  - unfold within_field_bounds, ids_in_range, scenario_A_shifted; cbn; lia.
  - exists e1, e2. split; [exact H1 |]. split; [exact H2 |].
    apply Hne. discriminate.
Defined.



(** ** The plan document's hash against the SDK's *)

Lemma Plan_hasher_ok m :
  within_field_bounds m ->
  Plan.createMessageHash_hasher (txId m) (sourceChainId m) (destChainId m)
    (sender m) (recipient m) (onChainData m) (offChainData m)
  = Ok (plan_encoding m).
Proof.
  intros ((Ht & Hs & Hd) & H1 & H2 & H3 & H4).
  unfold Plan.createMessageHash_hasher.
  rewrite (toArrayLike_le_ok (txId m) 16) by (change (256 ^ Z.of_nat 16) with (2 ^ 128); lia).
  rewrite (toArrayLike_le_ok (sourceChainId m) 8) by (change (256 ^ Z.of_nat 8) with (2 ^ 64); lia).
  rewrite (toArrayLike_le_ok (destChainId m) 8) by (change (256 ^ Z.of_nat 8) with (2 ^ 64); lia).
  rewrite !writeUInt16LE_alloc by (change (2 ^ 16) with 65536; lia).
  cbn [mbind result_bind]. cbv [mret result_ret].
  unfold Plan.update, Plan.createHash_sha256, plan_encoding, Buffer_from_array.
  cbn [map le_bytes app]. rewrite <- !app_assoc. cbn [app]. reflexivity.
Qed.

(** C3 (as amended): the source holds two different message-hash functions.
    For every message within the field bounds both return a 32-byte digest;
    the SDK's is Keccak-256 over the encoding with four-byte length
    prefixes, the plan document's is SHA-256 over the same 32-byte header
    followed by the fields behind one-byte (sender, recipient) and two-byte
    (onChainData, offChainData) lengths; the two hash inputs agree on their
    first 32 bytes and the SDK's is exactly ten bytes longer. *)
Theorem plan_hash_is_a_different_function (m : Message) :
  within_field_bounds m ->
  hash_message m = Ok (Keccak.digest (canonical_encoding m)) /\
  Plan.createMessageHash (txId m) (sourceChainId m) (destChainId m)
    (sender m) (recipient m) (onChainData m) (offChainData m)
  = Ok (Sha256.digest (plan_encoding m)) /\
  length (Keccak.digest (canonical_encoding m)) = 32%nat /\
  length (Sha256.digest (plan_encoding m)) = 32%nat /\
  take 32 (canonical_encoding m) = take 32 (plan_encoding m) /\
  length (canonical_encoding m) = (length (plan_encoding m) + 10)%nat.
Proof.
  intros B. destruct (within_field_bounds_fit m B) as [Hi Hl].
  split; [| split; [| split; [| split; [| split]]]].
  - unfold hash_message, createMessageHash.
    rewrite createMessageHash_allData_ok by assumption.
    unfold_monad. now rewrite keccak_256_decoded.
  - unfold Plan.createMessageHash. rewrite Plan_hasher_ok by assumption. reflexivity.
  - apply Keccak_digest_length.
  - apply Sha256_digest_length.
  - unfold canonical_encoding, plan_encoding.
    rewrite !(app_assoc (le_bytes 16 _)), !(app_assoc (le_bytes 16 _ ++ le_bytes 8 _)).
    rewrite !take_app_length'; [reflexivity | |]; now rewrite !length_app, !length_le_bytes.
  - unfold canonical_encoding, plan_encoding, length_prefixed.
    rewrite !length_app, !length_le_bytes. lia.
Qed.

Lemma plan_hash_is_a_different_function_witness :
  hash_message scenario_A = Ok (Keccak.digest (canonical_encoding scenario_A)) /\
  length (canonical_encoding scenario_A) = (length (plan_encoding scenario_A) + 10)%nat.
Proof.
  destruct (plan_hash_is_a_different_function scenario_A) as (H1 & _ & _ & _ & _ & H6).
  - unfold within_field_bounds, ids_in_range, scenario_A; cbn; lia.
  - split; [exact H1 | exact H6].
Defined.

(** C3 as written fails: on the message of scenario A the SDK's digest and
    the plan document's digest are different 32-byte strings. *)
Lemma plan_hash_differs_on_scenario_A :
  hash_message scenario_A
  = Ok (Buffer_from_hex "506ebab3340d402a6660184db5a05d12a5f1ce530d5142043aa04f91aa534221") /\
  Plan.createMessageHash (txId scenario_A) (sourceChainId scenario_A)
    (destChainId scenario_A) (sender scenario_A) (recipient scenario_A)
    (onChainData scenario_A) (offChainData scenario_A)
  = Ok (Buffer_from_hex "2ee37469b4a09418bd66258cca5a4ea1384ca307730c2ef01d28a1c01a23636c") /\
  ~ (forall m : Message,
       hash_message m
       = Plan.createMessageHash (txId m) (sourceChainId m) (destChainId m)
           (sender m) (recipient m) (onChainData m) (offChainData m)).
Proof.
  split; [vm_compute; reflexivity |]. split; [vm_compute; reflexivity |].
  intros H. specialize (H scenario_A). vm_compute in H. discriminate H.
Qed.

(** ** Address derivation *)

Section DerivationFacts.

Context {PublicKey : Type}.
Variable findProgramAddressSync : list Buffer -> PublicKey -> PublicKey * Z.
Variable programId : PublicKey.

Local Abbreviation derive' := (derive findProgramAddressSync programId).

Lemma validateChainId_ok c : 0 <= c -> validateChainId (Some c) = Ok tt.
Proof.
  intros Hc. unfold validateChainId, isNeg.
  destruct (Z.ltb_spec c 0); [lia | reflexivity].
Qed.

Lemma validateTxId_ok t : 0 <= t -> validateTxId (Some t) = Ok tt.
Proof.
  intros Ht. unfold validateTxId, isNeg.
  destruct (Z.ltb_spec t 0); [lia | reflexivity].
Qed.

Lemma validateChainId_neg c :
  c < 0 -> validateChainId (Some c) = Throw (Error ("Invalid chain ID: " +:+ BN_toString c)).
Proof.
  intros Hc. unfold validateChainId, isNeg.
  destruct (Z.ltb_spec c 0); [reflexivity | lia].
Qed.

Lemma validateTxId_neg t :
  t < 0 -> validateTxId (Some t) = Throw (Error ("Invalid TX ID: " +:+ BN_toString t)).
Proof.
  intros Ht. unfold validateTxId, isNeg.
  destruct (Z.ltb_spec t 0); [reflexivity | lia].
Qed.

Lemma chain_seed_ok c :
  0 <= c < 2 ^ 64 -> toArrayLike_le c CHAIN_ID_BYTES = Ok (le_bytes 8 c).
Proof.
  intros Hc. apply toArrayLike_le_ok.
  change (256 ^ Z.of_nat CHAIN_ID_BYTES) with (2 ^ 64). lia.
Qed.

Lemma tx_seed_ok t :
  0 <= t < 2 ^ 128 -> toArrayLike_le t TX_ID_BYTES = Ok (le_bytes 16 t).
Proof.
  intros Ht. apply toArrayLike_le_ok.
  change (256 ^ Z.of_nat TX_ID_BYTES) with (2 ^ 128). lia.
Qed.

Lemma getGatewayPda_ok c :
  0 <= c < 2 ^ 64 ->
  getGatewayPda findProgramAddressSync programId (Some c)
  = Ok (derive' [Buffer_from_string "gateway"; le_bytes 8 c]).
Proof.
  intros Hc. unfold getGatewayPda, derive.
  rewrite validateChainId_ok by lia. cbn [mbind result_bind deref].
  rewrite chain_seed_ok by lia. cbn [mbind result_bind].
  now destruct (findProgramAddressSync _ _).
Qed.

Lemma getSignerRegistryPda_ok t c :
  0 <= c < 2 ^ 64 ->
  getSignerRegistryPda findProgramAddressSync programId t (Some c)
  = Ok (derive' [Buffer_from_string "signer_registry";
                 [registryTypeToDiscriminant t]; le_bytes 8 c]).
Proof.
  intros Hc. unfold getSignerRegistryPda, derive.
  rewrite validateChainId_ok by lia. cbn [mbind result_bind deref].
  rewrite chain_seed_ok by lia. cbn [mbind result_bind].
  replace (Buffer_from_array [registryTypeToDiscriminant t])
    with [registryTypeToDiscriminant t] by now destruct t.
  now destruct (findProgramAddressSync _ _).
Qed.

Lemma getCounterPda_ok c :
  0 <= c < 2 ^ 64 ->
  getCounterPda findProgramAddressSync programId (Some c)
  = Ok (derive' [Buffer_from_string "counter"; le_bytes 8 c]).
Proof.
  intros Hc. unfold getCounterPda, derive.
  rewrite validateChainId_ok by lia. cbn [mbind result_bind deref].
  rewrite chain_seed_ok by lia. cbn [mbind result_bind].
  now destruct (findProgramAddressSync _ _).
Qed.

Lemma getTxIdPda_ok c t :
  0 <= c < 2 ^ 64 -> 0 <= t < 2 ^ 128 ->
  getTxIdPda findProgramAddressSync programId (Some c) (Some t)
  = Ok (derive' [Buffer_from_string "tx"; le_bytes 8 c; le_bytes 16 t]).
Proof.
  intros Hc Ht. unfold getTxIdPda, derive.
  rewrite validateChainId_ok, validateTxId_ok by lia. cbn [mbind result_bind deref].
  rewrite chain_seed_ok by lia. cbn [mbind result_bind].
  rewrite tx_seed_ok by lia. cbn [mbind result_bind].
  now destruct (findProgramAddressSync _ _).
Qed.

Lemma client_getSignerRegistryPdaForChain_ok t c :
  0 <= c < 2 ^ 64 ->
  Client.getSignerRegistryPdaForChain findProgramAddressSync programId t c
  = Ok (derive' [Buffer_from_string "signer_registry";
                 [registryTypeToDiscriminant t]; le_bytes 8 c]).
Proof.
  intros Hc. unfold Client.getSignerRegistryPdaForChain, derive.
  replace (Client.coder_types_encode_signerRegistryType t)
    with (Ok [registryTypeToDiscriminant t]) by now destruct t.
  cbn [mbind result_bind].
  rewrite (toArrayLike_le_ok c 8) by (change (256 ^ Z.of_nat 8) with (2 ^ 64); lia).
  cbn [mbind result_bind].
  now destruct (findProgramAddressSync _ _).
Qed.

Lemma client_getCounterPda_ok c :
  0 <= c < 2 ^ 64 ->
  Client.getCounterPda findProgramAddressSync programId c
  = Ok (derive' [Buffer_from_string "counter"; le_bytes 8 c]).
Proof.
  intros Hc. unfold Client.getCounterPda, derive.
  rewrite (toArrayLike_le_ok c 8) by (change (256 ^ Z.of_nat 8) with (2 ^ 64); lia).
  cbn [mbind result_bind].
  now destruct (findProgramAddressSync _ _).
Qed.

Lemma client_getTxIdPda_ok c t :
  0 <= c < 2 ^ 64 -> 0 <= t < 2 ^ 128 ->
  Client.getTxIdPda findProgramAddressSync programId c t
  = Ok (derive' [Buffer_from_string "tx"; le_bytes 8 c; le_bytes 16 t]).
Proof.
  intros Hc Ht. unfold Client.getTxIdPda, derive.
  rewrite (toArrayLike_le_ok c 8) by (change (256 ^ Z.of_nat 8) with (2 ^ 64); lia).
  cbn [mbind result_bind].
  rewrite (toArrayLike_le_ok t 16) by (change (256 ^ Z.of_nat 16) with (2 ^ 128); lia).
  cbn [mbind result_bind].
  now destruct (findProgramAddressSync _ _).
Qed.

Lemma client_getGatewayPda_ok :
  Client.getGatewayPda findProgramAddressSync programId
  = Ok (derive' [Buffer_from_string "gateway"; le_bytes 8 SOLANA_CHAIN_ID]).
Proof.
  unfold Client.getGatewayPda, derive.
  rewrite (toArrayLike_le_ok SOLANA_CHAIN_ID 8) by (unfold SOLANA_CHAIN_ID; cbn; lia).
  cbn [mbind result_bind].
  now destruct (findProgramAddressSync _ _).
Qed.

End DerivationFacts.

(** C5: for ids of the data model's widths, the SDK derives the gateway
    address from ("gateway", chainId 8 LE), the registry address from
    ("signer_registry", one discriminant byte with via=0, chain=1,
    project=2, chainId 8 LE), the marker address from ("tx", sourceChainId
    8 LE, txId 16 LE) and the counter address from ("counter",
    sourceChainId 8 LE); the client's module derives the same addresses. *)
Theorem pda_key_surface {PublicKey : Type}
    (findProgramAddressSync : list Buffer -> PublicKey -> PublicKey * Z)
    (programId : PublicKey) (layer : RegistryType) (chainId sourceChainId txId : BN) :
  0 <= chainId < 2 ^ 64 -> 0 <= sourceChainId < 2 ^ 64 -> 0 <= txId < 2 ^ 128 ->
  let derive' := derive findProgramAddressSync programId in
  getGatewayPda findProgramAddressSync programId (Some chainId)
  = Ok (derive' [Buffer_from_string "gateway"; le_bytes 8 chainId]) /\
  getSignerRegistryPda findProgramAddressSync programId layer (Some chainId)
  = Ok (derive' [Buffer_from_string "signer_registry";
                 [match layer with via => 0 | chain => 1 | project => 2 end];
                 le_bytes 8 chainId]) /\
  getTxIdPda findProgramAddressSync programId (Some sourceChainId) (Some txId)
  = Ok (derive' [Buffer_from_string "tx"; le_bytes 8 sourceChainId; le_bytes 16 txId]) /\
  getCounterPda findProgramAddressSync programId (Some sourceChainId)
  = Ok (derive' [Buffer_from_string "counter"; le_bytes 8 sourceChainId]) /\
  Client.getSignerRegistryPdaForChain findProgramAddressSync programId layer chainId
  = getSignerRegistryPda findProgramAddressSync programId layer (Some chainId) /\
  Client.getTxIdPda findProgramAddressSync programId sourceChainId txId
  = getTxIdPda findProgramAddressSync programId (Some sourceChainId) (Some txId) /\
  Client.getCounterPda findProgramAddressSync programId sourceChainId
  = getCounterPda findProgramAddressSync programId (Some sourceChainId).
Proof.
  intros Hc Hs Ht derive'. subst derive'.
  split; [now apply getGatewayPda_ok |].
  split; [now rewrite getSignerRegistryPda_ok by assumption |].
  split; [now apply getTxIdPda_ok |].
  split; [now apply getCounterPda_ok |].
  split; [now rewrite client_getSignerRegistryPdaForChain_ok, getSignerRegistryPda_ok |].
  split; [now rewrite client_getTxIdPda_ok, getTxIdPda_ok |].
  now rewrite client_getCounterPda_ok, getCounterPda_ok.
Qed.

Lemma pda_key_surface_witness :
  Client.getSignerRegistryPdaForChain sample_find sample_program chain AVALANCHE_CHAIN_ID
  = getSignerRegistryPda sample_find sample_program chain (Some AVALANCHE_CHAIN_ID) /\
  getTxIdPda sample_find sample_program (Some AVALANCHE_CHAIN_ID) (Some 1)
  = Ok (derive sample_find sample_program
          [Buffer_from_string "tx"; le_bytes 8 AVALANCHE_CHAIN_ID; le_bytes 16 1]).
Proof.
  destruct (pda_key_surface sample_find sample_program chain
              AVALANCHE_CHAIN_ID AVALANCHE_CHAIN_ID 1)
    as (_ & _ & Htx & _ & Hreg & _).
  - unfold AVALANCHE_CHAIN_ID; lia.
  - unfold AVALANCHE_CHAIN_ID; lia.
  - lia.
  - split; [exact Hreg | exact Htx].
Defined.

Example BN_toString_samples :
  BN_toString 0 = "0"%string /\ BN_toString 43113 = "43113"%string /\
  BN_toString (-5) = "-5"%string /\
  BN_toString 9999999999999999999 = "9999999999999999999"%string.
Proof. vm_compute. repeat split. Qed.

(** C9: each of the four derivation methods of the SDK checks its
    identifiers first.  A null or negative chain id makes every method throw
    'Invalid chain ID: ...' whatever the derivation would give; with a good
    chain id, a null or negative tx id makes getTxIdPda throw
    'Invalid TX ID: ...'; zero and positive values pass both validators, and
    in-range values yield an address. *)
Theorem pda_methods_validate {PublicKey : Type}
    (findProgramAddressSync : list Buffer -> PublicKey -> PublicKey * Z)
    (programId : PublicKey) (layer : RegistryType) (chainId txId : option BN) :
  (refused chainId ->
   let e := Throw (Error ("Invalid chain ID: " +:+ shown chainId)) in
   getGatewayPda findProgramAddressSync programId chainId = e /\
   getSignerRegistryPda findProgramAddressSync programId layer chainId = e /\
   getCounterPda findProgramAddressSync programId chainId = e /\
   getTxIdPda findProgramAddressSync programId chainId txId = e) /\
  (~ refused chainId -> refused txId ->
   getTxIdPda findProgramAddressSync programId chainId txId
   = Throw (Error ("Invalid TX ID: " +:+ shown txId))) /\
  (forall c t : BN, 0 <= c -> 0 <= t ->
   validateChainId (Some c) = Ok tt /\ validateTxId (Some t) = Ok tt) /\
  (forall c t : BN, 0 <= c < 2 ^ 64 -> 0 <= t < 2 ^ 128 ->
   is_ok (getGatewayPda findProgramAddressSync programId (Some c)) = true /\
   is_ok (getSignerRegistryPda findProgramAddressSync programId layer (Some c)) = true /\
   is_ok (getCounterPda findProgramAddressSync programId (Some c)) = true /\
   is_ok (getTxIdPda findProgramAddressSync programId (Some c) (Some t)) = true).
Proof.
  split; [| split; [| split]].
  - intros Hr e. subst e.
    assert (Hv : validateChainId chainId
                 = Throw (Error ("Invalid chain ID: " +:+ shown chainId))).
    { destruct chainId as [c|]; cbn in Hr; [now apply validateChainId_neg | reflexivity]. }
    unfold getGatewayPda, getSignerRegistryPda, getCounterPda, getTxIdPda.
    rewrite Hv. cbn [mbind result_bind]. repeat split.
  - intros Hc Hr.
    destruct chainId as [c|]; cbn in Hc; [| now destruct Hc].
    assert (Hv : validateTxId txId = Throw (Error ("Invalid TX ID: " +:+ shown txId))).
    { destruct txId as [t|]; cbn in Hr; [now apply validateTxId_neg | reflexivity]. }
    unfold getTxIdPda. rewrite validateChainId_ok by lia.
    cbn [mbind result_bind]. rewrite Hv. reflexivity.
  - intros c t Hc Ht. split; [now apply validateChainId_ok | now apply validateTxId_ok].
  - intros c t Hc Ht.
    rewrite getGatewayPda_ok, getSignerRegistryPda_ok, getCounterPda_ok, getTxIdPda_ok
      by assumption.
    repeat split.
Qed.

Lemma pda_methods_validate_witness :
  getCounterPda sample_find sample_program (Some (-5))
  = Throw (Error "Invalid chain ID: -5") /\
  getTxIdPda sample_find sample_program (Some 0) None
  = Throw (Error "Invalid TX ID: null").
Proof.
  split.
  - destruct (pda_methods_validate sample_find sample_program via (Some (-5)) None)
      as [H _].
    destruct H as (_ & _ & H & _); [cbn; lia | exact H].
  - destruct (pda_methods_validate sample_find sample_program via (Some 0) None)
      as (_ & H & _).
    apply H; [cbn; lia | exact I].
Defined.

(** ** Transactions with signature checks *)

Lemma add_ed25519_instructions_returned {PublicKey : Type}
    (signatures : list (MessageSignature PublicKey)) :
  forall (tx tx' : Transaction PublicKey) (messageHash : Buffer),
  add_ed25519_instructions tx signatures messageHash = Ok tx' ->
  tx' = tx ++ map (fun sig => Ed25519Verify (signer sig) messageHash (signature sig)) signatures.
Proof.
  induction signatures as [|sig rest IH]; intros tx tx' h Hadd; cbn in Hadd.
  - injection Hadd as <-. now rewrite app_nil_r.
  - unfold createEd25519Instruction in Hadd.
    destruct (length (signature sig) =? 64)%nat; cbn [mbind result_bind] in Hadd;
      [| discriminate Hadd].
    apply IH in Hadd. rewrite Hadd, <- app_assoc. reflexivity.
Qed.

Lemma add_ed25519_instructions_ok {PublicKey : Type}
    (signatures : list (MessageSignature PublicKey)) :
  Forall (fun sig => length (signature sig) = 64%nat) signatures ->
  forall (tx : Transaction PublicKey) (messageHash : Buffer),
  is_ok (add_ed25519_instructions tx signatures messageHash) = true.
Proof.
  induction 1 as [|sig rest Hs _ IH]; intros tx h; cbn; [reflexivity |].
  unfold createEd25519Instruction. rewrite Hs. cbn. apply IH.
Qed.

Section SdkFacts.

Context {PublicKey : Type}.
Variable findProgramAddressSync : list Buffer -> PublicKey -> PublicKey * Z.
Variable programId wallet sysvar : PublicKey.

Local Abbreviation create_tx := (createTxPdaWithSignatures_tx findProgramAddressSync programId wallet sysvar).
Local Abbreviation process_tx := (processMessageWithSignatures_tx findProgramAddressSync programId wallet sysvar).

Lemma createTxPdaWithSignatures_tx_shape t s d se re on off sigs tx :
  create_tx t s d se re on off sigs = Ok tx ->
  exists digest req,
    createMessageHash t s d se re on off = Ok digest /\
    tx = map (fun sig => Ed25519Verify (signer sig) digest (signature sig)) sigs
         ++ [ProgramCall req] /\
    instruction req = IxCreateTxPda (mkMessage t s d se re on off)
                        (formatSignaturesForAnchor sigs).
Proof.
  unfold createTxPdaWithSignatures_tx. intros H.
  do 4 first_call_returned H.
  cbv [mret result_ret] in H. injection H as <-.
  apply add_ed25519_instructions_returned in E0. subst. cbn [app].
  eexists _, _. split; [reflexivity |]. split; reflexivity.
Qed.

Lemma processMessageWithSignatures_tx_shape t s d se re on off sigs tx :
  process_tx t s d se re on off sigs = Ok tx ->
  exists digest req,
    createMessageHash t s d se re on off = Ok digest /\
    tx = map (fun sig => Ed25519Verify (signer sig) digest (signature sig)) sigs
         ++ [ProgramCall req] /\
    instruction req = IxProcessMessage (mkMessage t s d se re on off)
                        (formatSignaturesForAnchor sigs).
Proof.
  unfold processMessageWithSignatures_tx. intros H.
  do 7 first_call_returned H.
  cbv [mret result_ret] in H. injection H as <-.
  apply add_ed25519_instructions_returned in E0. subst. cbn [app].
  eexists _, _. split; [reflexivity |]. split; reflexivity.
Qed.

End SdkFacts.

(** C6: a transaction built by createTxPdaWithSignatures or by
    processMessageWithSignatures is, in order, one Ed25519 check per
    submitted signature (that signature, its signer, and the whole 32-byte
    createMessageHash digest of the same fields as the message) and then the
    one call of the gateway program; and it is built whenever the ids and
    lengths fit their widths and every signature has 64 bytes. *)
Theorem signature_checks_precede_program_call {PublicKey : Type}
    (findProgramAddressSync : list Buffer -> PublicKey -> PublicKey * Z)
    (programId wallet sysvar : PublicKey)
    (t s d : BN) (se re on off : Buffer) (sigs : list (MessageSignature PublicKey)) :
  let create_tx :=
    createTxPdaWithSignatures_tx findProgramAddressSync programId wallet sysvar
      t s d se re on off sigs in
  let process_tx :=
    processMessageWithSignatures_tx findProgramAddressSync programId wallet sysvar
      t s d se re on off sigs in
  (forall tx, create_tx = Ok tx \/ process_tx = Ok tx ->
   exists digest req,
     createMessageHash t s d se re on off = Ok digest /\
     length digest = 32%nat /\
     tx = map (fun sig => Ed25519Verify (signer sig) digest (signature sig)) sigs
          ++ [ProgramCall req]) /\
  (ids_in_range (mkMessage t s d se re on off) ->
   lengths_fit_u32 (mkMessage t s d se re on off) ->
   Forall (fun sig => length (signature sig) = 64%nat) sigs ->
   is_ok create_tx = true /\ is_ok process_tx = true).
Proof.
  intros create_tx process_tx. subst create_tx process_tx. split.
  - intros tx [H | H].
    + apply createTxPdaWithSignatures_tx_shape in H as (digest & req & Hd & Htx & _).
      exists digest, req. split; [exact Hd |]. split; [| exact Htx].
      eapply createMessageHash_digest_length; eassumption.
    + apply processMessageWithSignatures_tx_shape in H as (digest & req & Hd & Htx & _).
      exists digest, req. split; [exact Hd |]. split; [| exact Htx].
      eapply createMessageHash_digest_length; eassumption.
  - intros Hi Hl Hs.
    pose proof (createMessageHash_returns _ Hi Hl) as Eh.
    cbn [txId sourceChainId destChainId sender recipient onChainData offChainData] in Eh.
    destruct Hi as (Ht & Hsrc & Hdst). cbn in Ht, Hsrc, Hdst.
    unfold createTxPdaWithSignatures_tx, processMessageWithSignatures_tx.
    rewrite Eh. cbn [mbind result_bind].
    match goal with
    | |- context [add_ed25519_instructions [] sigs ?h] =>
        pose proof (add_ed25519_instructions_ok sigs Hs [] h) as Ha;
        destruct (add_ed25519_instructions [] sigs h) as [tx0|]; [| discriminate Ha]
    end.
    cbn [mbind result_bind].
    rewrite !getTxIdPda_ok, !getCounterPda_ok, !getGatewayPda_ok,
      !getSignerRegistryPda_ok by assumption.
    split; reflexivity.
Qed.

Lemma signature_checks_precede_program_call_witness :
  exists digest req,
    createMessageHash 1 43113 9999999999999999999 (Buffer_from_string "avax")
      (repeat 7 32) (Buffer_from_string "hello") [] = Ok digest /\
    length digest = 32%nat /\
    createTxPdaWithSignatures_tx sample_find sample_program sample_wallet sample_sysvar
      1 43113 9999999999999999999 (Buffer_from_string "avax")
      (repeat 7 32) (Buffer_from_string "hello") [] sample_signatures
    = Ok [Ed25519Verify (repeat 11 32) digest (repeat 1 64);
          Ed25519Verify (repeat 12 32) digest (repeat 2 64);
          ProgramCall req].
Proof.
  destruct (signature_checks_precede_program_call sample_find sample_program
              sample_wallet sample_sysvar
              1 43113 9999999999999999999 (Buffer_from_string "avax")
              (repeat 7 32) (Buffer_from_string "hello") [] sample_signatures)
    as [Hshape Hbuilt].
  destruct Hbuilt as [Hc _].
  - unfold ids_in_range; cbn; lia.
  - unfold lengths_fit_u32; cbn; lia.
  - repeat constructor.
  - destruct (createTxPdaWithSignatures_tx _ _ _ _ _ _ _ _ _ _ _ _) as [tx|] eqn:E;
      [| discriminate Hc].
    destruct (Hshape tx (or_introl eq_refl)) as (digest & req & Hd & Hlen & Htx).
    exists digest, req. split; [exact Hd |]. split; [exact Hlen |].
    now rewrite Htx.
Defined.

(** ** Which chain each registry is looked up under *)

Lemma registry_seeds_by_chain layer c1 c2 :
  0 <= c1 < 2 ^ 64 -> 0 <= c2 < 2 ^ 64 -> c1 <> c2 ->
  registry_seeds layer c1 <> registry_seeds layer c2.
Proof.
  intros H1 H2 Hne E. unfold registry_seeds in E.
  assert (E8 : le_bytes 8 c1 = le_bytes 8 c2) by congruence.
  apply Hne.
  apply (le_bytes_inj 8); [change (256 ^ Z.of_nat 8) with (2 ^ 64); lia .. | exact E8].
Qed.

(** C10: for ids of the data model's widths, each processing entry point
    (the SDK's processMessage and processMessageWithSignatures and the
    process_message script) names the Via registry and the Project registry
    derived for the destination chain and the Chain registry derived for the
    source chain; when the two chains differ the Chain registry's seeds are
    not those of the destination chain. *)
Theorem registries_resolved_per_layer {PublicKey : Type}
    (findProgramAddressSync : list Buffer -> PublicKey -> PublicKey * Z)
    (programId wallet sysvar : PublicKey)
    (t source dest : BN) (se re on off : Buffer)
    (sigs : list (AnchorSignature PublicKey)) (msigs : list (MessageSignature PublicKey)) :
  0 <= t < 2 ^ 128 -> 0 <= source < 2 ^ 64 -> 0 <= dest < 2 ^ 64 ->
  let resolved := registries_resolved (derive findProgramAddressSync programId) source dest in
  (exists req,
     processMessage_request findProgramAddressSync programId wallet
       t source dest se re on off sigs = Ok req /\ resolved req) /\
  (forall tx,
     processMessageWithSignatures_tx findProgramAddressSync programId wallet sysvar
       t source dest se re on off msigs = Ok tx ->
     exists req, last tx = Some (ProgramCall req) /\ resolved req) /\
  (exists req,
     execute_request findProgramAddressSync programId wallet
       t source dest se re on off sigs = Ok req /\ resolved req) /\
  (source <> dest ->
   registry_seeds chain source <> registry_seeds chain dest /\
   registry_seeds via dest <> registry_seeds via source /\
   registry_seeds project dest <> registry_seeds project source).
Proof.
  intros Ht Hs Hd resolved. subst resolved.
  split; [| split; [| split]].
  - unfold processMessage_request.
    rewrite getGatewayPda_ok, getTxIdPda_ok, !getSignerRegistryPda_ok by assumption.
    cbn [mbind result_bind]. eexists. split; [reflexivity |].
    unfold registries_resolved, account. cbn. repeat split.
  - intros tx H. unfold processMessageWithSignatures_tx in H.
    do 2 first_call_returned H.
    rewrite getGatewayPda_ok, getTxIdPda_ok, !getSignerRegistryPda_ok in H by assumption.
    cbn [mbind result_bind] in H. cbv [mret result_ret] in H. injection H as <-.
    eexists. split; [apply last_snoc |].
    unfold registries_resolved, account. cbn. repeat split.
  - unfold execute_request.
    rewrite client_getGatewayPda_ok, client_getTxIdPda_ok,
      !client_getSignerRegistryPdaForChain_ok by assumption.
    cbn [mbind result_bind]. eexists. split; [reflexivity |].
    unfold registries_resolved, account. cbn. repeat split.
  - intros Hne. split; [| split]; apply registry_seeds_by_chain; auto.
Qed.

Lemma registries_resolved_per_layer_witness :
  exists req,
    processMessage_request sample_find sample_program sample_wallet
      1 43113 9999999999999999999 (Buffer_from_string "avax")
      (repeat 7 32) (Buffer_from_string "hello") [] [] = Ok req /\
    account "chainRegistry" req
    = Some (derive sample_find sample_program (registry_seeds chain 43113)) /\
    account "viaRegistry" req
    = Some (derive sample_find sample_program (registry_seeds via 9999999999999999999)).
Proof.
  destruct (registries_resolved_per_layer sample_find sample_program sample_wallet
              sample_sysvar 1 43113 9999999999999999999 (Buffer_from_string "avax")
              (repeat 7 32) (Buffer_from_string "hello") [] [] sample_signatures)
    as [(req & Hreq & Hvia & Hchain & _) _]; [lia | lia | lia |].
  exists req. split; [exact Hreq |]. split; [exact Hchain | exact Hvia].
Defined.

(** ** The setup flow *)

Lemma setup_flow_throws_unabsorbed {World : Type} (steps : list (M World string)) :
  forall w e w', setup_flow steps w = (Throw e, w') ->
  message_includes e "already in use" = false.
Proof.
  induction steps as [|step rest IH]; intros w e w' H; cbn in H; [discriminate H |].
  destruct (step w) as [[sig|e0] w0].
  - eapply IH; eassumption.
  - destruct (message_includes e0 "already in use") eqn:Hm.
    + eapply IH; eassumption.
    + injection H as <- <-. exact Hm.
Qed.

Lemma guarded_step {World : Type} (step : M World string) (k : M World unit) (w : World) :
  (_ ← try_catch (_ ← step; mret tt)
         (fun e => if message_includes e "already in use" then mret tt else throw e);
   k) w
  = match step w with
    | (Ok _, w') => k w'
    | (Throw e, w') =>
        if message_includes e "already in use" then k w' else (Throw e, w')
    end.
Proof.
  cbv [mbind mret M_bind M_ret try_catch throw].
  destruct (step w) as [[sig|e] w']; [reflexivity |].
  destruct (message_includes e "already in use"); reflexivity.
Qed.

Lemma guarded_step_flow {World : Type} (step : M World string) (k : M World unit)
    (steps : list (M World string)) :
  (forall w, k w = setup_flow steps w) ->
  forall w,
  (_ ← try_catch (_ ← step; mret tt)
         (fun e => if message_includes e "already in use" then mret tt else throw e);
   k) w
  = setup_flow (step :: steps) w.
Proof.
  intros Hk w. rewrite guarded_step. cbn [setup_flow].
  destruct (step w) as [[sig|e] w']; [apply Hk |].
  destruct (message_includes e "already in use"); [apply Hk | reflexivity].
Qed.

Lemma for_of_guarded_flow {World A : Type} (f : A -> M World string) (xs : list A) :
  forall w,
  for_of xs (fun x =>
    try_catch (_ ← f x; mret tt)
      (fun e => if message_includes e "already in use" then mret tt else throw e)) w
  = setup_flow (map f xs) w.
Proof.
  induction xs as [|x rest IH]; intros w; [reflexivity |].
  cbn [for_of map]. now apply guarded_step_flow.
Qed.

(** C7: setupChain runs its five initialisation steps (gateway, counter,
    Via, Chain and Project registries) in order; a step that throws an error
    whose message contains 'already in use' is taken as done and the next
    step runs; any other error ends setupChain with that very error, so an
    error that setupChain throws never has 'already in use' in its
    message. *)
Theorem setupChain_absorbs_only_already_in_use {PublicKey World : Type}
    (findProgramAddressSync : list Buffer -> PublicKey -> PublicKey * Z)
    (programId wallet : PublicKey)
    (rpc : Request PublicKey -> M World string) (chainId : BN) (w : World) :
  let sdk_initializeRegistry :=
    initializeRegistry findProgramAddressSync programId wallet rpc in
  setupChain findProgramAddressSync programId wallet rpc chainId w
  = setup_flow
      [initializeGateway rpc chainId;
       initializeCounter findProgramAddressSync programId wallet rpc chainId;
       sdk_initializeRegistry via chainId [wallet] 1;
       sdk_initializeRegistry chain chainId [wallet] 1;
       sdk_initializeRegistry project chainId [wallet] 1] w
  /\ (forall e w',
        setupChain findProgramAddressSync programId wallet rpc chainId w = (Throw e, w') ->
        message_includes e "already in use" = false).
Proof.
  intros sdk_initializeRegistry.
  assert (E : setupChain findProgramAddressSync programId wallet rpc chainId w
              = setup_flow
                  [initializeGateway rpc chainId;
                   initializeCounter findProgramAddressSync programId wallet rpc chainId;
                   sdk_initializeRegistry via chainId [wallet] 1;
                   sdk_initializeRegistry chain chainId [wallet] 1;
                   sdk_initializeRegistry project chainId [wallet] 1] w).
  { unfold setupChain.
    apply guarded_step_flow. intros w1.
    apply guarded_step_flow. intros w2.
    apply (for_of_guarded_flow
             (fun type => sdk_initializeRegistry type chainId [wallet] 1)
             [via; chain; project]). }
  split; [exact E |].
  intros e w' H. rewrite E in H. eapply setup_flow_throws_unabsorbed; eassumption.
Qed.

Example setupChain_sample_run :
  setupChain sample_find sample_program sample_wallet sample_rpc AVALANCHE_CHAIN_ID []
  = (Throw (Error "custom program error: 0x1770"),
     ["initializeGateway"; "initializeCounter"; "initializeRegistry";
      "initializeRegistry"]%string).
Proof. vm_compute. reflexivity. Qed.

(** ** Replay protection *)

Lemma getTxIdPda_returned {PublicKey : Type}
    (findProgramAddressSync : list Buffer -> PublicKey -> PublicKey * Z)
    (programId : PublicKey) (source txId : BN) (address : PublicKey) :
  getTxIdPda findProgramAddressSync programId (Some source) (Some txId) = Ok address ->
  0 <= source < 2 ^ 64 /\ 0 <= txId < 2 ^ 128 /\
  address = derive findProgramAddressSync programId
              [Buffer_from_string "tx"; le_bytes 8 source; le_bytes 16 txId].
Proof.
  intros H.
  assert (Hs : 0 <= source < 2 ^ 64 /\ 0 <= txId < 2 ^ 128).
  { unfold getTxIdPda, validateChainId, validateTxId, isNeg, toArrayLike_le in H.
    destruct (Z.ltb_spec source 0); [discriminate H |].
    destruct (Z.ltb_spec txId 0); [discriminate H |].
    cbn [mbind result_bind deref] in H.
    destruct (Z.ltb_spec (Z.abs source) (256 ^ Z.of_nat CHAIN_ID_BYTES)) as [Hc|];
      [| discriminate H].
    cbn [mbind result_bind deref] in H.
    destruct (Z.ltb_spec (Z.abs txId) (256 ^ Z.of_nat TX_ID_BYTES)) as [Ht|];
      [| discriminate H].
    change (256 ^ Z.of_nat CHAIN_ID_BYTES) with (2 ^ 64) in Hc.
    change (256 ^ Z.of_nat TX_ID_BYTES) with (2 ^ 128) in Ht.
    lia. }
  destruct Hs as [Hs Ht]. split; [exact Hs |]. split; [exact Ht |].
  rewrite getTxIdPda_ok in H by assumption. congruence.
Qed.

(** C1: against a program whose createTxPda creates the marker exclusively
    at the address it is given, once a createTxPda call of the SDK has
    succeeded for (sourceChainId, txId), a second call with the same two ids
    fails with AlreadyExists and leaves the ledger as it was, whatever the
    other fields and signatures of either call: the address of the marker is
    derived from ("tx", sourceChainId 8 LE, txId 16 LE) alone, and the
    marker now sits at that address. *)
Theorem createTxPda_second_call_fails `{Countable PublicKey}
    (findProgramAddressSync : list Buffer -> PublicKey -> PublicKey * Z)
    (programId wallet : PublicKey)
    (rpc : Request PublicKey -> M (gmap PublicKey Buffer) string)
    (txId sourceChainId : BN)
    (dest1 dest2 : BN) (se1 se2 re1 re2 on1 on2 off1 off2 : Buffer)
    (sigs1 sigs2 : list (AnchorSignature PublicKey))
    (ledger ledger' : gmap PublicKey Buffer) (tx1 : string) :
  (forall req l, is_createTxPda req -> rpc req l = program_createTxPda req l) ->
  createTxPda findProgramAddressSync programId wallet rpc
    txId sourceChainId dest1 se1 re1 on1 off1 sigs1 ledger = (Ok tx1, ledger') ->
  createTxPda findProgramAddressSync programId wallet rpc
    txId sourceChainId dest2 se2 re2 on2 off2 sigs2 ledger'
  = (Throw (ProgramError AlreadyExists "AlreadyExists"), ledger') /\
  let address := derive findProgramAddressSync programId
                   [Buffer_from_string "tx"; le_bytes 8 sourceChainId; le_bytes 16 txId] in
  getTxIdPda findProgramAddressSync programId (Some sourceChainId) (Some txId) = Ok address /\
  ledger !! address = None /\
  exists digest,
    hash_message (mkMessage txId sourceChainId dest1 se1 re1 on1 off1) = Ok digest /\
    ledger' = <[address := digest]> ledger.
Proof.
  intros Hrpc Hfirst.
  unfold createTxPda, createTxPda_request in *.
  destruct (getTxIdPda findProgramAddressSync programId (Some sourceChainId) (Some txId))
    as [address|e] eqn:Ea;
    [| cbv [mbind mret M_bind M_ret result_bind result_ret lift] in Hfirst;
       discriminate Hfirst].
  destruct (getTxIdPda_returned _ _ _ _ _ Ea) as (Hs & Ht & Haddr).
  rewrite getCounterPda_ok in * by assumption.
  cbv [mbind mret M_bind M_ret result_bind result_ret lift] in *.
  rewrite Hrpc in * by exact I.
  unfold program_createTxPda, account in *. cbn [instruction accounts assoc] in *.
  change (String.eqb "txIdPda" "txIdPda") with true in *. cbv iota in *.
  destruct (ledger !! address) as [old|] eqn:El; [discriminate Hfirst |].
  destruct (hash_message _) as [digest|e] eqn:Eh; [| discriminate Hfirst].
  injection Hfirst as _ <-.
  rewrite lookup_insert_eq. split; [reflexivity |].
  rewrite <- Haddr.
  split; [reflexivity |]. split; [exact El |].
  exists digest. split; reflexivity.
Qed.

Lemma createTxPda_second_call_fails_witness :
  exists tx1 ledger',
    createTxPda sample_find sample_program sample_wallet program_createTxPda
      1 43113 9999999999999999999 (Buffer_from_string "avax")
      (repeat 7 32) (Buffer_from_string "hello") [] [] ∅ = (Ok tx1, ledger') /\
    createTxPda sample_find sample_program sample_wallet program_createTxPda
      1 43113 43113 (Buffer_from_string "mallory")
      (repeat 8 32) (Buffer_from_string "goodbye") [1] [] ledger'
    = (Throw (ProgramError AlreadyExists "AlreadyExists"), ledger').
Proof.
  assert (Hok : is_ok (fst (createTxPda sample_find sample_program sample_wallet
                              program_createTxPda
                              1 43113 9999999999999999999 (Buffer_from_string "avax")
                              (repeat 7 32) (Buffer_from_string "hello") [] [] ∅)) = true)
    by (vm_compute; reflexivity).
  destruct (createTxPda sample_find sample_program sample_wallet program_createTxPda
              1 43113 9999999999999999999 (Buffer_from_string "avax")
              (repeat 7 32) (Buffer_from_string "hello") [] [] ∅)
    as [[tx1|e] ledger'] eqn:E; [| discriminate Hok].
  exists tx1, ledger'. split; [reflexivity |].
  eapply (createTxPda_second_call_fails sample_find sample_program sample_wallet
            program_createTxPda 1 43113 9999999999999999999 43113).
  - intros req l _. reflexivity.
  - exact E.
Defined.

Lemma setupChain_absorbs_only_already_in_use_witness :
  setupChain sample_find sample_program sample_wallet sample_rpc AVALANCHE_CHAIN_ID []
  = (Throw (Error "custom program error: 0x1770"),
     ["initializeGateway"; "initializeCounter"; "initializeRegistry";
      "initializeRegistry"]%string) /\
  message_includes (Error "custom program error: 0x1770") "already in use" = false.
Proof.
  destruct (setupChain_absorbs_only_already_in_use sample_find sample_program
              sample_wallet sample_rpc AVALANCHE_CHAIN_ID []) as [E H].
  split; [rewrite E; vm_compute; reflexivity |].
  eapply H. rewrite E. vm_compute. reflexivity.
Defined.

(** * Further properties of the sources *)

(** ** Length prefixes *)

Lemma writeUInt32LE_refuses (buf : Buffer) v offset :
  ~ (0 <= v < 2 ^ 32) -> is_ok (writeUInt32LE buf v offset) = false.
Proof.
  intros Hv. unfold writeUInt32LE.
  destruct (Z.leb_spec 0 v); destruct (Z.leb_spec v 4294967295); cbn; try reflexivity.
  exfalso. apply Hv. change (2 ^ 32) with 4294967296. lia.
Qed.

Lemma encodeLengthPrefixed_is_ok data :
  is_ok (encodeLengthPrefixed data) = true <-> Z.of_nat (length data) < 2 ^ 32.
Proof.
  split.
  - intros Hok. destruct (Z.lt_ge_cases (Z.of_nat (length data)) (2 ^ 32)) as [|Hge];
      [assumption |].
    unfold encodeLengthPrefixed in Hok.
    pose proof (writeUInt32LE_refuses (Buffer_alloc 4) (Z.of_nat (length data)) 0) as Hr.
    destruct (writeUInt32LE _ _ _); [| discriminate Hok].
    cbn in Hr. discriminate Hr. lia.
  - intros Hl. now rewrite encodeLengthPrefixed_ok.
Qed.

(** X1: encodeLengthPrefixed returns exactly for data shorter than 2^32
    bytes, and what it returns can be read back: it is four bytes longer than
    the data, its first four bytes are the length in little-endian order and
    the rest is the data unchanged. *)
Theorem encodeLengthPrefixed_read_back (data : Buffer) :
  (is_ok (encodeLengthPrefixed data) = true <-> Z.of_nat (length data) < 2 ^ 32) /\
  (forall encoded, encodeLengthPrefixed data = Ok encoded ->
     length encoded = (4 + length data)%nat /\
     le_value (take 4 encoded) = Z.of_nat (length data) /\
     drop 4 encoded = data).
Proof.
  split; [apply encodeLengthPrefixed_is_ok |].
  intros encoded He.
  assert (Hl : Z.of_nat (length data) < 2 ^ 32).
  { apply encodeLengthPrefixed_is_ok. now rewrite He. }
  rewrite encodeLengthPrefixed_ok in He by assumption.
  assert (E : encoded = length_prefixed data) by congruence.
  subst encoded. unfold length_prefixed.
  split; [now rewrite length_app, length_le_bytes |].
  split.
  - rewrite take_app_length' by now rewrite length_le_bytes.
    rewrite le_value_le_bytes by lia.
    apply Z.mod_small. change (256 ^ Z.of_nat 4) with (2 ^ 32). lia.
  - now rewrite drop_app_length' by now rewrite length_le_bytes.
Qed.

Lemma encodeLengthPrefixed_read_back_witness :
  encodeLengthPrefixed (Buffer_from_string "hello")
  = Ok [5; 0; 0; 0; 104; 101; 108; 108; 111] /\
  drop 4 [5; 0; 0; 0; 104; 101; 108; 108; 111] = Buffer_from_string "hello".
Proof.
  destruct (encodeLengthPrefixed_read_back (Buffer_from_string "hello")) as [_ H].
  split; [reflexivity |].
  apply (H [5; 0; 0; 0; 104; 101; 108; 108; 111]). reflexivity.
Defined.

(** ** The domain of createMessageHash *)

Lemma toArrayLike_le_abs x n : toArrayLike_le x n = toArrayLike_le (Z.abs x) n.
Proof. unfold toArrayLike_le. now rewrite Z.abs_idemp. Qed.

Lemma toArrayLike_le_is_ok x n :
  is_ok (toArrayLike_le x n) = true <-> Z.abs x < 256 ^ Z.of_nat n.
Proof.
  unfold toArrayLike_le.
  destruct (Z.ltb_spec (Z.abs x) (256 ^ Z.of_nat n)); cbn; split; intros; try lia;
    try reflexivity; discriminate.
Qed.

Lemma createMessageHash_allData_abs t s d se re on off :
  createMessageHash_allData t s d se re on off
  = createMessageHash_allData (Z.abs t) (Z.abs s) (Z.abs d) se re on off.
Proof.
  unfold createMessageHash_allData.
  now rewrite (toArrayLike_le_abs t), (toArrayLike_le_abs s), (toArrayLike_le_abs d).
Qed.

Lemma createMessageHash_allData_fields t s d se re on off :
  Z.abs t < 2 ^ 128 -> Z.abs s < 2 ^ 64 -> Z.abs d < 2 ^ 64 ->
  lengths_fit_u32 (mkMessage t s d se re on off) ->
  createMessageHash_allData t s d se re on off
  = Ok (canonical_encoding (mkMessage (Z.abs t) (Z.abs s) (Z.abs d) se re on off)).
Proof.
  intros Ht Hs Hd Hl. rewrite createMessageHash_allData_abs.
  apply (createMessageHash_allData_ok
           (mkMessage (Z.abs t) (Z.abs s) (Z.abs d) se re on off)).
  - unfold ids_in_range. cbn. lia.
  - exact Hl.
Qed.

Lemma createMessageHash_allData_is_ok t s d se re on off :
  is_ok (createMessageHash_allData t s d se re on off) = true <->
  (Z.abs t < 2 ^ 128 /\ Z.abs s < 2 ^ 64 /\ Z.abs d < 2 ^ 64) /\
  lengths_fit_u32 (mkMessage t s d se re on off).
Proof.
  split.
  - unfold createMessageHash_allData. intros H.
    destruct (toArrayLike_le t 16) eqn:Et; [| discriminate H].
    destruct (toArrayLike_le s 8) eqn:Es; [| discriminate H].
    destruct (toArrayLike_le d 8) eqn:Ed; [| discriminate H].
    cbn [mbind result_bind] in H.
    destruct (encodeLengthPrefixed se) eqn:E1; [| discriminate H].
    destruct (encodeLengthPrefixed re) eqn:E2; [| discriminate H].
    destruct (encodeLengthPrefixed on) eqn:E3; [| discriminate H].
    destruct (encodeLengthPrefixed off) eqn:E4; [| discriminate H].
    split.
    + split; [| split].
      * apply (toArrayLike_le_is_ok t 16). now rewrite Et.
      * apply (toArrayLike_le_is_ok s 8). now rewrite Es.
      * apply (toArrayLike_le_is_ok d 8). now rewrite Ed.
    + unfold lengths_fit_u32. cbn.
      split; [| split; [| split]]; apply encodeLengthPrefixed_is_ok.
      * now rewrite E1.
      * now rewrite E2.
      * now rewrite E3.
      * now rewrite E4.
  - intros [(Ht & Hs & Hd) Hl].
    now rewrite createMessageHash_allData_fields.
Qed.

(** X2: createMessageHash returns a digest exactly when the magnitude of
    txId is below 2^128, the magnitudes of both chain ids are below 2^64 and
    all four fields are shorter than 2^32 bytes; otherwise it throws.  When
    it returns, the bytes hashed are 48 bytes more than the four fields
    together. *)
Theorem createMessageHash_domain (t s d : BN) (se re on off : Buffer) :
  (is_ok (createMessageHash t s d se re on off) = true <->
   (Z.abs t < 2 ^ 128 /\ Z.abs s < 2 ^ 64 /\ Z.abs d < 2 ^ 64) /\
   lengths_fit_u32 (mkMessage t s d se re on off)) /\
  (forall allData, createMessageHash_allData t s d se re on off = Ok allData ->
     length allData = (48 + length se + length re + length on + length off)%nat).
Proof.
  split.
  - rewrite <- createMessageHash_allData_is_ok. unfold createMessageHash.
    destruct (createMessageHash_allData t s d se re on off); cbn; tauto.
  - intros allData Ha.
    assert (Hok : is_ok (createMessageHash_allData t s d se re on off) = true)
      by now rewrite Ha.
    apply createMessageHash_allData_is_ok in Hok as [(Ht & Hs & Hd) Hl].
    rewrite createMessageHash_allData_fields in Ha by assumption.
    assert (E : allData = canonical_encoding
                  (mkMessage (Z.abs t) (Z.abs s) (Z.abs d) se re on off)) by congruence.
    subst allData. unfold canonical_encoding, length_prefixed.
    cbn [txId sourceChainId destChainId sender recipient onChainData offChainData].
    rewrite !length_app, !length_le_bytes. lia.
Qed.

Lemma createMessageHash_domain_witness :
  is_ok (createMessageHash (2 ^ 128) 1 1 [] [] [] []) = false /\
  length (canonical_encoding scenario_A) = 89%nat.
Proof.
  destruct (createMessageHash_domain (2 ^ 128) 1 1 [] [] [] []) as [Hdom _].
  destruct (createMessageHash_domain 1 43113 9999999999999999999
              (Buffer_from_string "avax") (repeat 7 32) (Buffer_from_string "hello") [])
    as [_ Hlen].
  split.
  - apply not_true_is_false. intros E.
    apply Hdom in E. destruct E as [(Ht & _) _]. cbn in Ht. lia.
  - apply (Hlen (canonical_encoding scenario_A)). reflexivity.
Defined.

(** X3: createMessageHash reads only the magnitude of its three integers:
    a negative id gives the digest of its absolute value, so messages that
    differ only in the sign of an id have the same digest. *)
Theorem createMessageHash_ignores_sign (t s d : BN) (se re on off : Buffer) :
  createMessageHash t s d se re on off
  = createMessageHash (Z.abs t) (Z.abs s) (Z.abs d) se re on off /\
  createMessageHash (- t) (- s) (- d) se re on off
  = createMessageHash t s d se re on off.
Proof.
  assert (H : forall a b c,
             createMessageHash a b c se re on off
             = createMessageHash (Z.abs a) (Z.abs b) (Z.abs c) se re on off).
  { intros a b c. unfold createMessageHash. now rewrite createMessageHash_allData_abs. }
  split; [apply H |].
  rewrite (H (- t)), (H t), !Z.abs_opp. reflexivity.
Qed.

(** ** When an address is derived *)

Section DerivationDomain.

Context {PublicKey : Type}.
Variable findProgramAddressSync : list Buffer -> PublicKey -> PublicKey * Z.
Variable programId : PublicKey.

Lemma chain_id_checked (c : BN) :
  is_ok (_ ← validateChainId (Some c); toArrayLike_le c CHAIN_ID_BYTES) = true <->
  0 <= c < 2 ^ 64.
Proof.
  unfold validateChainId, isNeg, toArrayLike_le.
  change (256 ^ Z.of_nat CHAIN_ID_BYTES) with (2 ^ 64).
  destruct (Z.ltb_spec c 0); cbn [mbind result_bind is_ok].
  - split; [discriminate | lia].
  - destruct (Z.ltb_spec (Z.abs c) (2 ^ 64)); cbn; split; intros; try lia;
      try reflexivity; discriminate.
Qed.

Lemma getGatewayPda_is_ok c :
  is_ok (getGatewayPda findProgramAddressSync programId (Some c)) = true <->
  0 <= c < 2 ^ 64.
Proof.
  rewrite <- chain_id_checked. unfold getGatewayPda.
  destruct (validateChainId (Some c)); cbn [mbind result_bind deref]; [| tauto].
  destruct (toArrayLike_le c CHAIN_ID_BYTES); cbn [mbind result_bind]; [| tauto].
  now destruct (findProgramAddressSync _ _).
Qed.

Lemma getSignerRegistryPda_is_ok layer c :
  is_ok (getSignerRegistryPda findProgramAddressSync programId layer (Some c)) = true <->
  0 <= c < 2 ^ 64.
Proof.
  rewrite <- chain_id_checked. unfold getSignerRegistryPda.
  destruct (validateChainId (Some c)); cbn [mbind result_bind deref]; [| tauto].
  destruct (toArrayLike_le c CHAIN_ID_BYTES); cbn [mbind result_bind]; [| tauto].
  now destruct (findProgramAddressSync _ _).
Qed.

Lemma getCounterPda_is_ok c :
  is_ok (getCounterPda findProgramAddressSync programId (Some c)) = true <->
  0 <= c < 2 ^ 64.
Proof.
  rewrite <- chain_id_checked. unfold getCounterPda.
  destruct (validateChainId (Some c)); cbn [mbind result_bind deref]; [| tauto].
  destruct (toArrayLike_le c CHAIN_ID_BYTES); cbn [mbind result_bind]; [| tauto].
  now destruct (findProgramAddressSync _ _).
Qed.

Lemma getTxIdPda_is_ok c t :
  is_ok (getTxIdPda findProgramAddressSync programId (Some c) (Some t)) = true <->
  0 <= c < 2 ^ 64 /\ 0 <= t < 2 ^ 128.
Proof.
  split.
  - intros H.
    destruct (getTxIdPda findProgramAddressSync programId (Some c) (Some t)) eqn:E;
      [| discriminate H].
    apply getTxIdPda_returned in E. tauto.
  - intros [Hc Ht]. now rewrite getTxIdPda_ok.
Qed.

End DerivationDomain.

(** ** Transactions with signature checks: domain and contents *)

Lemma add_ed25519_instructions_is_ok {PublicKey : Type}
    (signatures : list (MessageSignature PublicKey)) :
  forall (tx : Transaction PublicKey) (messageHash : Buffer),
  is_ok (add_ed25519_instructions tx signatures messageHash) = true <->
  Forall (fun sig => length (signature sig) = 64%nat) signatures.
Proof.
  induction signatures as [|sig rest IH]; intros tx h; cbn.
  - split; [constructor | reflexivity].
  - unfold createEd25519Instruction.
    destruct (Nat.eqb_spec (length (signature sig)) 64) as [E|E];
      cbn [mbind result_bind is_ok].
    + rewrite IH. split; [now constructor | now inversion 1].
    + split; [discriminate | inversion 1; contradiction].
Qed.



Lemma add_ed25519_instructions_lengths {PublicKey : Type}
    (signatures : list (MessageSignature PublicKey))
    (tx tx' : Transaction PublicKey) (messageHash : Buffer) :
  add_ed25519_instructions tx signatures messageHash = Ok tx' ->
  Forall (fun sig => length (signature sig) = 64%nat) signatures.
Proof.
  intros H. apply (add_ed25519_instructions_is_ok signatures tx messageHash).
  now rewrite H.
Qed.

(** X5: in a transaction built by createTxPdaWithSignatures or
    processMessageWithSignatures the call of the program comes last, carries
    the submitted signatures in the order given and names the instructions
    sysvar; the check at position i is of the very signature and signer that
    the call carries at position i, and every one of them has 64 bytes. *)
Theorem program_call_carries_checked_signatures {PublicKey : Type}
    (findProgramAddressSync : list Buffer -> PublicKey -> PublicKey * Z)
    (programId wallet sysvar : PublicKey)
    (t s d : BN) (se re on off : Buffer) (sigs : list (MessageSignature PublicKey))
    (tx : list (TransactionInstruction PublicKey)) :
  createTxPdaWithSignatures_tx findProgramAddressSync programId wallet sysvar
    t s d se re on off sigs = Ok tx \/
  processMessageWithSignatures_tx findProgramAddressSync programId wallet sysvar
    t s d se re on off sigs = Ok tx ->
  exists digest req,
    length tx = S (length sigs) /\
    tx !! length sigs = Some (ProgramCall req) /\
    instruction_message (instruction req) = Some (mkMessage t s d se re on off) /\
    account "instructions" req = Some sysvar /\
    length (instruction_signatures (instruction req)) = length sigs /\
    forall i sig, sigs !! i = Some sig ->
      tx !! i = Some (Ed25519Verify (signer sig) digest (signature sig)) /\
      instruction_signatures (instruction req) !! i
      = Some (mkAnchorSignature (signature sig) (signer sig)) /\
      length (signature sig) = 64%nat.
Proof.
  intros H.
  assert (Hshape : exists digest req,
             tx = map (fun sig => Ed25519Verify (signer sig) digest (signature sig)) sigs
                  ++ [ProgramCall req] /\
             instruction_message (instruction req) = Some (mkMessage t s d se re on off) /\
             instruction_signatures (instruction req) = formatSignaturesForAnchor sigs /\
             account "instructions" req = Some sysvar /\
             Forall (fun sig => length (signature sig) = 64%nat) sigs).
  { destruct H as [H | H].
    - unfold createTxPdaWithSignatures_tx in H. do 4 first_call_returned H.
      cbv [mret result_ret] in H. injection H as <-.
      pose proof (add_ed25519_instructions_lengths _ _ _ _ E0) as Hl.
      apply add_ed25519_instructions_returned in E0. subst. cbn [app].
      eexists _, _. split; [reflexivity |]. repeat split. exact Hl.
    - unfold processMessageWithSignatures_tx in H. do 7 first_call_returned H.
      cbv [mret result_ret] in H. injection H as <-.
      pose proof (add_ed25519_instructions_lengths _ _ _ _ E0) as Hl.
      apply add_ed25519_instructions_returned in E0. subst. cbn [app].
      eexists _, _. split; [reflexivity |]. repeat split. exact Hl. }
  destruct Hshape as (digest & req & -> & Hm & Hs & Hacc & Hl).
  exists digest, req.
  split; [rewrite length_app, length_map; cbn; lia |].
  split.
  { rewrite lookup_app_r by (rewrite length_map; lia).
    now rewrite length_map, Nat.sub_diag. }
  split; [exact Hm |]. split; [exact Hacc |].
  split; [rewrite Hs; unfold formatSignaturesForAnchor; now rewrite length_map |].
  intros i sig Hi. split; [| split].
  - rewrite lookup_app_l by (rewrite length_map; eapply lookup_lt_Some; eassumption).
    now rewrite list_lookup_fmap, Hi.
  - rewrite Hs. unfold formatSignaturesForAnchor. now rewrite list_lookup_fmap, Hi.
  - rewrite Forall_forall in Hl. apply Hl. eapply list_elem_of_lookup_2. eassumption.
Qed.

Lemma program_call_carries_checked_signatures_witness :
  exists digest req,
    createTxPdaWithSignatures_tx sample_find sample_program sample_wallet sample_sysvar
      1 43113 9999999999999999999 (Buffer_from_string "avax")
      (repeat 7 32) (Buffer_from_string "hello") [] sample_signatures
    = Ok [Ed25519Verify (repeat 11 32) digest (repeat 1 64);
          Ed25519Verify (repeat 12 32) digest (repeat 2 64);
          ProgramCall req] /\
    instruction_signatures (instruction req) !! 1%nat
    = Some (mkAnchorSignature (repeat 2 64) (repeat 12 32)).
Proof.
  assert (Hok : is_ok (createTxPdaWithSignatures_tx sample_find sample_program
                         sample_wallet sample_sysvar 1 43113 9999999999999999999
                         (Buffer_from_string "avax") (repeat 7 32)
                         (Buffer_from_string "hello") [] sample_signatures) = true)
    by (vm_compute; reflexivity).
  destruct (createTxPdaWithSignatures_tx sample_find sample_program sample_wallet
              sample_sysvar 1 43113 9999999999999999999 (Buffer_from_string "avax")
              (repeat 7 32) (Buffer_from_string "hello") [] sample_signatures)
    as [tx|] eqn:E; [| discriminate Hok].
  destruct (program_call_carries_checked_signatures sample_find sample_program
              sample_wallet sample_sysvar 1 43113 9999999999999999999
              (Buffer_from_string "avax") (repeat 7 32) (Buffer_from_string "hello") []
              sample_signatures tx (or_introl E))
    as (digest & req & Hlen & Hlast & _ & _ & Hn & Hi).
  destruct (Hi 0%nat _ eq_refl) as (H0 & S0 & _).
  destruct (Hi 1%nat _ eq_refl) as (H1 & S1 & _).
  exists digest, req.
  destruct tx as [|i0 [|i1 [|i2 [|i3 rest]]]]; try discriminate Hlen.
  cbn in H0, H1, Hlast. injection H0 as ->. injection H1 as ->. injection Hlast as ->.
  split; [reflexivity | exact S1].
Defined.

(** ** Signing and checking fit together *)

Lemma createMessageSignature_returned {PublicKey SecretKey : Type}
    (sign : Buffer -> SecretKey -> Buffer)
    (t s d : BN) (se re on off : Buffer)
    (kp : Keypair PublicKey SecretKey) (sig : MessageSignature PublicKey) (digest : Buffer) :
  createMessageHash t s d se re on off = Ok digest ->
  createMessageSignature sign t s d se re on off kp = Ok sig ->
  sig = mkMessageSignature (sign digest (secretKey kp)) (publicKey kp).
Proof.
  intros Hd H. unfold createMessageSignature in H. rewrite Hd in H.
  cbn [mbind result_bind] in H. cbv [mret result_ret signMessage] in H. congruence.
Qed.

(** X6: signatures made by createMessageSignature for the fields of a
    message are the ones its transaction checks: when every keypair's
    signatures verify under its public key, every Ed25519 instruction of the
    transaction that createTxPdaWithSignatures or
    processMessageWithSignatures builds from them for the same fields is
    accepted, and the signers are the keypairs' public keys in order. *)
Theorem signatures_made_are_accepted {PublicKey SecretKey : Type}
    (sign : Buffer -> SecretKey -> Buffer)
    (verify : PublicKey -> Buffer -> Buffer -> bool)
    (findProgramAddressSync : list Buffer -> PublicKey -> PublicKey * Z)
    (programId wallet sysvar : PublicKey)
    (t s d : BN) (se re on off : Buffer)
    (keypairs : list (Keypair PublicKey SecretKey))
    (sigs : list (MessageSignature PublicKey))
    (tx : list (TransactionInstruction PublicKey)) :
  Forall (fun kp => forall m, verify (publicKey kp) m (sign m (secretKey kp)) = true)
    keypairs ->
  Forall2 (fun kp sig => createMessageSignature sign t s d se re on off kp = Ok sig)
    keypairs sigs ->
  createTxPdaWithSignatures_tx findProgramAddressSync programId wallet sysvar
    t s d se re on off sigs = Ok tx \/
  processMessageWithSignatures_tx findProgramAddressSync programId wallet sysvar
    t s d se re on off sigs = Ok tx ->
  forallb (ed25519_accepts verify) tx = true /\
  map signer sigs = map publicKey keypairs.
Proof.
  intros Hscheme Hmade Hbuilt.
  assert (Hshape : exists digest req,
             createMessageHash t s d se re on off = Ok digest /\
             tx = map (fun sig => Ed25519Verify (signer sig) digest (signature sig)) sigs
                  ++ [ProgramCall req]).
  { destruct Hbuilt as [H | H].
    - apply createTxPdaWithSignatures_tx_shape in H as (digest & req & Hd & Htx & _).
      eauto.
    - apply processMessageWithSignatures_tx_shape in H as (digest & req & Hd & Htx & _).
      eauto. }
  destruct Hshape as (digest & req & Hd & ->).
  rewrite forallb_app. cbn [forallb ed25519_accepts]. rewrite !andb_true_r.
  clear Hbuilt. induction Hmade as [|kp sig kps sigs' Hsig _ IH]; [split; reflexivity |].
  apply Forall_cons in Hscheme as [Hkp Hkps].
  destruct (IH Hkps) as [IH1 IH2].
  rewrite (createMessageSignature_returned sign _ _ _ _ _ _ _ kp sig digest Hd Hsig).
  cbn [map forallb ed25519_accepts signer signature].
  rewrite Hkp, IH1, IH2. split; reflexivity.
Qed.

Lemma signatures_made_are_accepted_witness :
  exists tx,
    Forall2 (fun kp sig =>
               createMessageSignature sample_sign 1 43113 9999999999999999999
                 (Buffer_from_string "avax") (repeat 7 32) (Buffer_from_string "hello") []
                 kp = Ok sig) sample_keypairs sample_made_signatures /\
    createTxPdaWithSignatures_tx sample_find sample_program sample_wallet sample_sysvar
      1 43113 9999999999999999999 (Buffer_from_string "avax")
      (repeat 7 32) (Buffer_from_string "hello") [] sample_made_signatures = Ok tx /\
    forallb (ed25519_accepts sample_verify) tx = true.
Proof.
  assert (Hmade : Forall2 (fun kp sig =>
               createMessageSignature sample_sign 1 43113 9999999999999999999
                 (Buffer_from_string "avax") (repeat 7 32) (Buffer_from_string "hello") []
                 kp = Ok sig) sample_keypairs sample_made_signatures).
  { repeat constructor; vm_compute; reflexivity. }
  assert (Hok : is_ok (createTxPdaWithSignatures_tx sample_find sample_program
                         sample_wallet sample_sysvar 1 43113 9999999999999999999
                         (Buffer_from_string "avax") (repeat 7 32)
                         (Buffer_from_string "hello") [] sample_made_signatures) = true)
    by (vm_compute; reflexivity).
  destruct (createTxPdaWithSignatures_tx sample_find sample_program sample_wallet
              sample_sysvar 1 43113 9999999999999999999 (Buffer_from_string "avax")
              (repeat 7 32) (Buffer_from_string "hello") [] sample_made_signatures)
    as [tx|] eqn:E; [| discriminate Hok].
  exists tx. split; [exact Hmade |]. split; [reflexivity |].
  eapply (signatures_made_are_accepted sample_sign sample_verify sample_find
            sample_program sample_wallet sample_sysvar _ _ _ _ _ _ _
            sample_keypairs sample_made_signatures tx).
  - repeat constructor; intros m; unfold sample_verify, sample_sign; cbn;
      apply bool_decide_eq_true; reflexivity.
  - exact Hmade.
  - left. exact E.
Defined.

(** ** Refusals of the SDK come before any call to the cluster *)

Section SdkRefusals.

Context {PublicKey World : Type}.
Variable findProgramAddressSync : list Buffer -> PublicKey -> PublicKey * Z.
Variable programId wallet : PublicKey.
Variable rpc : Request PublicKey -> M World string.

Lemma getGatewayPda_neg c :
  c < 0 ->
  getGatewayPda findProgramAddressSync programId (Some c)
  = Throw (Error ("Invalid chain ID: " +:+ BN_toString c)).
Proof. intros Hc. unfold getGatewayPda. now rewrite validateChainId_neg. Qed.

Lemma getTxIdPda_neg_chain c t :
  c < 0 ->
  getTxIdPda findProgramAddressSync programId (Some c) (Some t)
  = Throw (Error ("Invalid chain ID: " +:+ BN_toString c)).
Proof. intros Hc. unfold getTxIdPda. now rewrite validateChainId_neg. Qed.

Lemma getTxIdPda_neg_tx c t :
  0 <= c -> t < 0 ->
  getTxIdPda findProgramAddressSync programId (Some c) (Some t)
  = Throw (Error ("Invalid TX ID: " +:+ BN_toString t)).
Proof.
  intros Hc Ht. unfold getTxIdPda.
  rewrite validateChainId_ok by assumption. cbn [mbind result_bind].
  now rewrite validateTxId_neg.
Qed.

Lemma initializeCounter_refuses c w :
  c < 0 ->
  initializeCounter findProgramAddressSync programId wallet rpc c w
  = (Throw (Error ("Invalid chain ID: " +:+ BN_toString c)), w).
Proof.
  intros Hc. unfold initializeCounter, initializeCounter_request.
  now rewrite getGatewayPda_neg.
Qed.

End SdkRefusals.

(** X7: the SDK checks ids before it calls the cluster.  With a negative
    sourceChainId createTxPda throws 'Invalid chain ID', with a good
    sourceChainId and a negative txId it throws 'Invalid TX ID'; processMessage
    throws 'Invalid chain ID' for a negative destChainId, initializeCounter
    and initializeRegistry for a negative chain id; in each case the state of
    the world is left as it was, whatever the cluster would have done. *)
Theorem sdk_refuses_before_calling {PublicKey World : Type}
    (findProgramAddressSync : list Buffer -> PublicKey -> PublicKey * Z)
    (programId wallet : PublicKey)
    (rpc : Request PublicKey -> M World string) (w : World)
    (t s d : BN) (se re on off : Buffer) (sigs : list (AnchorSignature PublicKey))
    (type : RegistryType) (signers : list PublicKey) (threshold : Z) :
  let invalid_chain c := Throw (Error ("Invalid chain ID: " +:+ BN_toString c)) in
  (s < 0 ->
   createTxPda findProgramAddressSync programId wallet rpc t s d se re on off sigs w
   = (invalid_chain s, w)) /\
  (0 <= s -> t < 0 ->
   createTxPda findProgramAddressSync programId wallet rpc t s d se re on off sigs w
   = (Throw (Error ("Invalid TX ID: " +:+ BN_toString t)), w)) /\
  (d < 0 ->
   processMessage findProgramAddressSync programId wallet rpc t s d se re on off sigs w
   = (invalid_chain d, w)) /\
  (s < 0 ->
   initializeCounter findProgramAddressSync programId wallet rpc s w
   = (invalid_chain s, w)) /\
  (s < 0 ->
   initializeRegistry findProgramAddressSync programId wallet rpc type s signers threshold w
   = (invalid_chain s, w)).
Proof.
  intros invalid_chain. subst invalid_chain.
  split; [| split; [| split; [| split]]].
  - intros Hs. unfold createTxPda, createTxPda_request.
    now rewrite getTxIdPda_neg_chain.
  - intros Hs Ht. unfold createTxPda, createTxPda_request.
    now rewrite getTxIdPda_neg_tx.
  - intros Hd. unfold processMessage, processMessage_request.
    now rewrite getGatewayPda_neg.
  - intros Hs. now apply initializeCounter_refuses.
  - intros Hs. unfold initializeRegistry, initializeRegistry_request.
    now rewrite getGatewayPda_neg.
Qed.

Lemma sdk_refuses_before_calling_witness :
  createTxPda sample_find sample_program sample_wallet sample_rpc
    (-7) 43113 43113 [] [] [] [] [] ["earlier"%string]
  = (Throw (Error "Invalid TX ID: -7"), ["earlier"%string]).
Proof.
  destruct (sdk_refuses_before_calling sample_find sample_program sample_wallet
              sample_rpc ["earlier"%string] (-7) 43113 43113 [] [] [] [] [] via [] 0)
    as (_ & H & _).
  apply H; lia.
Defined.

(** ** Messages of the validators are never passed over *)

Lemma index_without_first_char (a : ascii) (p text : string) :
  (forall c, In c (list_ascii_of_string text) -> c <> a) ->
  forall n, String.index n (String a p) text = None.
Proof.
  induction text as [|b rest IH]; intros Hc n.
  - destruct n; reflexivity.
  - assert (Hb : b <> a) by (apply Hc; left; reflexivity).
    assert (Hrest : forall c, In c (list_ascii_of_string rest) -> c <> a)
      by (intros c Hin; apply Hc; right; exact Hin).
    destruct n as [|n]; cbn [String.index].
    + cbn [String.prefix]. destruct (ascii_dec a b) as [E|_]; [congruence |].
      now rewrite IH.
    + now rewrite IH.
Qed.

Lemma digit_char_not_a d : 0 <= d < 10 -> digit_char d <> "a"%char.
Proof.
  intros Hd.
  assert (E : d = 0 \/ d = 1 \/ d = 2 \/ d = 3 \/ d = 4 \/ d = 5 \/ d = 6 \/ d = 7 \/
              d = 8 \/ d = 9) by lia.
  repeat (destruct E as [-> | E]; [discriminate |]). subst. discriminate.
Qed.

Lemma decimal_digits_without_a fuel :
  forall x acc,
  (forall c, In c (list_ascii_of_string acc) -> c <> "a"%char) ->
  forall c, In c (list_ascii_of_string (decimal_digits fuel x acc)) -> c <> "a"%char.
Proof.
  induction fuel as [|fuel IH]; intros x acc Hacc; cbn [decimal_digits]; [exact Hacc |].
  assert (Hacc' : forall c,
             In c (list_ascii_of_string (String (digit_char (x mod 10)) acc)) ->
             c <> "a"%char).
  { intros c [<- | Hin]; [| now apply Hacc].
    apply digit_char_not_a. apply Z.mod_pos_bound. lia. }
  destruct (x / 10 =? 0); [exact Hacc' | now apply IH].
Qed.

Lemma BN_toString_without_a (x : BN) :
  forall c, In c (list_ascii_of_string (BN_toString x)) -> c <> "a"%char.
Proof.
  unfold BN_toString.
  assert (Hd : forall c,
             In c (list_ascii_of_string
                     (decimal_digits (S (Z.to_nat (Z.log2 (Z.abs x)))) (Z.abs x)
                        EmptyString)) -> c <> "a"%char)
    by (apply decimal_digits_without_a; intros c []).
  destruct (isNeg x); [| exact Hd].
  intros c [<- | Hin]; [discriminate | now apply Hd].
Qed.

Lemma index_skip (part : string) (b : ascii) (rest : string) :
  String.prefix part (String b rest) = false ->
  String.index 0 part (String b rest) = option_map S (String.index 0 part rest).
Proof.
  intros Hp. cbn [String.index]. rewrite Hp.
  now destruct (String.index 0 part rest).
Qed.

Lemma invalid_chain_id_not_in_use (x : BN) :
  message_includes (Error ("Invalid chain ID: " +:+ BN_toString x)) "already in use"
  = false.
Proof.
  unfold message_includes, includes. cbn [exn_message].
  pose proof (index_without_first_char "a" "lready in use" (BN_toString x)
                (BN_toString_without_a x) 0) as Hi.
  generalize dependent (BN_toString x). intros tail Hi.
  cbv [String.append]. repeat (rewrite index_skip by reflexivity).
  now rewrite Hi.
Qed.

(** ** setupChain, call by call *)

Lemma setupChain_as_flow {PublicKey World : Type}
    (findProgramAddressSync : list Buffer -> PublicKey -> PublicKey * Z)
    (programId wallet : PublicKey)
    (rpc : Request PublicKey -> M World string) (chainId : BN) (w : World) :
  setupChain findProgramAddressSync programId wallet rpc chainId w
  = setup_flow
      (initializeGateway rpc chainId
       :: initializeCounter findProgramAddressSync programId wallet rpc chainId
       :: map (fun type =>
                 initializeRegistry findProgramAddressSync programId wallet rpc
                   type chainId [wallet] 1) [via; chain; project]) w.
Proof.
  unfold setupChain.
  apply guarded_step_flow. intros w1.
  apply guarded_step_flow. intros w2.
  apply (for_of_guarded_flow
           (fun type => initializeRegistry findProgramAddressSync programId wallet rpc
                          type chainId [wallet] 1)).
Qed.

(** X8: setupChain does not check its chain id before it starts.  With a
    negative chain id it still submits initializeGateway; if that call
    returns, or fails with 'already in use', setupChain then throws
    'Invalid chain ID' from initializeCounter and makes no further call; if
    the call fails otherwise, that error is thrown. *)
Theorem setupChain_negative_chain_id {PublicKey World : Type}
    (findProgramAddressSync : list Buffer -> PublicKey -> PublicKey * Z)
    (programId wallet : PublicKey)
    (rpc : Request PublicKey -> M World string) (chainId : BN) (w : World) :
  chainId < 0 ->
  setupChain findProgramAddressSync programId wallet rpc chainId w
  = match rpc (mkRequest (IxInitializeGateway chainId) []) w with
    | (Ok _, w') =>
        (Throw (Error ("Invalid chain ID: " +:+ BN_toString chainId)), w')
    | (Throw e, w') =>
        if message_includes e "already in use"
        then (Throw (Error ("Invalid chain ID: " +:+ BN_toString chainId)), w')
        else (Throw e, w')
    end.
Proof.
  intros Hc. rewrite setupChain_as_flow. cbn [setup_flow].
  unfold initializeGateway at 1.
  assert (Hcounter : forall w',
             setup_flow
               (initializeCounter findProgramAddressSync programId wallet rpc chainId
                :: map (fun type =>
                          initializeRegistry findProgramAddressSync programId wallet rpc
                            type chainId [wallet] 1) [via; chain; project]) w'
             = (Throw (Error ("Invalid chain ID: " +:+ BN_toString chainId)), w')).
  { intros w'. cbn [setup_flow]. rewrite initializeCounter_refuses by assumption.
    now rewrite invalid_chain_id_not_in_use. }
  destruct (rpc (mkRequest (IxInitializeGateway chainId) []) w) as [[sig|e] w'].
  - apply Hcounter.
  - destruct (message_includes e "already in use"); [apply Hcounter | reflexivity].
Qed.

Lemma setupChain_negative_chain_id_witness :
  setupChain sample_find sample_program sample_wallet sample_rpc (-1) []
  = (Throw (Error "Invalid chain ID: -1"), ["initializeGateway"%string]).
Proof.
  rewrite (setupChain_negative_chain_id sample_find sample_program sample_wallet
             sample_rpc (-1) []) by lia.
  reflexivity.
Defined.

Lemma setup_flow_recording {PublicKey : Type}
    (outcome : Request PublicKey -> result string) (reqs : list (Request PublicKey)) :
  Forall (fun req => done_or_in_use (outcome req) = true) reqs ->
  forall log,
  setup_flow (map (recording outcome) reqs) log = (Ok tt, log ++ reqs).
Proof.
  induction 1 as [|req rest Hreq _ IH]; intros log; cbn [map setup_flow].
  - now rewrite app_nil_r.
  - unfold recording at 1. unfold done_or_in_use in Hreq.
    destruct (outcome req) as [sig|e].
    + rewrite IH, <- app_assoc. reflexivity.
    + rewrite Hreq, IH, <- app_assoc. reflexivity.
Qed.

Lemma setup_steps_recording {PublicKey : Type}
    (findProgramAddressSync : list Buffer -> PublicKey -> PublicKey * Z)
    (programId wallet : PublicKey)
    (outcome : Request PublicKey -> result string) (chainId : BN) :
  0 <= chainId < 2 ^ 64 ->
  forall log,
  setup_flow
    (initializeGateway (recording outcome) chainId
     :: initializeCounter findProgramAddressSync programId wallet (recording outcome) chainId
     :: map (fun type =>
               initializeRegistry findProgramAddressSync programId wallet
                 (recording outcome) type chainId [wallet] 1) [via; chain; project]) log
  = setup_flow
      (map (recording outcome)
         (setup_requests (derive findProgramAddressSync programId) wallet chainId)) log.
Proof.
  intros Hc log. cbn [map setup_requests].
  unfold initializeGateway, initializeCounter, initializeCounter_request,
    initializeRegistry, initializeRegistry_request.
  rewrite getGatewayPda_ok, !getSignerRegistryPda_ok by assumption.
  reflexivity.
Qed.

(** X9: for a chain id of 64 bits, when each call returns or fails with
    'already in use', setupChain returns after exactly five calls, in this
    order: initializeGateway, initializeCounter and initializeSignerRegistry
    for via, chain and project; the counter and the three registries name the
    gateway of the same chain id, each registry is derived for that chain id,
    and each is initialised with the wallet as its one signer and threshold 1. *)
Theorem setupChain_submits_five_calls {PublicKey : Type}
    (findProgramAddressSync : list Buffer -> PublicKey -> PublicKey * Z)
    (programId wallet : PublicKey)
    (outcome : Request PublicKey -> result string) (chainId : BN)
    (log : list (Request PublicKey)) :
  0 <= chainId < 2 ^ 64 ->
  (forall req, done_or_in_use (outcome req) = true) ->
  setupChain findProgramAddressSync programId wallet (recording outcome) chainId log
  = (Ok tt,
     log ++ setup_requests (derive findProgramAddressSync programId) wallet chainId).
Proof.
  intros Hc Hout.
  rewrite setupChain_as_flow, setup_steps_recording by assumption.
  apply setup_flow_recording. apply Forall_forall. intros req _. apply Hout.
Qed.

Lemma setupChain_submits_five_calls_witness :
  setupChain sample_find sample_program sample_wallet
    (recording (fun _ => Throw (Error "account already in use"))) AVALANCHE_CHAIN_ID []
  = (Ok tt,
     setup_requests (derive sample_find sample_program) sample_wallet AVALANCHE_CHAIN_ID).
Proof.
  apply (setupChain_submits_five_calls sample_find sample_program sample_wallet
           (fun _ => Throw (Error "account already in use")) AVALANCHE_CHAIN_ID []).
  - unfold AVALANCHE_CHAIN_ID. lia.
  - intros req. reflexivity.
Defined.

(** ** The two-transaction flow *)



(** ** The script's request against the SDK's *)

Lemma gateway_seeds_inj c1 c2 :
  0 <= c1 < 2 ^ 64 -> 0 <= c2 < 2 ^ 64 -> gateway_seeds c1 = gateway_seeds c2 -> c1 = c2.
Proof.
  intros H1 H2 E. unfold gateway_seeds in E.
  assert (E8 : le_bytes 8 c1 = le_bytes 8 c2) by congruence.
  apply (le_bytes_inj 8); [change (256 ^ Z.of_nat 8) with (2 ^ 64); lia .. | exact E8].
Qed.

(** X11: for ids of the data model's widths, the process_message script and
    the SDK's processMessage build the same call with the same marker,
    registries and relayer; they differ in the gateway alone, which the SDK
    derives from destChainId and the script from the fixed Solana chain id,
    so the two requests are equal when destChainId is that id and name
    gateways of different seeds when it is not. *)
Theorem script_and_sdk_processing_requests {PublicKey : Type}
    (findProgramAddressSync : list Buffer -> PublicKey -> PublicKey * Z)
    (programId wallet : PublicKey)
    (t s d : BN) (se re on off : Buffer) (sigs : list (AnchorSignature PublicKey)) :
  0 <= t < 2 ^ 128 -> 0 <= s < 2 ^ 64 -> 0 <= d < 2 ^ 64 ->
  exists sdk_req script_req,
    processMessage_request findProgramAddressSync programId wallet
      t s d se re on off sigs = Ok sdk_req /\
    execute_request findProgramAddressSync programId wallet
      t s d se re on off sigs = Ok script_req /\
    instruction sdk_req = instruction script_req /\
    (forall name, name <> "gateway"%string ->
       account name sdk_req = account name script_req) /\
    account "gateway" sdk_req
    = Some (derive findProgramAddressSync programId (gateway_seeds d)) /\
    account "gateway" script_req
    = Some (derive findProgramAddressSync programId (gateway_seeds SOLANA_CHAIN_ID)) /\
    (d = SOLANA_CHAIN_ID -> sdk_req = script_req) /\
    (d <> SOLANA_CHAIN_ID -> gateway_seeds d <> gateway_seeds SOLANA_CHAIN_ID).
Proof.
  intros Ht Hs Hd.
  unfold processMessage_request, execute_request.
  rewrite getGatewayPda_ok, getTxIdPda_ok, !getSignerRegistryPda_ok by assumption.
  rewrite client_getGatewayPda_ok, client_getTxIdPda_ok,
    !client_getSignerRegistryPdaForChain_ok by assumption.
  cbn [mbind result_bind]. cbv [mret result_ret].
  eexists _, _. split; [reflexivity |]. split; [reflexivity |].
  split; [reflexivity |]. split.
  { intros name Hname. unfold account. cbn [accounts assoc].
    destruct (String.eqb_spec "gateway" name) as [E|_]; [congruence | reflexivity]. }
  split; [reflexivity |]. split; [reflexivity |]. split.
  - intros ->. reflexivity.
  - intros Hne E. apply Hne.
    apply gateway_seeds_inj; [assumption | unfold SOLANA_CHAIN_ID; lia | exact E].
Qed.

Lemma script_and_sdk_processing_requests_witness :
  processMessage_request sample_find sample_program sample_wallet
    1 43113 SOLANA_CHAIN_ID [] [] [] [] []
  = execute_request sample_find sample_program sample_wallet
      1 43113 SOLANA_CHAIN_ID [] [] [] [] [].
Proof.
  destruct (script_and_sdk_processing_requests sample_find sample_program sample_wallet
              1 43113 SOLANA_CHAIN_ID [] [] [] [] [])
    as (r1 & r2 & H1 & H2 & _ & _ & _ & _ & Heq & _);
    [lia | lia | unfold SOLANA_CHAIN_ID; lia |].
  rewrite H1, H2. f_equal. apply Heq. reflexivity.
Defined.

(** ** The client's derivation takes any sign *)

(** X12: the client's address module does not check its ids: it derives
    from the magnitude of each id, so an id and its negation give the same
    address, and it returns exactly when the magnitudes fit 64 bits (chain
    ids) and 128 bits (txId). *)
Theorem client_derivation_ignores_sign {PublicKey : Type}
    (findProgramAddressSync : list Buffer -> PublicKey -> PublicKey * Z)
    (programId : PublicKey) (layer : RegistryType) (c t : BN) :
  Client.getTxIdPda findProgramAddressSync programId (- c) (- t)
  = Client.getTxIdPda findProgramAddressSync programId c t /\
  Client.getCounterPda findProgramAddressSync programId (- c)
  = Client.getCounterPda findProgramAddressSync programId c /\
  Client.getSignerRegistryPdaForChain findProgramAddressSync programId layer (- c)
  = Client.getSignerRegistryPdaForChain findProgramAddressSync programId layer c /\
  (is_ok (Client.getTxIdPda findProgramAddressSync programId c t) = true <->
   Z.abs c < 2 ^ 64 /\ Z.abs t < 2 ^ 128) /\
  (Z.abs c < 2 ^ 64 -> Z.abs t < 2 ^ 128 ->
   Client.getTxIdPda findProgramAddressSync programId c t
   = Ok (derive findProgramAddressSync programId (tx_seeds (Z.abs c) (Z.abs t)))).
Proof.
  assert (Hopp : forall x n, toArrayLike_le (- x) n = toArrayLike_le x n).
  { intros x n. rewrite (toArrayLike_le_abs (- x)), (toArrayLike_le_abs x).
    now rewrite Z.abs_opp. }
  split; [| split; [| split; [| split]]].
  - unfold Client.getTxIdPda. now rewrite !Hopp.
  - unfold Client.getCounterPda. now rewrite !Hopp.
  - unfold Client.getSignerRegistryPdaForChain. now rewrite !Hopp.
  - unfold Client.getTxIdPda.
    pose proof (toArrayLike_le_is_ok c 8) as Hc.
    pose proof (toArrayLike_le_is_ok t 16) as Ht.
    change (256 ^ Z.of_nat 8) with (2 ^ 64) in Hc.
    change (256 ^ Z.of_nat 16) with (2 ^ 128) in Ht.
    destruct (toArrayLike_le c 8); cbn [mbind result_bind is_ok] in *.
    + destruct (toArrayLike_le t 16); cbn [mbind result_bind is_ok] in *.
      * destruct (findProgramAddressSync _ _). cbn. tauto.
      * split; [discriminate |]. intros [_ H]. apply Ht in H. discriminate.
    + split; [discriminate |]. intros [H _]. apply Hc in H. discriminate.
  - intros Hc Ht. unfold Client.getTxIdPda, derive, tx_seeds.
    rewrite (toArrayLike_le_abs c), (toArrayLike_le_abs t).
    rewrite (toArrayLike_le_ok (Z.abs c) 8)
      by (change (256 ^ Z.of_nat 8) with (2 ^ 64); lia).
    rewrite (toArrayLike_le_ok (Z.abs t) 16)
      by (change (256 ^ Z.of_nat 16) with (2 ^ 128); lia).
    cbn [mbind result_bind]. now destruct (findProgramAddressSync _ _).
Qed.

Lemma client_derivation_ignores_sign_witness :
  Client.getTxIdPda sample_find sample_program (-43113) (-1)
  = Ok (derive sample_find sample_program (tx_seeds 43113 1)).
Proof.
  destruct (client_derivation_ignores_sign sample_find sample_program via (-43113) (-1))
    as (_ & _ & _ & _ & H).
  apply H; cbn; lia.
Defined.

(** ** The scripts' executors *)

Lemma toArrayLike_le_throws x n e :
  toArrayLike_le x n = Throw e -> e = Error "byte array longer than desired length".
Proof.
  unfold toArrayLike_le. destruct (Z.abs x <? 256 ^ Z.of_nat n); congruence.
Qed.

Section ClientFailures.

Context {PublicKey : Type}.
Variable findProgramAddressSync : list Buffer -> PublicKey -> PublicKey * Z.
Variable programId : PublicKey.

Lemma client_getTxIdPda_throws c t e :
  Client.getTxIdPda findProgramAddressSync programId c t = Throw e ->
  e = Error "byte array longer than desired length".
Proof.
  unfold Client.getTxIdPda.
  destruct (toArrayLike_le c 8) eqn:E1; cbn [mbind result_bind].
  - destruct (toArrayLike_le t 16) eqn:E2; cbn [mbind result_bind].
    + now destruct (findProgramAddressSync _ _).
    + intros [= <-]. eapply toArrayLike_le_throws; eassumption.
  - intros [= <-]. eapply toArrayLike_le_throws; eassumption.
Qed.

Lemma client_getCounterPda_throws c e :
  Client.getCounterPda findProgramAddressSync programId c = Throw e ->
  e = Error "byte array longer than desired length".
Proof.
  unfold Client.getCounterPda.
  destruct (toArrayLike_le c 8) eqn:E1; cbn [mbind result_bind].
  - now destruct (findProgramAddressSync _ _).
  - intros [= <-]. eapply toArrayLike_le_throws; eassumption.
Qed.

Lemma client_getSignerRegistryPdaForChain_throws layer c e :
  Client.getSignerRegistryPdaForChain findProgramAddressSync programId layer c = Throw e ->
  e = Error "byte array longer than desired length".
Proof.
  unfold Client.getSignerRegistryPdaForChain.
  replace (Client.coder_types_encode_signerRegistryType layer)
    with (Ok [registryTypeToDiscriminant layer]) by now destruct layer.
  cbn [mbind result_bind].
  destruct (toArrayLike_le c 8) eqn:E1; cbn [mbind result_bind].
  - now destruct (findProgramAddressSync _ _).
  - intros [= <-]. eapply toArrayLike_le_throws; eassumption.
Qed.

End ClientFailures.

(** X13: the process_message script, once its request is built, submits it
    and reports success both when the call returns and when it fails with an
    Error whose message contains 'Account does not exist' (the marker is
    missing); any other failure is thrown as it is.  When the request cannot
    be built (an id wider than its field) the script throws the library's
    'byte array longer than desired length' and submits nothing. *)
Theorem process_script_outcome {PublicKey World : Type}
    (findProgramAddressSync : list Buffer -> PublicKey -> PublicKey * Z)
    (programId wallet : PublicKey)
    (rpc : Request PublicKey -> M World string)
    (t s d : BN) (se re on off : Buffer) (sigs : list (AnchorSignature PublicKey))
    (w : World) :
  (forall req,
     execute_request findProgramAddressSync programId wallet t s d se re on off sigs
     = Ok req ->
     execute findProgramAddressSync programId wallet rpc t s d se re on off sigs w
     = match rpc req w with
       | (Ok _, w') => (Ok tt, w')
       | (Throw e, w') =>
           if instanceof_Error e && message_includes e "Account does not exist"
           then (Ok tt, w') else (Throw e, w')
       end) /\
  (is_ok (execute_request findProgramAddressSync programId wallet
            t s d se re on off sigs) = false ->
   execute findProgramAddressSync programId wallet rpc t s d se re on off sigs w
   = (Throw (Error "byte array longer than desired length"), w)).
Proof.
  split.
  - intros req Hreq. unfold execute.
    assert (Htx : is_ok (Client.getTxIdPda findProgramAddressSync programId s t) = true).
    { unfold execute_request in Hreq.
      destruct (Client.getGatewayPda _ _); [| discriminate Hreq].
      cbn [mbind result_bind] in Hreq.
      now destruct (Client.getTxIdPda _ _ _ _). }
    destruct (Client.getTxIdPda _ _ _ _); [| discriminate Htx].
    rewrite Hreq. cbv [mbind mret M_bind M_ret lift try_catch throw].
    destruct (rpc req w) as [[sig|e] w']; [reflexivity |].
    destruct (instanceof_Error e && message_includes e "Account does not exist");
      reflexivity.
  - intros Hreq. unfold execute.
    destruct (Client.getTxIdPda findProgramAddressSync programId s t) as [a|e] eqn:Etx.
    + destruct (execute_request _ _ _ _ _ _ _ _ _ _ _) as [req|e] eqn:Er;
        [discriminate Hreq |].
      assert (He : e = Error "byte array longer than desired length").
      { unfold execute_request in Er.
        rewrite client_getGatewayPda_ok, Etx in Er. cbn [mbind result_bind] in Er.
        destruct (Client.getSignerRegistryPdaForChain _ _ via d) eqn:E1;
          cbn [mbind result_bind] in Er;
          [| injection Er as <-; eapply client_getSignerRegistryPdaForChain_throws;
             eassumption].
        destruct (Client.getSignerRegistryPdaForChain _ _ chain s) eqn:E2;
          cbn [mbind result_bind] in Er;
          [| injection Er as <-; eapply client_getSignerRegistryPdaForChain_throws;
             eassumption].
        destruct (Client.getSignerRegistryPdaForChain _ _ project d) eqn:E3;
          cbn [mbind result_bind] in Er;
          [discriminate Er
          | injection Er as <-; eapply client_getSignerRegistryPdaForChain_throws;
            eassumption]. }
      subst e. reflexivity.
    + apply client_getTxIdPda_throws in Etx. subst e. reflexivity.
Qed.

Lemma process_script_outcome_witness :
  execute sample_find sample_program sample_wallet
    (fun _ log => (Throw (Error "Account does not exist or has no data"), log))
    1 43113 9999999999999999999 [] [] [] [] [] ["start"%string]
  = (Ok tt, ["start"%string]).
Proof.
  destruct (process_script_outcome sample_find sample_program sample_wallet
              (fun _ (log : list string) =>
                 (Throw (Error "Account does not exist or has no data"), log))
              1 43113 9999999999999999999 [] [] [] [] [] ["start"%string]) as [H _].
  destruct (execute_request sample_find sample_program sample_wallet
              1 43113 9999999999999999999 [] [] [] [] []) as [req|] eqn:E;
    [| vm_compute in E; discriminate E].
  rewrite (H req eq_refl). reflexivity.
Defined.



(** ** The setup script *)

Lemma script_step_flow {World : Type} (step : M World string) (k : M World unit)
    (steps : list (M World string)) :
  (forall w, k w = script_flow steps w) ->
  forall w,
  (_ ← try_catch (_ ← step; mret tt)
         (fun error => if script_absorbs error then mret tt else throw error);
   k) w
  = script_flow (step :: steps) w.
Proof.
  intros Hk w. cbv [mbind mret M_bind M_ret try_catch throw]. cbn [script_flow].
  destruct (step w) as [[sig|e] w']; [apply Hk |].
  destruct (script_absorbs e); [apply Hk | reflexivity].
Qed.

Lemma script_call_flow {PublicKey World : Type}
    (rpc : Request PublicKey -> M World string)
    (built : result (Request PublicKey)) (req : Request PublicKey)
    (k : M World unit) (steps : list (M World string)) :
  built = Ok req ->
  (forall w, k w = script_flow steps w) ->
  forall w,
  (_ ← try_catch (req ← lift built; _ ← rpc req; mret tt)
         (fun error => if script_absorbs error then mret tt else throw error);
   k) w
  = script_flow (rpc req :: steps) w.
Proof.
  intros -> Hk w. cbv [mbind mret M_bind M_ret try_catch throw lift]. cbn [script_flow].
  destruct (rpc req w) as [[sig|e] w']; [apply Hk |].
  destruct (script_absorbs e); [apply Hk | reflexivity].
Qed.

Section SetupScriptRequests.

Context {PublicKey : Type}.
Variable findProgramAddressSync : list Buffer -> PublicKey -> PublicKey * Z.
Variable programId wallet : PublicKey.

Lemma setup_script_counter_request :
  SetupExecutor.initializeCounter_request findProgramAddressSync programId wallet
  = Ok (mkRequest (IxInitializeCounter AVALANCHE_CHAIN_ID)
          [("gateway"%string,
            derive findProgramAddressSync programId (gateway_seeds SOLANA_CHAIN_ID));
           ("authority"%string, wallet)]).
Proof.
  unfold SetupExecutor.initializeCounter_request.
  now rewrite client_getGatewayPda_ok.
Qed.

Lemma setup_script_registry_request type :
  SetupExecutor.initializeRegistry_request findProgramAddressSync programId wallet type
  = Ok (mkRequest (IxInitializeSignerRegistry type SOLANA_CHAIN_ID [wallet] 0)
          [("gateway"%string,
            derive findProgramAddressSync programId (gateway_seeds SOLANA_CHAIN_ID));
           ("signerRegistry"%string,
            derive findProgramAddressSync programId (registry_seeds type SOLANA_CHAIN_ID));
           ("authority"%string, wallet)]).
Proof.
  unfold SetupExecutor.initializeRegistry_request, Client.getSignerRegistryPda.
  rewrite client_getGatewayPda_ok.
  rewrite client_getSignerRegistryPdaForChain_ok by (unfold SOLANA_CHAIN_ID; lia).
  now destruct type.
Qed.

End SetupScriptRequests.

(** X15: the setup script's run never throws: it submits, in order, the
    gateway for the Solana chain id, the counter for the Avalanche chain id
    and the three registries for the Solana chain id (wallet as the one
    signer, threshold 0), all under the gateway of the Solana chain id; a call
    that fails with an Error containing 'already in use' or '0x0' is passed
    over, and any other failure ends the process with code 1 without
    submitting the remaining calls. *)
Theorem setup_script_run {PublicKey World : Type}
    (findProgramAddressSync : list Buffer -> PublicKey -> PublicKey * Z)
    (programId wallet : PublicKey)
    (rpc : Request PublicKey -> M World string) (w : World) :
  SetupExecutor.run findProgramAddressSync programId wallet rpc w
  = match script_flow
            (map rpc (script_setup_requests (derive findProgramAddressSync programId)
                        wallet)) w with
    | (Ok _, w') => (Ok Completed, w')
    | (Throw _, w') => (Ok (Exited 1), w')
    end.
Proof.
  unfold SetupExecutor.run.
  match goal with
  | |- match ?steps w with _ => _ end = _ =>
      assert (E : steps w
                  = script_flow
                      (map rpc (script_setup_requests
                                  (derive findProgramAddressSync programId) wallet)) w)
  end.
  { cbn [map script_setup_requests].
    unfold SetupExecutor.initializeGateway, InitializeGatewayExecutor.execute.
    apply script_step_flow. intros w1.
    unfold SetupExecutor.initializeCounter.
    apply (script_call_flow rpc _ _ _ _ (setup_script_counter_request _ _ _)). intros w2.
    unfold SetupExecutor.initializeViaRegistry.
    apply (script_call_flow rpc _ _ _ _ (setup_script_registry_request _ _ _ via)).
    intros w3.
    unfold SetupExecutor.initializeChainRegistry.
    apply (script_call_flow rpc _ _ _ _ (setup_script_registry_request _ _ _ chain)).
    intros w4.
    unfold SetupExecutor.initializeProjectRegistry.
    apply (script_call_flow rpc _ _ _ _ (setup_script_registry_request _ _ _ project)).
    intros w5. reflexivity. }
  rewrite E. reflexivity.
Qed.

Lemma setup_script_run_witness :
  SetupExecutor.run sample_find sample_program sample_wallet sample_rpc []
  = (Ok (Exited 1),
     ["initializeGateway"; "initializeCounter"; "initializeRegistry";
      "initializeRegistry"]%string).
Proof. rewrite setup_script_run. vm_compute. reflexivity. Defined.

(** X16: for a chain id of 64 bits, the initialize_signer_registry script
    and the SDK's initializeRegistry build the same call for the same
    registry account, derived from the layer and the chain id; the SDK names
    the gateway of that chain id and the script the gateway of the fixed
    Solana chain id, so the requests are equal for that id and name gateways
    of different seeds for any other. *)
Theorem registry_script_and_sdk_requests {PublicKey : Type}
    (findProgramAddressSync : list Buffer -> PublicKey -> PublicKey * Z)
    (programId wallet : PublicKey)
    (type : RegistryType) (c : BN) (signers : list PublicKey) (threshold : Z) :
  0 <= c < 2 ^ 64 ->
  exists sdk_req script_req,
    initializeRegistry_request findProgramAddressSync programId wallet
      type c signers threshold = Ok sdk_req /\
    InitializeSignerRegistryExecutor.execute_request findProgramAddressSync programId wallet
      type c signers threshold = Ok script_req /\
    instruction sdk_req = IxInitializeSignerRegistry type c signers threshold /\
    instruction script_req = instruction sdk_req /\
    account "signerRegistry" sdk_req
    = Some (derive findProgramAddressSync programId (registry_seeds type c)) /\
    account "signerRegistry" script_req = account "signerRegistry" sdk_req /\
    account "gateway" sdk_req
    = Some (derive findProgramAddressSync programId (gateway_seeds c)) /\
    account "gateway" script_req
    = Some (derive findProgramAddressSync programId (gateway_seeds SOLANA_CHAIN_ID)) /\
    (c = SOLANA_CHAIN_ID -> sdk_req = script_req) /\
    (c <> SOLANA_CHAIN_ID -> gateway_seeds c <> gateway_seeds SOLANA_CHAIN_ID).
Proof.
  intros Hc.
  unfold initializeRegistry_request, InitializeSignerRegistryExecutor.execute_request.
  rewrite getGatewayPda_ok, getSignerRegistryPda_ok by assumption.
  rewrite client_getGatewayPda_ok, client_getSignerRegistryPdaForChain_ok by assumption.
  cbn [mbind result_bind]. cbv [mret result_ret].
  eexists _, _. split; [reflexivity |]. split; [reflexivity |].
  split; [now destruct type |]. split; [now destruct type |].
  split; [now destruct type |]. split; [reflexivity |].
  split; [reflexivity |]. split; [reflexivity |]. split.
  - intros ->. now destruct type.
  - intros Hne E. apply Hne.
    apply gateway_seeds_inj; [assumption | unfold SOLANA_CHAIN_ID; lia | exact E].
Qed.

Lemma registry_script_and_sdk_requests_witness :
  exists sdk_req script_req,
    initializeRegistry_request sample_find sample_program sample_wallet
      chain AVALANCHE_CHAIN_ID [sample_wallet] 1 = Ok sdk_req /\
    InitializeSignerRegistryExecutor.execute_request sample_find sample_program sample_wallet
      chain AVALANCHE_CHAIN_ID [sample_wallet] 1 = Ok script_req /\
    account "gateway" sdk_req
    = Some (derive sample_find sample_program (gateway_seeds AVALANCHE_CHAIN_ID)) /\
    account "gateway" script_req
    = Some (derive sample_find sample_program (gateway_seeds SOLANA_CHAIN_ID)).
Proof.
  destruct (registry_script_and_sdk_requests sample_find sample_program sample_wallet
              chain AVALANCHE_CHAIN_ID [sample_wallet] 1)
    as (r1 & r2 & H1 & H2 & _ & _ & _ & _ & G1 & G2 & _);
    [unfold AVALANCHE_CHAIN_ID; lia |].
  exists r1, r2. auto.
Defined.

(** ** Registry maintenance *)

(** X17: addSigner, removeSigner, updateSigners, updateThreshold and
    setRegistryEnabled of the SDK, for a layer and a chain id of 64 bits,
    each submit one call naming the gateway of that chain id, the registry
    derived from the layer and that chain id, and the wallet as authority:
    the accounts initializeRegistry names for the same layer and chain.  For
    a negative chain id each throws 'Invalid chain ID' and submits nothing. *)
Theorem registry_methods_share_accounts {PublicKey World : Type}
    (findProgramAddressSync : list Buffer -> PublicKey -> PublicKey * Z)
    (programId wallet : PublicKey)
    (rpc_registry : RegistryCall PublicKey -> M World string)
    (type : RegistryType) (c : BN) (signer : PublicKey) (signers : list PublicKey)
    (threshold : Z) (enabled : bool) (w : World) :
  let accs :=
    [("gateway"%string, derive findProgramAddressSync programId (gateway_seeds c));
     ("signerRegistry"%string,
      derive findProgramAddressSync programId (registry_seeds type c));
     ("authority"%string, wallet)] in
  let call update := mkRegistryCall type c update accs in
  let refused := (Throw (Error ("Invalid chain ID: " +:+ BN_toString c)), w) in
  (0 <= c < 2 ^ 64 ->
   initializeRegistry_request findProgramAddressSync programId wallet
     type c signers threshold
   = Ok (mkRequest (IxInitializeSignerRegistry type c signers threshold) accs) /\
   addSigner findProgramAddressSync programId wallet rpc_registry type c signer w
   = rpc_registry (call (UpAddSigner signer)) w /\
   removeSigner findProgramAddressSync programId wallet rpc_registry type c signer w
   = rpc_registry (call (UpRemoveSigner signer)) w /\
   updateSigners findProgramAddressSync programId wallet rpc_registry
     type c signers threshold w
   = rpc_registry (call (UpUpdateSigners signers threshold)) w /\
   updateThreshold findProgramAddressSync programId wallet rpc_registry type c threshold w
   = rpc_registry (call (UpUpdateThreshold threshold)) w /\
   setRegistryEnabled findProgramAddressSync programId wallet rpc_registry type c enabled w
   = rpc_registry (call (UpSetRegistryEnabled enabled)) w) /\
  (c < 0 ->
   addSigner findProgramAddressSync programId wallet rpc_registry type c signer w
   = refused /\
   removeSigner findProgramAddressSync programId wallet rpc_registry type c signer w
   = refused /\
   updateSigners findProgramAddressSync programId wallet rpc_registry
     type c signers threshold w = refused /\
   updateThreshold findProgramAddressSync programId wallet rpc_registry type c threshold w
   = refused /\
   setRegistryEnabled findProgramAddressSync programId wallet rpc_registry type c enabled w
   = refused).
Proof.
  intros accs call refused. subst accs call refused. split.
  - intros Hc.
    assert (Hcall : forall update,
               registry_call findProgramAddressSync programId wallet type c update
               = Ok (mkRegistryCall type c update
                       [("gateway"%string,
                         derive findProgramAddressSync programId (gateway_seeds c));
                        ("signerRegistry"%string,
                         derive findProgramAddressSync programId (registry_seeds type c));
                        ("authority"%string, wallet)])).
    { intros update. unfold registry_call.
      rewrite getGatewayPda_ok, getSignerRegistryPda_ok by assumption.
      now destruct type. }
    split.
    { unfold initializeRegistry_request.
      rewrite getGatewayPda_ok, getSignerRegistryPda_ok by assumption.
      now destruct type. }
    unfold addSigner, removeSigner, updateSigners, updateThreshold, setRegistryEnabled.
    rewrite !Hcall. repeat split.
  - intros Hc.
    assert (Hcall : forall update,
               registry_call findProgramAddressSync programId wallet type c update
               = Throw (Error ("Invalid chain ID: " +:+ BN_toString c))).
    { intros update. unfold registry_call. now rewrite getGatewayPda_neg. }
    unfold addSigner, removeSigner, updateSigners, updateThreshold, setRegistryEnabled.
    rewrite !Hcall. repeat split.
Qed.

Lemma registry_methods_share_accounts_witness :
  addSigner sample_find sample_program sample_wallet
    (fun call log => (Ok "sig"%string, log ++ [call]))
    chain (-43113) sample_wallet []
  = (Throw (Error "Invalid chain ID: -43113"), []).
Proof.
  destruct (registry_methods_share_accounts sample_find sample_program sample_wallet
              (fun call (log : list (RegistryCall Buffer)) =>
                 (Ok "sig"%string, log ++ [call]))
              chain (-43113) sample_wallet [] 0 true []) as [_ H].
  destruct H as (H & _); [lia | exact H].
Defined.

(** ** The plan document's functions *)

(** X18: in the instruction data that the plan document's
    createEd25519Instruction lays out for a 64-byte signature, a 32-byte key
    and a message shorter than 256 bytes, the header's offsets lead to the
    parts: the signature offset is 16 and the 64 bytes there are the
    signature, the key offset is 80 and the 32 bytes there are the key, the
    message offset is 112, the bytes from there on are the message and the
    length field is its length; the data is 112 bytes longer than the
    message. *)
Theorem plan_ed25519_data_layout (sig pk message : Buffer) :
  length sig = 64%nat -> length pk = 32%nat -> (length message < 256)%nat ->
  let data := Plan_createEd25519Instruction_data sig pk message in
  length data = (112 + length message)%nat /\
  take 2 data = [1; 0] /\
  le_value (take 4 (drop 2 data)) = 16 /\
  take 64 (drop 16 data) = sig /\
  le_value (take 4 (drop 6 data)) = 80 /\
  take 32 (drop 80 data) = pk /\
  le_value (take 2 (drop 10 data)) = 112 /\
  drop 112 data = message /\
  le_value (take 4 (drop 12 data)) = Z.of_nat (length message).
Proof.
  intros Hs Hp Hm data. subst data.
  unfold Plan_createEd25519Instruction_data, Buffer_concat, Buffer_from_array.
  cbn [map concat app]. rewrite app_nil_r.
  rewrite (Z.mod_small (Z.of_nat (length message)) 256) by lia.
  change (1 mod 256) with 1. change (0 mod 256) with 0. change (16 mod 256) with 16.
  change (80 mod 256) with 80. change (112 mod 256) with 112.
  split; [cbn [length]; rewrite !length_app; lia |].
  split; [reflexivity |]. split; [reflexivity |].
  split; [cbn [drop]; rewrite ?drop_0; now apply take_app_length' |].
  split; [reflexivity |].
  split.
  { replace 80%nat with (16 + 64)%nat by reflexivity. rewrite <- drop_drop.
    cbn [drop]. rewrite ?drop_0. rewrite drop_app_length' by congruence.
    now apply take_app_length'. }
  split; [reflexivity |].
  split.
  { replace 112%nat with (16 + (64 + 32))%nat by reflexivity. rewrite <- !drop_drop.
    cbn [drop]. rewrite ?drop_0. rewrite drop_app_length' by congruence.
    now rewrite drop_app_length' by congruence. }
  cbn. rewrite take_0. cbn [le_value]. lia.
Qed.

Lemma plan_ed25519_data_layout_witness :
  take 32 (drop 80 (Plan_createEd25519Instruction_data
                      (repeat 1 64) (repeat 11 32) (repeat 7 32))) = repeat 11 32 /\
  length (Plan_createEd25519Instruction_data (repeat 1 64) (repeat 11 32) (repeat 7 32))
  = 144%nat.
Proof.
  destruct (plan_ed25519_data_layout (repeat 1 64) (repeat 11 32) (repeat 7 32))
    as (Hlen & _ & _ & _ & _ & Hpk & _); [reflexivity | reflexivity | cbn; lia |].
  split; [exact Hpk | exact Hlen].
Defined.

(** X19: the plan document's createMessageHash does not tell all messages
    apart once a field reaches 256 bytes, its one-byte length wrapping to 0:
    a 256-byte sender that starts with a zero byte, with an empty recipient,
    is hashed as the empty sender with the recipient made of the other 255
    bytes and a zero byte.  The SDK's createMessageHash feeds the hash
    different bytes for the two. *)
Theorem plan_hash_confuses_long_fields
    (t s d : BN) (y on off : Buffer) :
  length y = 255%nat ->
  Plan.createMessageHash t s d (0 :: y) [] on off
  = Plan.createMessageHash t s d [] (y ++ [0]) on off /\
  (0 <= t < 2 ^ 128 -> 0 <= s < 2 ^ 64 -> 0 <= d < 2 ^ 64 ->
   Z.of_nat (length on) < 2 ^ 32 -> Z.of_nat (length off) < 2 ^ 32 ->
   is_ok (createMessageHash_allData t s d (0 :: y) [] on off) = true /\
   createMessageHash_allData t s d (0 :: y) [] on off
   <> createMessageHash_allData t s d [] (y ++ [0]) on off).
Proof.
  intros Hy. split.
  - unfold Plan.createMessageHash, Plan.createMessageHash_hasher.
    destruct (toArrayLike_le t 16); [| reflexivity].
    destruct (toArrayLike_le s 8); [| reflexivity].
    destruct (toArrayLike_le d 8); [| reflexivity].
    cbn [mbind result_bind].
    destruct (writeUInt16LE (Buffer_alloc 2) (Z.of_nat (length on)) 0); [| reflexivity].
    cbn [mbind result_bind].
    destruct (writeUInt16LE (Buffer_alloc 2) (Z.of_nat (length off)) 0); [| reflexivity].
    cbn [mbind result_bind]. cbv [mret result_ret]. do 2 f_equal.
    unfold Plan.update, Buffer_from_array. cbn [map length].
    rewrite length_app, Hy. cbn [length Nat.add].
    change (Z.of_nat 256 mod 256) with 0. change (Z.of_nat 0 mod 256) with 0.
    rewrite <- !app_assoc. cbn [app]. reflexivity.
  - intros Ht Hs Hd Hon Hoff.
    set (m1 := mkMessage t s d (0 :: y) [] on off).
    set (m2 := mkMessage t s d [] (y ++ [0]) on off).
    assert (I1 : ids_in_range m1) by (unfold ids_in_range; cbn; lia).
    assert (I2 : ids_in_range m2) by (unfold ids_in_range; cbn; lia).
    assert (L1 : lengths_fit_u32 m1).
    { unfold lengths_fit_u32. cbn. rewrite Hy. change (2 ^ 32) with 4294967296 in *. lia. }
    assert (L2 : lengths_fit_u32 m2).
    { unfold lengths_fit_u32. cbn [sender recipient onChainData offChainData m2].
      rewrite length_app, Hy. cbn. change (2 ^ 32) with 4294967296 in *. lia. }
    pose proof (createMessageHash_allData_ok m1 I1 L1) as E1.
    pose proof (createMessageHash_allData_ok m2 I2 L2) as E2.
    cbn [txId sourceChainId destChainId sender recipient onChainData offChainData m1 m2]
      in E1, E2.
    rewrite E1, E2. split; [reflexivity |].
    intros E. assert (Em : m1 = m2).
    { apply canonical_encoding_inj; [assumption .. | congruence]. }
    discriminate Em.
Qed.

Lemma plan_hash_confuses_long_fields_witness :
  Plan.createMessageHash 1 43113 43113 (0 :: repeat 0 255) [] [] []
  = Plan.createMessageHash 1 43113 43113 [] (repeat 0 255 ++ [0]) [] [].
Proof.
  destruct (plan_hash_confuses_long_fields 1 43113 43113 (repeat 0 255) [] [])
    as [H _]; [reflexivity | exact H].
Defined.

(** ** Requests of the plain SDK methods and of the create_tx_pda script *)

Lemma sdk_request_domain_aux {PublicKey : Type}
    (findProgramAddressSync : list Buffer -> PublicKey -> PublicKey * Z)
    (programId wallet : PublicKey)
    (t s d : BN) (se re on off : Buffer) (sigs : list (AnchorSignature PublicKey)) :
  is_ok (createTxPda_request findProgramAddressSync programId wallet
           t s d se re on off sigs) = true ->
  0 <= t < 2 ^ 128 /\ 0 <= s < 2 ^ 64.
Proof.
  pose proof (getTxIdPda_is_ok findProgramAddressSync programId s t) as Htx.
  unfold createTxPda_request.
  destruct (getTxIdPda _ _ _ _) as [a1|]; cbn [mbind result_bind is_ok] in *;
    [| discriminate].
  intros _. assert (0 <= s < 2 ^ 64 /\ 0 <= t < 2 ^ 128) by now apply Htx. tauto.
Qed.

(** X20: the requests of createTxPda and processMessage are built exactly
    when the ids that enter an address are non-negative and fit: txId in 128
    bits and sourceChainId in 64 bits for createTxPda, and destChainId in 64
    bits as well for processMessage.  createTxPda asks nothing of
    destChainId, of the byte fields or of the signatures. *)
Theorem sdk_request_domain {PublicKey : Type}
    (findProgramAddressSync : list Buffer -> PublicKey -> PublicKey * Z)
    (programId wallet : PublicKey)
    (t s d : BN) (se re on off : Buffer) (sigs : list (AnchorSignature PublicKey)) :
  (is_ok (createTxPda_request findProgramAddressSync programId wallet
            t s d se re on off sigs) = true <->
   0 <= t < 2 ^ 128 /\ 0 <= s < 2 ^ 64) /\
  (is_ok (processMessage_request findProgramAddressSync programId wallet
            t s d se re on off sigs) = true <->
   0 <= t < 2 ^ 128 /\ 0 <= s < 2 ^ 64 /\ 0 <= d < 2 ^ 64).
Proof.
  pose proof (getTxIdPda_is_ok findProgramAddressSync programId s t) as Htx.
  pose proof (getCounterPda_is_ok findProgramAddressSync programId s) as Hco.
  pose proof (getGatewayPda_is_ok findProgramAddressSync programId d) as Hgw.
  split.
  - unfold createTxPda_request.
    destruct (getTxIdPda _ _ _ _) as [a1|]; cbn [mbind result_bind is_ok] in *.
    + assert (0 <= s < 2 ^ 64 /\ 0 <= t < 2 ^ 128) by now apply Htx.
      rewrite getCounterPda_ok by tauto. cbn. tauto.
    + split; [discriminate |]. intros [Ht Hs].
      assert (false = true) by (apply Htx; tauto). discriminate.
  - unfold processMessage_request.
    destruct (getGatewayPda _ _ _) as [g|]; cbn [mbind result_bind is_ok] in *.
    2: { split; [discriminate |]. intros (_ & _ & Hd). apply Hgw in Hd. discriminate. }
    assert (Hd : 0 <= d < 2 ^ 64) by now apply Hgw.
    destruct (getTxIdPda _ _ _ _) as [a1|]; cbn [mbind result_bind is_ok] in *.
    + assert (0 <= s < 2 ^ 64 /\ 0 <= t < 2 ^ 128) by now apply Htx.
      rewrite !getSignerRegistryPda_ok by tauto. cbn. tauto.
    + split; [discriminate |]. intros (Ht & Hs & _).
      assert (false = true) by (apply Htx; tauto). discriminate.
Qed.

(** X21: for a txId of 128 bits and a sourceChainId of 64 bits the
    create_tx_pda script builds the very request the SDK's createTxPda
    builds: the same call, the marker derived from (sourceChainId, txId), the
    counter derived from sourceChainId, the wallet as relayer.  For negative
    ids of fitting magnitude the SDK refuses and the script still builds a
    request, addressed by the magnitudes. *)
Theorem create_script_and_sdk_requests {PublicKey : Type}
    (findProgramAddressSync : list Buffer -> PublicKey -> PublicKey * Z)
    (programId wallet : PublicKey)
    (t s d : BN) (se re on off : Buffer) (sigs : list (AnchorSignature PublicKey)) :
  Z.abs t < 2 ^ 128 -> Z.abs s < 2 ^ 64 ->
  CreateTxPdaExecutor.execute_request findProgramAddressSync programId wallet
    t s d se re on off sigs
  = Ok (mkRequest (IxCreateTxPda (mkMessage t s d se re on off) sigs)
          [("txIdPda"%string,
            derive findProgramAddressSync programId (tx_seeds (Z.abs s) (Z.abs t)));
           ("counterPda"%string,
            derive findProgramAddressSync programId (counter_seeds (Z.abs s)));
           ("relayer"%string, wallet)]) /\
  (0 <= t -> 0 <= s ->
   createTxPda_request findProgramAddressSync programId wallet t s d se re on off sigs
   = CreateTxPdaExecutor.execute_request findProgramAddressSync programId wallet
       t s d se re on off sigs) /\
  (t < 0 \/ s < 0 ->
   is_ok (createTxPda_request findProgramAddressSync programId wallet
            t s d se re on off sigs) = false).
Proof.
  intros Ht Hs.
  assert (Hscript :
            CreateTxPdaExecutor.execute_request findProgramAddressSync programId wallet
              t s d se re on off sigs
            = Ok (mkRequest (IxCreateTxPda (mkMessage t s d se re on off) sigs)
                    [("txIdPda"%string,
                      derive findProgramAddressSync programId
                        (tx_seeds (Z.abs s) (Z.abs t)));
                     ("counterPda"%string,
                      derive findProgramAddressSync programId (counter_seeds (Z.abs s)));
                     ("relayer"%string, wallet)])).
  { unfold CreateTxPdaExecutor.execute_request, Client.getTxIdPda, Client.getCounterPda,
      derive, tx_seeds, counter_seeds.
    rewrite (toArrayLike_le_abs s), (toArrayLike_le_abs t).
    rewrite (toArrayLike_le_ok (Z.abs s) 8)
      by (change (256 ^ Z.of_nat 8) with (2 ^ 64); lia).
    rewrite (toArrayLike_le_ok (Z.abs t) 16)
      by (change (256 ^ Z.of_nat 16) with (2 ^ 128); lia).
    cbn [mbind result_bind].
    destruct (findProgramAddressSync [_; _; _] programId).
    destruct (findProgramAddressSync [_; _] programId). reflexivity. }
  split; [exact Hscript |]. split.
  - intros Ht0 Hs0. rewrite Hscript. unfold createTxPda_request.
    rewrite getTxIdPda_ok, getCounterPda_ok by lia.
    rewrite !Z.abs_eq by assumption. reflexivity.
  - intros Hneg. apply not_true_is_false. intros Hok.
    apply (sdk_request_domain_aux findProgramAddressSync programId wallet
             t s d se re on off sigs) in Hok. lia.
Qed.

Lemma sdk_request_domain_witness :
  is_ok (createTxPda_request sample_find sample_program sample_wallet
           1 43113 (2 ^ 70) [] [] [] [] []) = true /\
  is_ok (processMessage_request sample_find sample_program sample_wallet
           1 43113 (2 ^ 70) [] [] [] [] []) = false.
Proof.
  destruct (sdk_request_domain sample_find sample_program sample_wallet
              1 43113 (2 ^ 70) [] [] [] [] []) as [Hc Hp].
  split.
  - apply Hc. lia.
  - apply not_true_is_false. intros E. apply Hp in E. lia.
Defined.

Lemma create_script_and_sdk_requests_witness :
  CreateTxPdaExecutor.execute_request sample_find sample_program sample_wallet
    (-1) 43113 43113 [] [] [] [] []
  = Ok (mkRequest (IxCreateTxPda (mkMessage (-1) 43113 43113 [] [] [] []) [])
          [("txIdPda"%string, derive sample_find sample_program (tx_seeds 43113 1));
           ("counterPda"%string, derive sample_find sample_program (counter_seeds 43113));
           ("relayer"%string, sample_wallet)]) /\
  is_ok (createTxPda_request sample_find sample_program sample_wallet
           (-1) 43113 43113 [] [] [] [] []) = false.
Proof.
  destruct (create_script_and_sdk_requests sample_find sample_program sample_wallet
              (-1) 43113 43113 [] [] [] [] []) as (H1 & _ & H3); [cbn; lia .. |].
  split; [exact H1 | apply H3; lia].
Defined.
